(** * The like / match / notification pipeline of the dating application

    The pipeline lives in the SQL migrations of the repository (tables
    [profiles], [likes], [matches], [messages], [notifications], the
    trigger functions [create_match_on_mutual_like],
    [create_like_notification], [create_match_notification],
    [create_message_notification] and the row-level-security policies) and
    in the client screens that issue the statements ([handleLike],
    [fetchProfiles], the banner handlers of [NotificationProvider], the
    like handlers of the matches screen, [handleNotificationPress] and
    [sendMessage]).

    The database is embedded as a record of tables, each table a list of
    rows in insertion order.  A statement is a function from a database to
    a [result]: either the database after the statement, or the SQLSTATE
    class it raised, in which case the statement (with everything its
    triggers did) is rolled back and the caller keeps the old database.
    Statements run one at a time; [overlapping] describes two inserts
    whose transactions overlap.  Columns that no modelled statement
    reads (timestamps, the descriptive profile attributes) are not part of
    the rows. *)

From Stdlib Require Import Ascii String DecimalString.
From stdpp Require Import gmap strings list.

Local Open Scope N_scope.

(** ** SQL values *)

(** A [uuid] is a 128-bit quantity; PostgreSQL orders uuids as unsigned
    big-endian integers, which is the order of [N]. *)
Abbreviation uuid := N (only parsing).

(** [text] is a sequence of characters (code points): [LENGTH] and [LEFT]
    count characters.  A nullable SQL expression is an [option]. *)
Abbreviation text := (list N) (only parsing).

Definition lit (s : string) : text := N_of_ascii <$> list_ascii_of_string s.

(** [a || b]: NULL as soon as one operand is NULL. *)
Definition sql_concat (a b : option text) : option text :=
  match a, b with
  | Some x, Some y => Some (x ++ y)
  | _, _ => None
  end.
Infix "∥" := sql_concat (at level 61, left associativity).

Definition LEFT (s : text) (n : nat) : text := take n s.
Definition LENGTH (s : text) : nat := length s.
Definition LEAST (a b : uuid) : uuid := N.min a b.
Definition GREATEST (a b : uuid) : uuid := N.max a b.

(** [b IS TRUE]: a NULL condition counts as not true. *)
Definition IS_TRUE (b : option bool) : bool := default false b.

(** [jsonb_build_object] with uuid values. *)
Definition jsonb_build_object (kvs : list (string * uuid)) : gmap string uuid :=
  list_to_map kvs.

(** ** Schema *)

Module Profile.
Record row := { id : uuid; first_name : text }.
End Profile.

Module Like.
Record row :=
  { id : uuid; liker_id : uuid; liked_id : uuid; is_super_like : option bool }.
End Like.

Module Match.
Record row := { id : uuid; user1_id : uuid; user2_id : uuid }.
End Match.

Module Message.
Record row :=
  { id : uuid; match_id : uuid; sender_id : uuid; content : text;
    message_type : option text }.
End Message.

Module Notification.
Record row :=
  { id : uuid; user_id : uuid; type : text; title : text; message : text;
    data : gmap string uuid; read : option bool }.
End Notification.

Record DB :=
  { profiles : list Profile.row;
    likes : list Like.row;
    matches : list Match.row;
    messages : list Message.row;
    notifications : list Notification.row }.

Definition empty_db : DB :=
  {| profiles := []; likes := []; matches := []; messages := [];
     notifications := [] |}.

Definition set_profiles (t : list Profile.row) (db : DB) : DB :=
  {| profiles := t; likes := likes db; matches := matches db;
     messages := messages db; notifications := notifications db |}.
Definition set_likes (t : list Like.row) (db : DB) : DB :=
  {| profiles := profiles db; likes := t; matches := matches db;
     messages := messages db; notifications := notifications db |}.
Definition set_matches (t : list Match.row) (db : DB) : DB :=
  {| profiles := profiles db; likes := likes db; matches := t;
     messages := messages db; notifications := notifications db |}.
Definition set_messages (t : list Message.row) (db : DB) : DB :=
  {| profiles := profiles db; likes := likes db; matches := matches db;
     messages := t; notifications := notifications db |}.
Definition set_notifications (t : list Notification.row) (db : DB) : DB :=
  {| profiles := profiles db; likes := likes db; matches := matches db;
     messages := messages db; notifications := t |}.

(** ** Errors *)

Inductive sqlstate :=
  | not_null_violation
  | check_violation
  | unique_violation
  | foreign_key_violation
  | insufficient_privilege.

Inductive result (A : Type) :=
  | Ok (a : A)
  | Raise (e : sqlstate).
Arguments Ok {A} a.
Arguments Raise {A} e.

#[global] Instance result_ret : MRet result := λ A a, Ok a.
#[global] Instance result_bind : MBind result := λ A B f m,
  match m with
  | Ok a => f a
  | Raise e => Raise e
  end.

(** [ensure b e]: raise [e] unless the constraint [b] holds. *)
Definition ensure (b : bool) (e : sqlstate) : result unit :=
  if b then Ok () else Raise e.

(** The state a caller is left with: a raised error rolls the statement
    back. *)
Definition commit (db : DB) (r : result DB) : DB :=
  match r with
  | Ok db' => db'
  | Raise _ => db
  end.

(** ** Queries used by the constraints and the triggers *)

Definition profile_exists (db : DB) (u : uuid) : bool :=
  bool_decide (u ∈ Profile.id <$> profiles db).

(** [SELECT first_name FROM profiles WHERE id = u]; no row gives NULL. *)
Definition select_first_name (db : DB) (u : uuid) : option text :=
  Profile.first_name <$> head (filter (λ p, Profile.id p = u) (profiles db)).

(** [SELECT user1_id, user2_id FROM matches WHERE id = m] *)
Definition select_match (db : DB) (m : uuid) : option Match.row :=
  head (filter (λ r, Match.id r = m) (matches db)).

(** [EXISTS (SELECT 1 FROM likes WHERE liker_id = a AND liked_id = b)] *)
Definition like_exists (db : DB) (a b : uuid) : bool :=
  bool_decide (Exists (λ l, Like.liker_id l = a ∧ Like.liked_id l = b) (likes db)).

Definition match_exists (db : DB) (u1 u2 : uuid) : bool :=
  bool_decide
    (Exists (λ m, Match.user1_id m = u1 ∧ Match.user2_id m = u2) (matches db)).

(** ** The notifications table *)

Definition notification_types : list text :=
  [lit "like"; lit "super_like"; lit "match"; lit "message"].

(** [INSERT INTO notifications (user_id, type, title, message, data)
     VALUES (...) RETURNING id], with [nid] the value drawn by
    [gen_random_uuid()] for the primary key.  NOT NULL and CHECK are
    tested on the new tuple first, then the primary key index, then the
    foreign key to [profiles]. *)
Definition create_notification (nid : uuid)
    (p_user_id : option uuid) (p_type p_title p_message : option text)
    (p_data : gmap string uuid) (db : DB) : result (uuid * DB) :=
  match p_user_id, p_type, p_title, p_message with
  | Some u, Some ty, Some ti, Some msg =>
      _ ← ensure (bool_decide (ty ∈ notification_types)) check_violation;
      _ ← ensure (bool_decide (nid ∉ Notification.id <$> notifications db))
                unique_violation;
      _ ← ensure (profile_exists db u) foreign_key_violation;
      let NEW :=
        {| Notification.id := nid; Notification.user_id := u;
           Notification.type := ty; Notification.title := ti;
           Notification.message := msg; Notification.data := p_data;
           Notification.read := Some false |} in
      Ok (nid, set_notifications (notifications db ++ [NEW]) db)
  | _, _, _, _ => Raise not_null_violation
  end.

(** ** Notification fanout: the trigger functions *)

(** [create_like_notification()], AFTER INSERT ON likes. *)
Definition create_like_notification (nid : uuid) (NEW : Like.row) (db : DB)
    : result DB :=
  let liker_name := select_first_name db (Like.liker_id NEW) in
  let '(notification_title, notification_message) :=
    if IS_TRUE (Like.is_super_like NEW)
    then (Some (lit "Super Like!"), liker_name ∥ Some (lit " super liked you!"))
    else (Some (lit "New Like!"), liker_name ∥ Some (lit " liked you!")) in
  '(_, db') ← create_notification nid
      (Some (Like.liked_id NEW))
      (Some (if IS_TRUE (Like.is_super_like NEW)
             then lit "super_like" else lit "like"))
      notification_title
      notification_message
      (jsonb_build_object
         [("user_id", Like.liker_id NEW); ("like_id", Like.id NEW)]%string)
      db;
  Ok db'.

(** The title of a match notification ends with U+1F389. *)
Definition match_title : text := lit "It's a Match! " ++ [127881].

(** [create_match_notification()], AFTER INSERT ON matches. *)
Definition create_match_notification (nid1 nid2 : uuid) (NEW : Match.row)
    (db : DB) : result DB :=
  let user1_name := select_first_name db (Match.user1_id NEW) in
  let user2_name := select_first_name db (Match.user2_id NEW) in
  '(_, db1) ← create_notification nid1
      (Some (Match.user1_id NEW))
      (Some (lit "match"))
      (Some match_title)
      (Some (lit "You and ") ∥ user2_name ∥ Some (lit " liked each other!"))
      (jsonb_build_object
         [("match_id", Match.id NEW);
          ("other_user_id", Match.user2_id NEW)]%string)
      db;
  '(_, db2) ← create_notification nid2
      (Some (Match.user2_id NEW))
      (Some (lit "match"))
      (Some match_title)
      (Some (lit "You and ") ∥ user1_name ∥ Some (lit " liked each other!"))
      (jsonb_build_object
         [("match_id", Match.id NEW);
          ("other_user_id", Match.user1_id NEW)]%string)
      db1;
  Ok db2.

(** [create_message_notification()], AFTER INSERT ON messages.  When no
    match row is selected, both fields of [match_record] are NULL, the
    comparison is not true and the ELSE branch is taken. *)
Definition create_message_notification (nid : uuid) (NEW : Message.row)
    (db : DB) : result DB :=
  let match_record := select_match db (Message.match_id NEW) in
  let receiver_id :=
    if bool_decide (Match.user1_id <$> match_record = Some (Message.sender_id NEW))
    then Match.user2_id <$> match_record
    else Match.user1_id <$> match_record in
  let sender_name := select_first_name db (Message.sender_id NEW) in
  '(_, db') ← create_notification nid
      receiver_id
      (Some (lit "message"))
      (Some (lit "New Message"))
      (sender_name ∥ Some (lit ": ") ∥ Some (LEFT (Message.content NEW) 50)
         ∥ Some (if bool_decide (50 < LENGTH (Message.content NEW))%nat
                 then lit "..." else lit ""))
      (jsonb_build_object
         [("match_id", Message.match_id NEW);
          ("sender_id", Message.sender_id NEW);
          ("message_id", Message.id NEW)]%string)
      db;
  Ok db'.

(** ** The matches table and the match deriver *)

(** [INSERT INTO matches (user1_id, user2_id) VALUES (u1, u2)
     ON CONFLICT (user1_id, user2_id) DO NOTHING], followed, when a row
    went in, by [match_notification_trigger].  [mid] is the primary key
    drawn for the row. *)
Definition insert_match_do_nothing (mid nid1 nid2 : uuid) (u1 u2 : uuid)
    (db : DB) : result DB :=
  if match_exists db u1 u2 then Ok db
  else
    _ ← ensure (bool_decide (mid ∉ Match.id <$> matches db)) unique_violation;
    _ ← ensure (profile_exists db u1 && profile_exists db u2)
               foreign_key_violation;
    let NEW := {| Match.id := mid; Match.user1_id := u1; Match.user2_id := u2 |} in
    create_match_notification nid1 nid2 NEW (set_matches (matches db ++ [NEW]) db).

(** [create_match_on_mutual_like()], AFTER INSERT ON likes: it runs on the
    table that already holds [NEW]. *)
Definition create_match_on_mutual_like (mid nid1 nid2 : uuid) (NEW : Like.row)
    (db : DB) : result DB :=
  if like_exists db (Like.liked_id NEW) (Like.liker_id NEW)
  then insert_match_do_nothing mid nid1 nid2
         (LEAST (Like.liker_id NEW) (Like.liked_id NEW))
         (GREATEST (Like.liker_id NEW) (Like.liked_id NEW)) db
  else Ok db.

(** ** Statements on likes and messages *)

(** [INSERT INTO likes (liker_id, liked_id, is_super_like) VALUES ...].
    The row is stored, the foreign keys are verified, and the two AFTER
    INSERT row triggers fire in the order of their names:
    [create_match_trigger], then [like_notification_trigger]. *)
Definition insert_like (lid mid nm1 nm2 nl : uuid) (liker liked : uuid)
    (s : option bool) (db : DB) : result DB :=
  _ ← ensure (bool_decide (lid ∉ Like.id <$> likes db)) unique_violation;
  _ ← ensure (negb (like_exists db liker liked)) unique_violation;
  _ ← ensure (profile_exists db liker && profile_exists db liked)
             foreign_key_violation;
  let NEW := {| Like.id := lid; Like.liker_id := liker; Like.liked_id := liked;
                Like.is_super_like := s |} in
  db1 ← create_match_on_mutual_like mid nm1 nm2 NEW
          (set_likes (likes db ++ [NEW]) db);
  create_like_notification nl NEW db1.

(** The DO UPDATE arm of the upsert: the row of the pair keeps its id and
    takes the proposed flag. *)
Definition set_super_like (liker liked : uuid) (s : option bool) (l : Like.row)
    : Like.row :=
  if bool_decide (Like.liker_id l = liker ∧ Like.liked_id l = liked)
  then {| Like.id := Like.id l; Like.liker_id := liker; Like.liked_id := liked;
          Like.is_super_like := s |}
  else l.

(** [INSERT INTO likes ... ON CONFLICT (liker_id, liked_id) DO UPDATE SET
     liker_id = EXCLUDED.liker_id, liked_id = EXCLUDED.liked_id,
     is_super_like = EXCLUDED.is_super_like]: what the client's
    [upsert(..., {onConflict: 'liker_id,liked_id'})] sends.  The UPDATE arm
    fires no INSERT trigger. *)
Definition upsert_like (lid mid nm1 nm2 nl : uuid) (liker liked : uuid)
    (s : option bool) (db : DB) : result DB :=
  if like_exists db liker liked
  then Ok (set_likes (set_super_like liker liked s <$> likes db) db)
  else insert_like lid mid nm1 nm2 nl liker liked s db.

(** [DELETE FROM likes WHERE id = lid] *)
Definition delete_like (lid : uuid) (db : DB) : DB :=
  set_likes (filter (λ l, Like.id l ≠ lid) (likes db)) db.

Definition message_types : list text := [lit "text"; lit "emoji"; lit "like"].

(** [INSERT INTO messages (match_id, sender_id, content, message_type)
     VALUES ...], then [message_notification_trigger]. *)
Definition insert_message (msgid nid : uuid) (m sender : uuid) (c : text)
    (ty : option text) (db : DB) : result DB :=
  _ ← ensure (from_option (λ t, bool_decide (t ∈ message_types)) true ty)
             check_violation;
  _ ← ensure (bool_decide (msgid ∉ Message.id <$> messages db)) unique_violation;
  _ ← ensure (bool_decide (m ∈ Match.id <$> matches db) && profile_exists db sender)
             foreign_key_violation;
  let NEW := {| Message.id := msgid; Message.match_id := m;
                Message.sender_id := sender; Message.content := c;
                Message.message_type := ty |} in
  create_message_notification nid NEW (set_messages (messages db ++ [NEW]) db).

(** [INSERT INTO profiles (id, first_name, ...) VALUES ...] *)
Definition insert_profile (u : uuid) (name : text) (db : DB) : result DB :=
  _ ← ensure (negb (profile_exists db u)) unique_violation;
  Ok (set_profiles (profiles db ++ [{| Profile.id := u; Profile.first_name := name |}]) db).

(** [UPDATE profiles SET first_name = name WHERE id = u] *)
Definition update_profile (u : uuid) (name : text) (db : DB) : DB :=
  set_profiles
    ((λ p, if bool_decide (Profile.id p = u)
           then {| Profile.id := u; Profile.first_name := name |} else p)
       <$> profiles db) db.

(** [UPDATE notifications SET read = true WHERE id = nid] *)
Definition mark_read (nid : uuid) (db : DB) : DB :=
  set_notifications
    ((λ n, if bool_decide (Notification.id n = nid)
           then {| Notification.id := Notification.id n;
                   Notification.user_id := Notification.user_id n;
                   Notification.type := Notification.type n;
                   Notification.title := Notification.title n;
                   Notification.message := Notification.message n;
                   Notification.data := Notification.data n;
                   Notification.read := Some true |}
           else n) <$> notifications db) db.

(** [DELETE FROM notifications WHERE id = nid] *)
Definition delete_notification (nid : uuid) (db : DB) : DB :=
  set_notifications (filter (λ n, Notification.id n ≠ nid) (notifications db)) db.

(** ** The statements the application issues *)

(** The statements of the screens, and the plain INSERT on [likes] that
    their upsert amounts to for a new pair.  Matches and notifications are
    only ever inserted by the triggers; no screen deletes a profile or a
    match. *)
Inductive statement :=
  | InsertProfile (u : uuid) (first_name : text)
  | UpdateProfile (u : uuid) (first_name : text)
  | InsertLike (lid mid nm1 nm2 nl : uuid) (liker liked : uuid) (s : option bool)
  | UpsertLike (lid mid nm1 nm2 nl : uuid) (liker liked : uuid) (s : option bool)
  | DeleteLike (lid : uuid)
  | InsertMessage (msgid nid : uuid) (m sender : uuid) (c : text)
      (ty : option text)
  | MarkRead (nid : uuid)
  | DeleteNotification (nid : uuid).

Definition exec (st : statement) (db : DB) : result DB :=
  match st with
  | InsertProfile u name => insert_profile u name db
  | UpdateProfile u name => Ok (update_profile u name db)
  | InsertLike lid mid nm1 nm2 nl liker liked s =>
      insert_like lid mid nm1 nm2 nl liker liked s db
  | UpsertLike lid mid nm1 nm2 nl liker liked s =>
      upsert_like lid mid nm1 nm2 nl liker liked s db
  | DeleteLike lid => Ok (delete_like lid db)
  | InsertMessage msgid nid m sender c ty =>
      insert_message msgid nid m sender c ty db
  | MarkRead nid => Ok (mark_read nid db)
  | DeleteNotification nid => Ok (delete_notification nid db)
  end.

(** ** Row-level security *)

(** The policies of the migrations, for the role [authenticated] with
    [auth.uid() = uid].  A table without a policy for a command denies it. *)
Module Policy.
(** "Users can insert own profile" / "Users can update own profile" *)
Definition profiles_own (uid u : uuid) : bool := bool_decide (uid = u).
(** "Users can insert own likes" *)
Definition likes_insert (uid liker : uuid) : bool := bool_decide (uid = liker).
(** "Users can delete own likes" *)
Definition likes_delete (uid : uuid) (l : Like.row) : bool :=
  bool_decide (uid = Like.liker_id l).
(** "System can create matches" *)
Definition matches_insert (uid : uuid) (m : Match.row) : bool := true.
(** "Users can insert messages to their matches" *)
Definition messages_insert (uid : uuid) (m sender : uuid) (db : DB) : bool :=
  bool_decide (uid = sender) &&
  bool_decide (Exists (λ r, Match.id r = m ∧
                            (Match.user1_id r = uid ∨ Match.user2_id r = uid))
                      (matches db)).
(** "Users can update own notifications" / "Users can delete own
    notifications" *)
Definition notifications_own (uid : uuid) (db : DB) (nid : uuid) : bool :=
  bool_decide (Exists (λ n, Notification.id n = nid ∧ Notification.user_id n = uid)
                      (notifications db)).
End Policy.

(** A statement sent by the signed-in user [uid].  INSERT policies are
    tested on the proposed row; the UPDATE arm of the upsert needs an
    UPDATE policy on [likes], and there is none; UPDATE and DELETE only see
    the rows their USING clause admits (ids being primary keys, the row
    named by the statement is visible as a whole or not at all). *)
Definition as_authenticated (uid : uuid) (st : statement) (db : DB) : result DB :=
  match st with
  | InsertProfile u _ =>
      _ ← ensure (Policy.profiles_own uid u) insufficient_privilege; exec st db
  | UpdateProfile u _ =>
      if Policy.profiles_own uid u then exec st db else Ok db
  | InsertLike _ _ _ _ _ liker _ _ =>
      _ ← ensure (Policy.likes_insert uid liker) insufficient_privilege; exec st db
  | UpsertLike _ _ _ _ _ liker liked _ =>
      _ ← ensure (Policy.likes_insert uid liker) insufficient_privilege;
      _ ← ensure (negb (like_exists db liker liked)) insufficient_privilege;
      exec st db
  | DeleteLike lid =>
      Ok (set_likes
            (filter (λ l, ¬ (Like.id l = lid ∧ Policy.likes_delete uid l)) (likes db))
            db)
  | InsertMessage _ _ m sender _ _ =>
      _ ← ensure (Policy.messages_insert uid m sender db) insufficient_privilege;
      exec st db
  | MarkRead nid | DeleteNotification nid =>
      if Policy.notifications_own uid db nid then exec st db else Ok db
  end.

(** One step of the system: a statement that went through, sent either
    with the service role (no policy applies) or by a signed-in user. *)
Definition step (db db' : DB) : Prop :=
  ∃ st, exec st db = Ok db' ∨ ∃ uid, as_authenticated uid st db = Ok db'.

Definition reachable (db : DB) : Prop := rtc step empty_db db.

(** ** The client *)

(** What a supabase call resolves to: [data] is null when the request
    failed, [error] is null when it succeeded. *)
Record response (A : Type) := { data : option A; error : option text }.
Arguments data {A} _.
Arguments error {A} _.

Definition answered {A} (a : A) : response A := {| data := Some a; error := None |}.
Definition failed {A} (e : text) : response A := {| data := None; error := Some e |}.

Module DiscoverScreen.

(** [from('likes').select('liked_id').eq('liker_id', u)] on the server. *)
Definition select_liked_ids (db : DB) (u : uuid) : list uuid :=
  Like.liked_id <$> filter (λ l, Like.liker_id l = u) (likes db).

(** The query on [profiles] that [fetchProfiles] builds:
    [.neq('id', neq_id)], optionally [.not('id', 'in', not_in)], and
    [.limit(limit)]. *)
Record query := { neq_id : uuid; not_in : option (list uuid); limit : nat }.

Definition admits (q : query) (p : Profile.row) : bool :=
  bool_decide (Profile.id p ≠ neq_id q) &&
  from_option (λ ids, bool_decide (Profile.id p ∉ ids)) true (not_in q).

Definition run (q : query) (db : DB) : list Profile.row :=
  take (limit q) (filter (λ p, admits q p) (profiles db)).

(** The screen state. *)
Record state :=
  { profiles : list Profile.row; currentIndex : nat; loading : bool }.

(** [fetchProfiles]: [likes_response] is what the first request resolved
    to, [profiles_endpoint] answers the second one. *)
Definition fetchProfiles (user : option uuid)
    (likes_response : response (list uuid))
    (profiles_endpoint : query → response (list Profile.row))
    (st : state) : state :=
  match user with
  | None => st
  | Some u =>
      let likedIds := default [] (data likes_response) in
      let q := {| neq_id := u;
                  not_in := if bool_decide (0 < length likedIds)%nat
                            then Some likedIds else None;
                  limit := 10 |} in
      let r := profiles_endpoint q in
      match error r with
      | Some _ =>
          {| profiles := profiles st; currentIndex := currentIndex st;
             loading := false |}
      | None =>
          {| profiles := default [] (data r); currentIndex := currentIndex st;
             loading := false |}
      end
  end.

(** [handleLike]: the upsert is sent as the signed-in user; without a
    session no policy admits the row.  On an error the card stays. *)
Definition handleLike (user : option uuid) (lid mid nm1 nm2 nl : uuid)
    (isLike isSuperLike : bool) (st : state) (db : DB) : state * DB :=
  match profiles st !! currentIndex st with
  | None => (st, db)
  | Some profile =>
      let next := {| profiles := profiles st; currentIndex := S (currentIndex st);
                     loading := loading st |} in
      if isLike then
        let r := match user with
                 | Some u =>
                     as_authenticated u
                       (UpsertLike lid mid nm1 nm2 nl u (Profile.id profile)
                          (Some isSuperLike)) db
                 | None => Raise insufficient_privilege
                 end in
        match r with
        | Ok db' => (next, db')
        | Raise _ => (st, db)
        end
      else (next, db)
  end.

End DiscoverScreen.

Module NotificationProvider.

(** The in-app banner, without the [id] taken from the clock.  Strings
    on the client are sequences of UTF-16 code units, which is what
    [substring] and [length] count. *)
Record banner := { type : text; title : text; message : text }.

(** U+1F389 is the surrogate pair D83C DF89. *)
Definition match_title : text := lit "It's a Match! " ++ [55356; 57225].

(** [name || fallback] on a possibly missing string: null, undefined and
    the empty string are falsy. *)
Definition or_else (name : option text) (fallback : text) : text :=
  match name with
  | Some (c :: s) => c :: s
  | _ => fallback
  end.

(** INSERT on likes with [liked_id = user.id]; [profile] is the row
    [maybeSingle()] gave for the liker. *)
Definition on_like (profile : option Profile.row) (like : Like.row) : banner :=
  {| type := lit "like"; title := lit "New Like!";
     message := or_else (Profile.first_name <$> profile) (lit "Someone")
                ++ lit " "
                ++ (if IS_TRUE (Like.is_super_like like)
                    then lit "super liked" else lit "liked")
                ++ lit " you!" |}.

(** INSERT on matches involving the user; [profile] is the other user's. *)
Definition on_match (profile : option Profile.row) (m : Match.row) : banner :=
  {| type := lit "match"; title := match_title;
     message := lit "You and "
                ++ or_else (Profile.first_name <$> profile) (lit "someone")
                ++ lit " liked each other!" |}.

(** INSERT on messages. *)
Definition on_message (user : uuid) (m : option Match.row)
    (profile : option Profile.row) (msg : Message.row) : option banner :=
  if bool_decide (Message.sender_id msg = user) then None
  else match m with
       | None => None
       | Some m =>
           if bool_decide (Match.user1_id m ≠ user ∧ Match.user2_id m ≠ user)
           then None
           else Some
             {| type := lit "message"; title := lit "New Message";
                message := or_else (Profile.first_name <$> profile) (lit "Someone")
                           ++ lit ": " ++ take 50 (Message.content msg)
                           ++ (if bool_decide (50 < length (Message.content msg))%nat
                               then lit "..." else lit "") |}
       end.

End NotificationProvider.

(** ** Integrity of a database *)

Definition like_key (l : Like.row) : uuid * uuid :=
  (Like.liker_id l, Like.liked_id l).
Definition match_key (m : Match.row) : uuid * uuid :=
  (Match.user1_id m, Match.user2_id m).

(** The match rows of the unordered pair {a, b}. *)
Definition joins (a b : uuid) (m : Match.row) : Prop :=
  match_key m = (a, b) ∨ match_key m = (b, a).

#[global] Instance joins_dec a b m : Decision (joins a b m).
Proof. unfold joins. apply _. Defined.

(** The constraints of the schema that the pipeline relies on, and the
    two properties of [matches] that the deriver maintains. *)
Record consistent (db : DB) : Prop :=
  { likes_unique : NoDup (like_key <$> likes db);
    matches_pkey : NoDup (Match.id <$> matches db);
    matches_unique : NoDup (match_key <$> matches db);
    matches_fkey :
      Forall (λ m, Match.user1_id m ∈ Profile.id <$> profiles db ∧
                   Match.user2_id m ∈ Profile.id <$> profiles db) (matches db);
    matches_ordered :
      Forall (λ m, Match.user1_id m ≤ Match.user2_id m) (matches db);
    mutual_matched :
      ∀ a b, (a, b) ∈ like_key <$> likes db → (b, a) ∈ like_key <$> likes db →
             (LEAST a b, GREATEST a b) ∈ match_key <$> matches db }.

(** ** Effects of the triggers, as relations between databases *)

(** The fanout functions write to [notifications] only. *)
Definition fanout_only (db db' : DB) : Prop :=
  profiles db' = profiles db ∧ likes db' = likes db ∧
  matches db' = matches db ∧ messages db' = messages db.

(** The effect of a like insert on the keys of [likes] and on [matches]. *)
Definition like_inserted (db db' : DB) (a b : uuid) : Prop :=
  ((a, b) ∉ like_key <$> likes db) ∧
  profiles db' = profiles db ∧
  like_key <$> likes db' = (like_key <$> likes db) ++ [(a, b)] ∧
  ((((b, a) ∉ like_key <$> likes db') ∧ matches db' = matches db) ∨
   ((b, a) ∈ like_key <$> likes db' ∧
    (LEAST a b, GREATEST a b) ∈ match_key <$> matches db ∧
    matches db' = matches db) ∨
   ((b, a) ∈ like_key <$> likes db' ∧
    ((LEAST a b, GREATEST a b) ∉ match_key <$> matches db) ∧
    LEAST a b ∈ Profile.id <$> profiles db ∧
    GREATEST a b ∈ Profile.id <$> profiles db ∧
    ∃ mid, (mid ∉ Match.id <$> matches db) ∧ matches db' =
      matches db ++ [{| Match.id := mid; Match.user1_id := LEAST a b;
                        Match.user2_id := GREATEST a b |}])).

(** ** The notification triggers, by table *)

(** A row just inserted into one of the three tables that carry a
    notification trigger. *)
Inductive inserted :=
  | InsertedLike (NEW : Like.row)
  | InsertedMatch (NEW : Match.row)
  | InsertedMessage (NEW : Message.row).

(** [like_notification_trigger], [match_notification_trigger] and
    [message_notification_trigger]: AFTER INSERT ... FOR EACH ROW. *)
Definition notification_trigger (nid1 nid2 : uuid) (ev : inserted) (db : DB)
    : result DB :=
  match ev with
  | InsertedLike NEW => create_like_notification nid1 NEW db
  | InsertedMatch NEW => create_match_notification nid1 nid2 NEW db
  | InsertedMessage NEW => create_message_notification nid1 NEW db
  end.

(** The users whose first name the trigger reads. *)
Definition actors (ev : inserted) : list uuid :=
  match ev with
  | InsertedLike NEW => [Like.liker_id NEW]
  | InsertedMatch NEW => [Match.user1_id NEW; Match.user2_id NEW]
  | InsertedMessage NEW => [Message.sender_id NEW]
  end.

(** ** Sessions and the scenario of the specification *)

(** Statements sent one after the other; one that raises is rolled back. *)
Definition run (sts : list statement) (db : DB) : DB :=
  foldl (λ db st, commit db (exec st db)) db sts.

(** Ann (id 1) and Bob (id 2) have completed onboarding. *)
Definition ann_and_bob : DB :=
  run [InsertProfile 1 (lit "Ann"); InsertProfile 2 (lit "Bob")] empty_db.

(** Ann has liked Bob. *)
Definition ann_likes_bob : DB :=
  run [InsertLike 10 20 30 31 32 1 2 (Some false)] ann_and_bob.

(** Bob has liked Ann back: match 21 is derived. *)
Definition ann_and_bob_matched : DB :=
  run [InsertLike 11 21 33 34 35 2 1 (Some true)] ann_likes_bob.

(** Bob's like as its AFTER INSERT triggers receive it, the database they
    start from, and the database the deriver leaves. *)
Definition bobs_like : Like.row :=
  {| Like.id := 11; Like.liker_id := 2; Like.liked_id := 1;
     Like.is_super_like := Some true |}.
Definition bobs_like_stored : DB :=
  set_likes (likes ann_likes_bob ++ [bobs_like]) ann_likes_bob.
Definition bobs_like_derived : DB :=
  commit bobs_like_stored
    (create_match_on_mutual_like 21 33 34 bobs_like bobs_like_stored).

(** The message of the specification's scenario (77 characters). *)
Definition greeting : text :=
  lit "Hello there, this is a moderately long greeting that exceeds fifty characters".

(** Cy (id 3) joins after Ann and Bob have matched. *)
Definition with_cy : DB := run [InsertProfile 3 (lit "Cy")] ann_and_bob_matched.

(** Ann's discovery screen showing Bob's card. *)
Definition bob : Profile.row := {| Profile.id := 2; Profile.first_name := lit "Bob" |}.
Definition ann_sees_bob : DiscoverScreen.state :=
  {| DiscoverScreen.profiles := [bob]; DiscoverScreen.currentIndex := 0;
     DiscoverScreen.loading := false |}.

(** ** Keys and references of the other tables *)

(** Primary keys are unique and foreign keys resolve, for the tables that
    [consistent] does not cover; a notification has one of the four
    types. *)
Record integrity (db : DB) : Prop :=
  { profiles_pkey : NoDup (Profile.id <$> profiles db);
    likes_pkey : NoDup (Like.id <$> likes db);
    likes_fkey :
      Forall (λ l, Like.liker_id l ∈ Profile.id <$> profiles db ∧
                   Like.liked_id l ∈ Profile.id <$> profiles db) (likes db);
    messages_pkey : NoDup (Message.id <$> messages db);
    messages_fkey :
      Forall (λ m, Message.match_id m ∈ Match.id <$> matches db ∧
                   Message.sender_id m ∈ Profile.id <$> profiles db) (messages db);
    notifications_pkey : NoDup (Notification.id <$> notifications db);
    notifications_fkey :
      Forall (λ n, Notification.user_id n ∈ Profile.id <$> profiles db ∧
                   Notification.type n ∈ notification_types) (notifications db) }.

(** What a fanout trigger may do to a database: append rows to
    [notifications], each with a fresh id, an existing recipient and an
    allowed type. *)
Definition notified (db db' : DB) (ns : list Notification.row) : Prop :=
  profiles db' = profiles db ∧ likes db' = likes db ∧
  matches db' = matches db ∧ messages db' = messages db ∧
  notifications db' = notifications db ++ ns ∧
  NoDup (Notification.id <$> ns) ∧
  Forall (λ n, (Notification.id n ∉ Notification.id <$> notifications db) ∧
               Notification.user_id n ∈ Profile.id <$> profiles db ∧
               Notification.type n ∈ notification_types ∧
               Notification.read n = Some false) ns.

(** ** The rows the fanout triggers build *)

(** The row [create_like_notification] inserts for the like [NEW], given
    the liker's first name. *)
Definition like_notification (nid : uuid) (NEW : Like.row) (liker_name : text)
    : Notification.row :=
  {| Notification.id := nid;
     Notification.user_id := Like.liked_id NEW;
     Notification.type :=
       if IS_TRUE (Like.is_super_like NEW) then lit "super_like" else lit "like";
     Notification.title :=
       if IS_TRUE (Like.is_super_like NEW) then lit "Super Like!" else lit "New Like!";
     Notification.message :=
       liker_name ++ (if IS_TRUE (Like.is_super_like NEW)
                      then lit " super liked you!" else lit " liked you!");
     Notification.data :=
       {[ "user_id"%string := Like.liker_id NEW; "like_id"%string := Like.id NEW ]};
     Notification.read := Some false |}.

(** One of the two rows [create_match_notification] inserts for the match
    [m]: addressed to [to], about [other]. *)
Definition match_notification (nid : uuid) (m : uuid) (to other : uuid)
    (other_name : text) : Notification.row :=
  {| Notification.id := nid;
     Notification.user_id := to;
     Notification.type := lit "match";
     Notification.title := match_title;
     Notification.message := lit "You and " ++ other_name ++ lit " liked each other!";
     Notification.data :=
       {[ "match_id"%string := m; "other_user_id"%string := other ]};
     Notification.read := Some false |}.

(** The row the like [A] to [B] becomes. *)
Definition like_row (lid A B : uuid) (s : option bool) : Like.row :=
  {| Like.id := lid; Like.liker_id := A; Like.liked_id := B;
     Like.is_super_like := s |}.

(** Ann has withdrawn her like after the match. *)
Definition ann_unliked : DB := run [DeleteLike 10] ann_and_bob_matched.

(** ** The matches screen *)

Module MatchesScreen.

(** A like as the screen receives it, with the liker's profile embedded
    (the [profile] column, joined through [likes_liker_id_fkey]). *)
Record Like := { like : Like.row; profile : option Profile.row }.

Inductive tab := likes_tab | matches_tab.

(** The part of the screen state that the like handlers read and write
    ([matches] and [loading] belong to [fetchMatches]). *)
Record state :=
  { activeTab : tab; pendingLikes : list Like; selectedProfile : option Like;
    showProfileModal : bool; notificationCount : nat }.

(** [from('likes').select('*, profile:...').eq('liked_id', u)] on the
    server. *)
Definition select_incoming (db : DB) (u : uuid) : list Like :=
  (λ l, {| like := l;
           profile := head (filter (λ p, Profile.id p = Like.liker_id l) (profiles db)) |})
    <$> filter (λ l, Like.liked_id l = u) (likes db).

(** [from('matches').select('user1_id, user2_id')
     .or('user1_id.eq.u,user2_id.eq.u')] on the server. *)
Definition select_own_matches (db : DB) (u : uuid) : list Match.row :=
  filter (λ m, Match.user1_id m = u ∨ Match.user2_id m = u) (matches db).

(** [fetchPendingLikes]: an error of the likes request is thrown and
    logged, the one of the matches request is not looked at. *)
Definition fetchPendingLikes (user : option uuid)
    (likes_response : response (list Like))
    (matches_response : response (list Match.row)) (st : state) : state :=
  match user with
  | None => st
  | Some u =>
      match error likes_response with
      | Some _ => st
      | None =>
          let matchedUserIds :=
            (λ m, if bool_decide (Match.user1_id m = u)
                  then Match.user2_id m else Match.user1_id m)
              <$> default [] (data matches_response) in
          let pending :=
            default []
              (filter (λ l, Like.liker_id (like l) ∉ matchedUserIds)
                 <$> data likes_response) in
          {| activeTab := activeTab st; pendingLikes := pending;
             selectedProfile := selectedProfile st;
             showProfileModal := showProfileModal st;
             notificationCount := length pending |}
      end
  end.

(** [handleLikeProfile] *)
Definition handleLikeProfile (l : Like) (st : state) : state :=
  {| activeTab := activeTab st; pendingLikes := pendingLikes st;
     selectedProfile := Some l; showProfileModal := true;
     notificationCount := notificationCount st |}.

(** The state both handlers leave when they close the modal. *)
Definition closed (t : tab) (st : state) : state :=
  {| activeTab := t; pendingLikes := pendingLikes st; selectedProfile := None;
     showProfileModal := false; notificationCount := notificationCount st |}.


(** [handlePassLike]: [delete().eq('id', selectedProfile.id)]; the answer
    is not looked at and the modal closes.  Without a session no policy
    applies and no row is visible. *)
Definition handlePassLike (user : option uuid) (st : state) (db : DB)
    : state * DB :=
  match selectedProfile st with
  | None => (st, db)
  | Some sel =>
      let db' := match user with
                 | Some u =>
                     commit db (as_authenticated u (DeleteLike (Like.id (like sel))) db)
                 | None => db
                 end in
      (closed (activeTab st) st, db')
  end.

End MatchesScreen.

(** Bob opens the matches screen. *)
Definition bob_opens_matches : MatchesScreen.state :=
  {| MatchesScreen.activeTab := MatchesScreen.likes_tab;
     MatchesScreen.pendingLikes := []; MatchesScreen.selectedProfile := None;
     MatchesScreen.showProfileModal := false;
     MatchesScreen.notificationCount := 0 |}.

(** Ann's like as Bob's matches screen shows it. *)
Definition anns_like_shown : MatchesScreen.Like :=
  {| MatchesScreen.like := like_row 10 1 2 (Some false);
     MatchesScreen.profile :=
       Some {| Profile.id := 1; Profile.first_name := lit "Ann" |} |}.

(** ** The notifications screen *)

(** A number in a template literal: its decimal digits. *)
Definition decimal (n : Z) : text := lit (NilZero.string_of_int (Z.to_int n)).

(** The keys of the [data] object that the trigger functions build, by
    notification type. *)
Definition payload_keys (ty : text) : gset string :=
  if bool_decide (ty = lit "message")
  then {[ "match_id"; "sender_id"; "message_id" ]}%string
  else if bool_decide (ty = lit "match")
       then {[ "match_id"; "other_user_id" ]}%string
       else {[ "user_id"; "like_id" ]}%string.

Module NotificationsScreen.

(** A notification as the screen holds it: the row with the joined
    [source_profile]. *)
Record Notification :=
  { row : Notification.row; source_profile : option Profile.row }.

(** Where [router.push] goes. *)
Inductive route :=
  | matches_tab
  | chat (matchId : uuid) (profileName : text).

Definition set_read (n : Notification) : Notification :=
  {| row := {| Notification.id := Notification.id (row n);
               Notification.user_id := Notification.user_id (row n);
               Notification.type := Notification.type (row n);
               Notification.title := Notification.title (row n);
               Notification.message := Notification.message (row n);
               Notification.data := Notification.data (row n);
               Notification.read := Some true |};
     source_profile := source_profile n |}.

(** [markAsRead]: the UPDATE is sent as the signed-in user and its answer
    is not looked at; the list on the screen is updated in any case. *)
Definition markAsRead (user : option uuid) (notificationId : uuid)
    (st : list Notification) (db : DB) : list Notification * DB :=
  ((λ notif, if bool_decide (Notification.id (row notif) = notificationId)
             then set_read notif else notif) <$> st,
   match user with
   | Some u => commit db (as_authenticated u (MarkRead notificationId) db)
   | None => db
   end).

(** [deleteNotification] *)
Definition deleteNotification (user : option uuid) (notificationId : uuid)
    (st : list Notification) (db : DB) : list Notification * DB :=
  (filter (λ notif, Notification.id (row notif) ≠ notificationId) st,
   match user with
   | Some u => commit db (as_authenticated u (DeleteNotification notificationId) db)
   | None => db
   end).

(** [handleNotificationPress]: the route pushed, if any, with the screen
    list and the database it leaves. *)
Definition handleNotificationPress (user : option uuid)
    (notification : Notification) (st : list Notification) (db : DB)
    : option route * (list Notification * DB) :=
  let s := if IS_TRUE (Notification.read (row notification)) then (st, db)
           else markAsRead user (Notification.id (row notification)) st db in
  let ty := Notification.type (row notification) in
  (if bool_decide (ty = lit "like") then Some matches_tab
   else if bool_decide (ty = lit "super_like") then Some matches_tab
   else if bool_decide (ty = lit "match") then Some matches_tab
   else if bool_decide (ty = lit "message") then
     match Notification.data (row notification) !! "matchId"%string with
     | Some matchId =>
         Some (chat matchId
                 (NotificationProvider.or_else
                    (Profile.first_name <$> source_profile notification)
                    (lit "User")))
     | None => None
     end
   else None,
   s).

(** [getTimeAgo], with the two dates as [getTime()] gives them:
    milliseconds since the epoch. *)
Definition getTimeAgo (now date : Z) : text :=
  let diffInMinutes := ((now - date) / (1000 * 60))%Z in
  if (diffInMinutes <? 1)%Z then lit "just now"
  else if (diffInMinutes <? 60)%Z then decimal diffInMinutes ++ lit "m ago"
  else if (diffInMinutes <? 1440)%Z
       then decimal (diffInMinutes / 60) ++ lit "h ago"
       else decimal (diffInMinutes / 1440) ++ lit "d ago".

End NotificationsScreen.

(** Ann has written to Bob. *)
Definition ann_wrote : DB :=
  run [InsertMessage 40 41 21 1 (lit "Hi Bob") (Some (lit "text"))]
    ann_and_bob_matched.

(** The notification of that message, as Bob's screen lists it. *)
Definition bobs_message_notification : Notification.row :=
  {| Notification.id := 41; Notification.user_id := 2;
     Notification.type := lit "message"; Notification.title := lit "New Message";
     Notification.message := lit "Ann: Hi Bob";
     Notification.data :=
       {[ "match_id"%string := 21; "sender_id"%string := 1;
          "message_id"%string := 40 ]};
     Notification.read := Some false |}.

(** A stored notification carries the keys of its type. *)
Definition payload_ok (n : Notification.row) : Prop :=
  dom (Notification.data n) = payload_keys (Notification.type n).

(** ** The chat screen *)

Module ChatScreen.

(** The code units [String.prototype.trim] removes: WhiteSpace and
    LineTerminator of ECMAScript. *)
Definition is_space (c : N) : bool :=
  ((9 <=? c) && (c <=? 13)) || (c =? 32) || (c =? 160) || (c =? 5760)
  || ((8192 <=? c) && (c <=? 8202)) || (c =? 8232) || (c =? 8233)
  || (c =? 8239) || (c =? 8287) || (c =? 12288) || (c =? 65279).

Fixpoint trimStart (s : text) : text :=
  match s with
  | c :: s' => if is_space c then trimStart s' else s
  | [] => []
  end.

Definition trim (s : text) : text :=
  reverse (trimStart (reverse (trimStart s))).

(** ['text' | 'emoji' | 'like'] *)
Inductive kind := text_kind | emoji_kind | like_kind.

Definition kind_text (k : kind) : text :=
  match k with
  | text_kind => lit "text"
  | emoji_kind => lit "emoji"
  | like_kind => lit "like"
  end.

#[global] Instance kind_eq_dec : EqDecision kind.
Proof. solve_decision. Defined.

(** The fallback content, as the file has the literal. *)
Definition heart : text := [226; 164; 239; 184].

(** The part of the screen state that [sendMessage] writes. *)
Record state := { newMessage : text; showEmojiPicker : bool }.

(** [sendMessage]: the insert is sent as the signed-in user.  The typing
    flag it clears afterwards lives in [user_status], which no trigger
    reads. *)
Definition sendMessage (user : option uuid) (matchId : uuid) (msgid nid : uuid)
    (content : text) (type : kind) (st : state) (db : DB) : state * DB :=
  if bool_decide (trim content = []) && bool_decide (type = text_kind)
  then (st, db)
  else
    match user with
    | None => (st, db)
    | Some u =>
        let c := match trim content with [] => heart | t => t end in
        match as_authenticated u
                (InsertMessage msgid nid matchId u c (Some (kind_text type))) db with
        | Ok db' =>
            ({| newMessage := if bool_decide (type = text_kind)
                              then [] else newMessage st;
                showEmojiPicker := false |}, db')
        | Raise _ => (st, db)
        end
    end.

(** [sendLike] and [sendEmoji] *)
Definition sendLike (user : option uuid) (matchId msgid nid : uuid)
    (st : state) (db : DB) : state * DB :=
  sendMessage user matchId msgid nid heart like_kind st db.

Definition sendEmoji (user : option uuid) (matchId msgid nid : uuid)
    (emoji : text) (st : state) (db : DB) : state * DB :=
  sendMessage user matchId msgid nid emoji emoji_kind st db.

(** The row of [user_status] the screen holds for the other user. *)
Record UserStatus := { is_online : bool; last_seen : Z; is_typing : bool }.

(** [getStatusText] *)
Definition getStatusText (now : Z) (userStatus : option UserStatus) : text :=
  match userStatus with
  | None => lit ""
  | Some s =>
      if is_typing s then lit "typing..."
      else if is_online s then lit "online"
      else
        let diffInMinutes := ((now - last_seen s) / (1000 * 60))%Z in
        if (diffInMinutes <? 1)%Z then lit "just now"
        else if (diffInMinutes <? 60)%Z then decimal diffInMinutes ++ lit "m ago"
        else if (diffInMinutes <? 1440)%Z
             then decimal (diffInMinutes / 60) ++ lit "h ago"
             else decimal (diffInMinutes / 1440) ++ lit "d ago"
  end.

End ChatScreen.

(** A text without white space at either end, and not empty. *)
Definition trimmed (c : text) : Prop :=
  c ≠ [] ∧
  (∀ x, head c = Some x → ChatScreen.is_space x = false) ∧
  (∀ x, last c = Some x → ChatScreen.is_space x = false).

(** ** The banners of the notification context *)

Module NotificationContext.

(** A banner in the list: [id] is the clock reading [Date.now()] at the
    time it was shown (its decimal string in the source). *)
Record Notification := { id : N; body : NotificationProvider.banner }.

Definition showNotification (now : N) (notification : NotificationProvider.banner)
    (prev : list Notification) : list Notification :=
  prev ++ [{| id := now; body := notification |}].

Definition dismissNotification (i : N) (prev : list Notification)
    : list Notification :=
  filter (λ n, id n ≠ i) prev.

Definition clearAllNotifications (prev : list Notification) : list Notification :=
  [].

End NotificationContext.

(** ** The photos of a card *)

Module Photos.

(** [nextPhoto] and [prevPhoto]: [photos] are those of
    [profiles[currentIndex]], if there is such a profile; the result is
    the new [currentPhotoIndex]. *)
Definition nextPhoto (photos : option (list text)) (prev : nat) : nat :=
  match photos with
  | Some ps =>
      if bool_decide (1 < length ps)%nat
      then if bool_decide (prev < length ps - 1)%nat then (prev + 1)%nat else 0%nat
      else prev
  | None => prev
  end.

Definition prevPhoto (photos : option (list text)) (prev : nat) : nat :=
  match photos with
  | Some ps =>
      if bool_decide (1 < length ps)%nat
      then if bool_decide (0 < prev)%nat then (prev - 1)%nat else (length ps - 1)%nat
      else prev
  | None => prev
  end.

End Photos.

(** ** Overlapping transactions *)

(** The rows a statement has added to a table it only appends to. *)
Definition added {A} (old new : list A) : list A := drop (length old) new.



(** Ann has liked herself, which derived the match (1, 1). *)
Definition ann_likes_herself : DB :=
  run [InsertLike 12 22 36 37 38 1 1 (Some false)] ann_and_bob.

(** * Proofs *)

(** ** The result monad *)

Lemma bind_Ok {A B} (m : result A) (f : A → result B) (b : B) :
  m ≫= f = Ok b ↔ ∃ a, m = Ok a ∧ f a = Ok b.
Proof.
  destruct m as [a|e]; simpl; split.
  - eauto.
  - by intros (a' & [= ->] & ?).
  - done.
  - by intros (? & ? & ?).
Qed.

Lemma bind_Ok_l {A B} (a : A) (f : A → result B) : Ok a ≫= f = f a.
Proof. done. Qed.

Lemma ensure_Ok (b : bool) (e : sqlstate) (u : unit) : ensure b e = Ok u ↔ b = true.
Proof. destruct b, u; simpl; split; congruence. Qed.

(** Splits a successful sequence of constraint tests and calls. *)
Ltac ok_inv H :=
  repeat match type of H with
  | _ ≫= _ = Ok _ =>
      let x := fresh "x" in let Hx := fresh "Hx" in
      apply bind_Ok in H as (x & Hx & H);
      try (apply ensure_Ok in Hx)
  | match ?p with (_, _) => _ end = Ok _ => is_var p; destruct p
  end.

(** ** Membership tests *)

Lemma like_exists_spec db a b :
  like_exists db a b = true ↔ (a, b) ∈ like_key <$> likes db.
Proof.
  unfold like_exists. rewrite bool_decide_eq_true, Exists_exists, list_elem_of_fmap.
  split.
  - intros (l & Hl & <- & <-). by exists l.
  - intros (l & [= -> ->] & Hl). by exists l.
Qed.

Lemma match_exists_spec db u1 u2 :
  match_exists db u1 u2 = true ↔ (u1, u2) ∈ match_key <$> matches db.
Proof.
  unfold match_exists. rewrite bool_decide_eq_true, Exists_exists, list_elem_of_fmap.
  split.
  - intros (m & Hm & <- & <-). by exists m.
  - intros (m & [= -> ->] & Hm). by exists m.
Qed.

Lemma profile_exists_spec db u :
  profile_exists db u = true ↔ u ∈ Profile.id <$> profiles db.
Proof. unfold profile_exists. by rewrite bool_decide_eq_true. Qed.

Lemma select_first_name_Some db u :
  u ∈ Profile.id <$> profiles db → is_Some (select_first_name db u).
Proof.
  intros (p & -> & Hp)%list_elem_of_fmap. unfold select_first_name.
  destruct (filter _ _) as [|q l] eqn:E; simpl; [|by eexists].
  exfalso. by apply (filter_nil_not_elem_of _ _ p E).
Qed.

Lemma select_first_name_None db u :
  select_first_name db u = None ↔ u ∉ Profile.id <$> profiles db.
Proof.
  split.
  - intros E Hin. apply select_first_name_Some in Hin as [? ?]. congruence.
  - intros Hnin. unfold select_first_name.
    destruct (filter _ _) as [|q l] eqn:E; [done|].
    assert (q ∈ filter (λ p, Profile.id p = u) (profiles db)) as Hq
      by (rewrite E; left).
    apply list_elem_of_filter in Hq as [<- Hq].
    destruct Hnin. by apply list_elem_of_fmap_2.
Qed.

(** ** What each trigger function writes *)

Lemma fanout_only_trans db1 db2 db3 :
  fanout_only db1 db2 → fanout_only db2 db3 → fanout_only db1 db3.
Proof. unfold fanout_only. intros (?&?&?&?) (?&?&?&?). repeat split; congruence. Qed.

Lemma create_notification_fanout nid u ty ti msg d db r db' :
  create_notification nid u ty ti msg d db = Ok (r, db') → fanout_only db db'.
Proof.
  unfold create_notification.
  destruct u, ty, ti, msg; try done.
  intros H. ok_inv H. by injection H as <- <-.
Qed.

Lemma create_like_notification_fanout nid NEW db db' :
  create_like_notification nid NEW db = Ok db' → fanout_only db db'.
Proof.
  unfold create_like_notification.
  destruct (IS_TRUE _); intros H; ok_inv H;
    injection H as <-; eauto using create_notification_fanout.
Qed.

Lemma create_match_notification_fanout nid1 nid2 NEW db db' :
  create_match_notification nid1 nid2 NEW db = Ok db' → fanout_only db db'.
Proof.
  unfold create_match_notification. intros H. ok_inv H. injection H as <-.
  eauto using fanout_only_trans, create_notification_fanout.
Qed.

Lemma create_message_notification_fanout nid NEW db db' :
  create_message_notification nid NEW db = Ok db' → fanout_only db db'.
Proof.
  unfold create_message_notification. intros H. ok_inv H. injection H as <-.
  eauto using create_notification_fanout.
Qed.

(** The conflict-ignoring insert either leaves the database alone or
    appends the one row. *)
Lemma insert_match_do_nothing_Ok mid nid1 nid2 u1 u2 db db' :
  insert_match_do_nothing mid nid1 nid2 u1 u2 db = Ok db' →
  (match_exists db u1 u2 = true ∧ db' = db) ∨
  (match_exists db u1 u2 = false ∧ (mid ∉ Match.id <$> matches db) ∧
   u1 ∈ Profile.id <$> profiles db ∧ u2 ∈ Profile.id <$> profiles db ∧
   profiles db' = profiles db ∧ likes db' = likes db ∧ messages db' = messages db ∧
   matches db' =
     matches db ++ [{| Match.id := mid; Match.user1_id := u1; Match.user2_id := u2 |}]).
Proof.
  unfold insert_match_do_nothing.
  destruct (match_exists db u1 u2) eqn:E.
  - intros [= <-]. by left.
  - intros H. ok_inv H. right.
    apply andb_true_iff in Hx0 as [H1%profile_exists_spec H2%profile_exists_spec].
    apply bool_decide_eq_true in Hx.
    apply create_match_notification_fanout in H as (?&?&?&?).
    by repeat split.
Qed.

Lemma create_match_on_mutual_like_Ok mid nid1 nid2 NEW db db' :
  create_match_on_mutual_like mid nid1 nid2 NEW db = Ok db' →
  let u1 := LEAST (Like.liker_id NEW) (Like.liked_id NEW) in
  let u2 := GREATEST (Like.liker_id NEW) (Like.liked_id NEW) in
  profiles db' = profiles db ∧ likes db' = likes db ∧ messages db' = messages db ∧
  ((like_exists db (Like.liked_id NEW) (Like.liker_id NEW) = false ∧
    matches db' = matches db) ∨
   (like_exists db (Like.liked_id NEW) (Like.liker_id NEW) = true ∧
    match_exists db u1 u2 = true ∧ matches db' = matches db) ∨
   (like_exists db (Like.liked_id NEW) (Like.liker_id NEW) = true ∧
    match_exists db u1 u2 = false ∧ (mid ∉ Match.id <$> matches db) ∧
    u1 ∈ Profile.id <$> profiles db ∧ u2 ∈ Profile.id <$> profiles db ∧
    matches db' =
      matches db ++ [{| Match.id := mid; Match.user1_id := u1; Match.user2_id := u2 |}])).
Proof.
  unfold create_match_on_mutual_like.
  destruct (like_exists db _ _) eqn:E.
  - intros [[? ->]|(?&?&?&?&?&?&?&?)]%insert_match_do_nothing_Ok; simpl.
    + repeat split; auto.
    + repeat split; auto. right; right. by repeat split.
  - intros [= <-]. repeat split; auto.
Qed.

Lemma like_exists_snoc db NEW a b :
  like_exists (set_likes (likes db ++ [NEW]) db) a b = true ↔
  (a, b) ∈ like_key <$> likes db ∨ (a, b) = like_key NEW.
Proof.
  rewrite like_exists_spec. simpl. rewrite fmap_app, elem_of_app. simpl.
  by rewrite list_elem_of_singleton.
Qed.

Lemma insert_like_Ok lid mid nm1 nm2 nl liker liked s db db' :
  insert_like lid mid nm1 nm2 nl liker liked s db = Ok db' →
  like_inserted db db' liker liked ∧ messages db' = messages db ∧
  likes db' = likes db ++ [{| Like.id := lid; Like.liker_id := liker;
                              Like.liked_id := liked; Like.is_super_like := s |}].
Proof.
  unfold insert_like. intros H. ok_inv H.
  apply negb_true_iff in Hx0.
  apply create_like_notification_fanout in H as (Hp & Hl & Hm & Hg).
  apply create_match_on_mutual_like_Ok in Hx2 as (Hp1 & Hl1 & Hg1 & Hcases).
  simpl in *.
  assert (likes db' = likes db ++ [{| Like.id := lid; Like.liker_id := liker;
            Like.liked_id := liked; Like.is_super_like := s |}]) as Hlikes
    by congruence.
  assert (∀ b, like_exists (set_likes (likes db ++ [{| Like.id := lid;
            Like.liker_id := liker; Like.liked_id := liked;
            Like.is_super_like := s |}]) db) liked liker = b →
          if b then (liked, liker) ∈ like_key <$> likes db'
          else (liked, liker) ∉ like_key <$> likes db') as Hrec.
  { intros [] E.
    - apply like_exists_spec in E. simpl in E. by rewrite Hlikes.
    - intros Hin. rewrite Hlikes in Hin.
      apply not_true_iff_false in E. apply E, like_exists_spec. by simpl. }
  split; [|split; [congruence|done]].
  split; [|split; [congruence|split]].
  - intros Hin%like_exists_spec. congruence.
  - by rewrite Hlikes, fmap_app.
  - destruct Hcases as [[E Hm1]|[(E & Hex & Hm1)|(E & Hex & Hmid & H1 & H2 & Hm1)]].
    + left. split; [exact (Hrec _ E)|congruence].
    + right; left. split; [exact (Hrec _ E)|].
      split; [by apply match_exists_spec in Hex|congruence].
    + right; right. split; [exact (Hrec _ E)|].
      split; [|split; [done|split; [done|]]].
      * intros Hin%match_exists_spec. unfold match_exists in *. simpl in *.
        congruence.
      * exists mid. split; [done|congruence].
Qed.

(** ** Preservation of integrity *)

Lemma consistent_empty : consistent empty_db.
Proof.
  split; simpl; try constructor.
  intros a b Hin. by apply elem_of_nil in Hin.
Qed.

(** Statements that remove likes, or leave their keys alone, and that do
    not touch [matches] nor remove a profile. *)
Lemma consistent_frame db db' :
  consistent db →
  (like_key <$> likes db') `sublist_of` (like_key <$> likes db) →
  matches db' = matches db →
  (Profile.id <$> profiles db) ⊆ (Profile.id <$> profiles db') →
  consistent db'.
Proof.
  intros [Hlu Hpk Hmu Hfk Hord Hmm] Hsub Hm Hp. split.
  - by eapply sublist_NoDup; [exact Hlu|].
  - by rewrite Hm.
  - by rewrite Hm.
  - rewrite Hm. eapply Forall_impl; [exact Hfk|]. intros m [? ?]. split; by apply Hp.
  - by rewrite Hm.
  - intros a b Ha Hb. rewrite Hm. apply Hmm; by eapply elem_of_sublist.
Qed.

Lemma LEAST_comm a b : LEAST a b = LEAST b a.
Proof. apply N.min_comm. Qed.

Lemma GREATEST_comm a b : GREATEST a b = GREATEST b a.
Proof. apply N.max_comm. Qed.

Lemma LEAST_le_GREATEST a b : LEAST a b ≤ GREATEST a b.
Proof. unfold LEAST, GREATEST. lia. Qed.

Lemma like_inserted_consistent db db' a b :
  consistent db → like_inserted db db' a b → consistent db'.
Proof.
  intros [Hlu Hpk Hmu Hfk Hord Hmm] (Hfresh & Hp & Hkeys & Hcases).
  assert (∃ ms, matches db' = matches db ++ ms ∧
            Forall (λ m, match_key m = (LEAST a b, GREATEST a b) ∧
                         (Match.id m ∉ Match.id <$> matches db) ∧
                         (match_key m ∉ match_key <$> matches db) ∧
                         Match.user1_id m ∈ Profile.id <$> profiles db ∧
                         Match.user2_id m ∈ Profile.id <$> profiles db) ms ∧
            length ms ≤ 1)%nat as (ms & Hm & Hms & Hlen).
  { destruct Hcases as [[_ Hm]|[(_ & _ & Hm)|(_ & Hnew & H1 & H2 & mid & Hmid & Hm)]].
    - exists []. rewrite app_nil_r. repeat split; auto.
    - exists []. rewrite app_nil_r. repeat split; auto.
    - eexists [_]. split; [exact Hm|]. split; [|simpl; lia].
      constructor; [|constructor]. by repeat split. }
  split.
  - rewrite Hkeys. apply NoDup_app. split; [done|]. split; [|apply NoDup_singleton].
    intros x Hx ->%list_elem_of_singleton. done.
  - rewrite Hm, fmap_app. apply NoDup_app. split; [done|]. split.
    + intros k Hk (m & -> & Hin)%list_elem_of_fmap.
      rewrite Forall_forall in Hms. by destruct (Hms m Hin) as (_ & Hn & _).
    + destruct ms as [|m [|m' ms]]; simpl in *; try lia; [constructor|].
      apply NoDup_singleton.
  - rewrite Hm, fmap_app. apply NoDup_app. split; [done|]. split.
    + intros k Hk (m & -> & Hin)%list_elem_of_fmap.
      rewrite Forall_forall in Hms. by destruct (Hms m Hin) as (_ & _ & Hn & _).
    + destruct ms as [|m [|m' ms]]; simpl in *; try lia; [constructor|].
      apply NoDup_singleton.
  - rewrite Hm, Hp. apply Forall_app. split; [done|].
    eapply Forall_impl; [exact Hms|]. by intros m (_ & _ & _ & ? & ?).
  - rewrite Hm. apply Forall_app. split; [done|].
    eapply Forall_impl; [exact Hms|]. intros [i u1 u2] ([= -> ->] & _). simpl.
    apply LEAST_le_GREATEST.
  - assert ((b, a) ∈ like_key <$> likes db' →
            (LEAST a b, GREATEST a b) ∈ match_key <$> matches db') as Hnew.
    { intros Hba.
      destruct Hcases as [[Hn _]|[(_ & Hin & Hm')|(_ & _ & _ & _ & mid & _ & Hm')]].
      - done.
      - by rewrite Hm'.
      - rewrite Hm', fmap_app, elem_of_app. right. simpl. left. }
    intros x y Hxy Hyx.
    pose proof Hxy as Hxy'. pose proof Hyx as Hyx'.
    rewrite Hkeys, elem_of_app, list_elem_of_singleton in Hxy', Hyx'.
    destruct Hxy' as [Hxy'|[= -> ->]].
    + destruct Hyx' as [Hyx'|[= -> ->]].
      * rewrite Hm, fmap_app, elem_of_app. left. by apply Hmm.
      * rewrite LEAST_comm, GREATEST_comm. by apply Hnew.
    + by apply Hnew.
Qed.

Lemma consistent_same db db' :
  consistent db → profiles db' = profiles db → likes db' = likes db →
  matches db' = matches db → consistent db'.
Proof.
  intros Hc Hp Hl Hm. eapply consistent_frame; [exact Hc|by rewrite Hl|done|by rewrite Hp].
Qed.

Lemma like_key_set_super_like a b s l : like_key (set_super_like a b s l) = like_key l.
Proof.
  unfold set_super_like. case_bool_decide as E; [|done].
  destruct E as [<- <-]. done.
Qed.

Lemma like_keys_set_super_like a b s (ls : list Like.row) :
  like_key <$> (set_super_like a b s <$> ls) = like_key <$> ls.
Proof.
  induction ls as [|l ls IH]; [done|].
  rewrite !fmap_cons, like_key_set_super_like. by f_equal.
Qed.

Lemma profile_ids_update u name (ps : list Profile.row) :
  Profile.id <$> ((λ p, if bool_decide (Profile.id p = u)
                        then {| Profile.id := u; Profile.first_name := name |}
                        else p) <$> ps) = Profile.id <$> ps.
Proof.
  induction ps as [|p ps IH]; [done|].
  rewrite !fmap_cons. f_equal; [|done].
  by case_bool_decide as E; [rewrite <- E|].
Qed.

Lemma insert_message_Ok msgid nid m sender c ty db db' :
  insert_message msgid nid m sender c ty db = Ok db' →
  profiles db' = profiles db ∧ likes db' = likes db ∧ matches db' = matches db ∧
  messages db' = messages db ++
    [{| Message.id := msgid; Message.match_id := m; Message.sender_id := sender;
        Message.content := c; Message.message_type := ty |}].
Proof.
  unfold insert_message. intros H. ok_inv H.
  by apply create_message_notification_fanout in H as (?&?&?&?).
Qed.

Lemma exec_consistent st db db' :
  consistent db → exec st db = Ok db' → consistent db'.
Proof.
  intros Hc. destruct st; simpl.
  - unfold insert_profile. intros H. ok_inv H. injection H as <-.
    eapply consistent_frame; [exact Hc|done|done|]. simpl.
    rewrite fmap_app. intros y Hy. apply elem_of_app. by left.
  - intros [= <-]. eapply consistent_frame; [exact Hc|done|done|]. simpl.
    by rewrite profile_ids_update.
  - intros [H _]%insert_like_Ok. by eapply like_inserted_consistent.
  - unfold upsert_like. destruct (like_exists db liker liked).
    + intros [= <-]. eapply consistent_frame; [exact Hc| |done|done]. simpl.
      by rewrite like_keys_set_super_like.
    + intros [H _]%insert_like_Ok. by eapply like_inserted_consistent.
  - intros [= <-]. eapply consistent_frame; [exact Hc| |done|done]. simpl.
    apply fmap_sublist, sublist_filter.
  - intros (?&?&?&?)%insert_message_Ok. by eapply consistent_same.
  - intros [= <-]. by eapply consistent_same.
  - intros [= <-]. by eapply consistent_same.
Qed.

Lemma as_authenticated_consistent uid st db db' :
  consistent db → as_authenticated uid st db = Ok db' → consistent db'.
Proof.
  intros Hc. destruct st.
  - simpl. intros H. ok_inv H. by eapply (exec_consistent (InsertProfile _ _)).
  - unfold as_authenticated. destruct (Policy.profiles_own _ _).
    + by apply exec_consistent.
    + by intros [= <-].
  - unfold as_authenticated. intros H. ok_inv H. by eapply exec_consistent.
  - unfold as_authenticated. intros H. ok_inv H. by eapply exec_consistent.
  - intros [= <-]. eapply consistent_frame; [exact Hc| |done|done]. simpl.
    apply fmap_sublist, sublist_filter.
  - unfold as_authenticated. intros H. ok_inv H. by eapply exec_consistent.
  - unfold as_authenticated. destruct (Policy.notifications_own _ _ _).
    + by apply exec_consistent.
    + by intros [= <-].
  - unfold as_authenticated. destruct (Policy.notifications_own _ _ _).
    + by apply exec_consistent.
    + by intros [= <-].
Qed.

Lemma step_consistent db db' : consistent db → step db db' → consistent db'.
Proof.
  intros Hc [st [H|[uid H]]];
    eauto using exec_consistent, as_authenticated_consistent.
Qed.

Lemma reachable_consistent db : reachable db → consistent db.
Proof.
  unfold reachable. revert db. apply rtc_ind_r.
  - apply consistent_empty.
  - intros db db' _ Hstep Hc. by eapply step_consistent.
Qed.

Lemma run_reachable sts db : reachable db → reachable (run sts db).
Proof.
  revert db. induction sts as [|st sts IH]; intros db Hdb; [done|].
  simpl. apply IH. destruct (exec st db) as [db'|e] eqn:E; simpl; [|done].
  eapply rtc_r; [exact Hdb|]. exists st. by left.
Qed.

(** ** The match deriver *)





(** The scenario of the specification: Ann likes Bob, Bob is notified;
    Bob likes Ann back, the match (1, 2) is derived and both are notified
    of it before Ann hears of Bob's like. *)
Example scenario_mutual_like :
  matches ann_likes_bob = [] ∧
  matches ann_and_bob_matched =
    [{| Match.id := 21; Match.user1_id := 1; Match.user2_id := 2 |}] ∧
  (λ n, (Notification.user_id n, Notification.type n))
    <$> notifications ann_and_bob_matched =
  [(2, lit "like"); (1, lit "match"); (2, lit "match"); (1, lit "super_like")].
Proof. by vm_compute. Qed.




Lemma insert_match_conflict mid nid1 nid2 u1 u2 db :
  match_exists db u1 u2 = true →
  insert_match_do_nothing mid nid1 nid2 u1 u2 db = Ok db.
Proof. unfold insert_match_do_nothing. by intros ->. Qed.

(** Once the deriver has run on a mutual like, the canonical row is there. *)
Lemma deriver_establishes_match mid nid1 nid2 NEW db db' :
  like_exists db (Like.liked_id NEW) (Like.liker_id NEW) = true →
  create_match_on_mutual_like mid nid1 nid2 NEW db = Ok db' →
  match_exists db' (LEAST (Like.liker_id NEW) (Like.liked_id NEW))
                   (GREATEST (Like.liker_id NEW) (Like.liked_id NEW)) = true.
Proof.
  intros Hrec H.
  apply create_match_on_mutual_like_Ok in H as (_ & _ & _ & Hcases). simpl in Hcases.
  destruct Hcases as [[E _]|[(_ & Hex & Hm)|(_ & _ & _ & _ & _ & Hm)]].
  - congruence.
  - apply match_exists_spec. rewrite Hm. by apply match_exists_spec.
  - apply match_exists_spec. rewrite Hm, fmap_app, elem_of_app. right. left.
Qed.

(** C2. After the deriver has handled a mutual like, running it again for
    the same unordered pair (with the same row or with the reciprocal one,
    and whatever ids are drawn) raises nothing and returns the database it
    was given: no second match row, no further notification. *)
Theorem match_deriver_idempotent mid nid1 nid2 NEW db db'
    mid' nid1' nid2' NEW' :
  like_exists db (Like.liked_id NEW) (Like.liker_id NEW) = true →
  create_match_on_mutual_like mid nid1 nid2 NEW db = Ok db' →
  like_key NEW' = like_key NEW ∨
    like_key NEW' = (Like.liked_id NEW, Like.liker_id NEW) →
  create_match_on_mutual_like mid' nid1' nid2' NEW' db' = Ok db'.
Proof.
  intros Hrec H Hpair.
  pose proof (deriver_establishes_match _ _ _ _ _ _ Hrec H) as Hex.
  unfold create_match_on_mutual_like.
  destruct (like_exists db' _ _); [|done].
  apply insert_match_conflict.
  destruct Hpair as [[= -> ->]|[= -> ->]]; [done|].
  by rewrite LEAST_comm, GREATEST_comm.
Qed.

Lemma match_deriver_idempotent_witness :
  create_match_on_mutual_like 22 36 37
    {| Like.id := 10; Like.liker_id := 1; Like.liked_id := 2;
       Like.is_super_like := Some false |}
    bobs_like_derived = Ok bobs_like_derived.
Proof.
  apply (match_deriver_idempotent 21 33 34 bobs_like bobs_like_stored).
  - vm_compute. reflexivity.
  - vm_compute. reflexivity.
  - right. reflexivity.
Defined.

(** ** Notification fanout *)

Lemma select_first_name_exists db u name :
  select_first_name db u = Some name → profile_exists db u = true.
Proof.
  intros H. apply profile_exists_spec.
  destruct (decide (u ∈ Profile.id <$> profiles db)) as [|Hn]; [done|].
  apply select_first_name_None in Hn. congruence.
Qed.

Lemma create_notification_success nid u ty ti msg d db :
  ty ∈ notification_types →
  nid ∉ Notification.id <$> notifications db →
  profile_exists db u = true →
  create_notification nid (Some u) (Some ty) (Some ti) (Some msg) d db =
    Ok (nid,
        set_notifications
          (notifications db ++
             [{| Notification.id := nid; Notification.user_id := u;
                 Notification.type := ty; Notification.title := ti;
                 Notification.message := msg; Notification.data := d;
                 Notification.read := Some false |}]) db).
Proof.
  intros Hty Hnid Hu. unfold create_notification.
  rewrite (bool_decide_eq_true_2 _ Hty), (bool_decide_eq_true_2 _ Hnid), Hu.
  done.
Qed.

Lemma like_type_valid (s : option bool) :
  (if IS_TRUE s then lit "super_like" else lit "like") ∈ notification_types.
Proof.
  unfold notification_types. destruct (IS_TRUE s).
  - apply elem_of_cons. right. left.
  - left.
Qed.

Lemma create_like_notification_success nid NEW name db :
  select_first_name db (Like.liker_id NEW) = Some name →
  nid ∉ Notification.id <$> notifications db →
  profile_exists db (Like.liked_id NEW) = true →
  create_like_notification nid NEW db =
    Ok (set_notifications
          (notifications db ++
             [{| Notification.id := nid;
                 Notification.user_id := Like.liked_id NEW;
                 Notification.type :=
                   if IS_TRUE (Like.is_super_like NEW)
                   then lit "super_like" else lit "like";
                 Notification.title :=
                   if IS_TRUE (Like.is_super_like NEW)
                   then lit "Super Like!" else lit "New Like!";
                 Notification.message :=
                   name ++ (if IS_TRUE (Like.is_super_like NEW)
                            then lit " super liked you!" else lit " liked you!");
                 Notification.data :=
                   {[ "user_id"%string := Like.liker_id NEW;
                      "like_id"%string := Like.id NEW ]};
                 Notification.read := Some false |}]) db).
Proof.
  intros Hname Hnid Hu. unfold create_like_notification. rewrite Hname.
  pose proof (like_type_valid (Like.is_super_like NEW)) as Hty.
  destruct (IS_TRUE (Like.is_super_like NEW)); simpl sql_concat; cbv beta iota;
    by rewrite (create_notification_success _ _ _ _ _ _ _ Hty Hnid Hu).
Qed.

(** C3 (as amended). A like from [A] to another profile [B] whose
    reciprocal is not in the table is stored, derives no match, and sends
    exactly one notification: to [B], of type and title chosen by the
    super flag, with [A]'s first name in the text and [A]'s id and the
    like's id in the payload. *)
Theorem like_without_reciprocal lid mid nm1 nm2 nl (A B : uuid) s name db :
  A ≠ B →
  like_exists db B A = false →
  like_exists db A B = false →
  lid ∉ Like.id <$> likes db →
  nl ∉ Notification.id <$> notifications db →
  select_first_name db A = Some name →
  profile_exists db B = true →
  insert_like lid mid nm1 nm2 nl A B s db =
    Ok (set_notifications
          (notifications db ++
             [{| Notification.id := nl;
                 Notification.user_id := B;
                 Notification.type :=
                   if IS_TRUE s then lit "super_like" else lit "like";
                 Notification.title :=
                   if IS_TRUE s then lit "Super Like!" else lit "New Like!";
                 Notification.message :=
                   name ++ (if IS_TRUE s
                            then lit " super liked you!" else lit " liked you!");
                 Notification.data :=
                   {[ "user_id"%string := A; "like_id"%string := lid ]};
                 Notification.read := Some false |}])
          (set_likes
             (likes db ++
                [{| Like.id := lid; Like.liker_id := A; Like.liked_id := B;
                    Like.is_super_like := s |}]) db)).
Proof.
  intros Hne Hrec Hnew Hlid Hnl Hname HB.
  unfold insert_like.
  rewrite (bool_decide_eq_true_2 _ Hlid), Hnew, HB,
    (select_first_name_exists _ _ _ Hname).
  simpl. unfold create_match_on_mutual_like. cbn [Like.liked_id Like.liker_id].
  match goal with
  | |- context [like_exists ?d B A] => destruct (like_exists d B A) eqn:E
  end.
  - apply like_exists_snoc in E as [Hin|[= ? ?]]; [|done].
    apply like_exists_spec in Hin. congruence.
  - simpl. by rewrite (create_like_notification_success _ _ name).
Qed.

Lemma like_without_reciprocal_witness :
  insert_like 10 20 30 31 32 1 2 (Some false) ann_and_bob =
    Ok (set_notifications
          [{| Notification.id := 32; Notification.user_id := 2;
              Notification.type := lit "like";
              Notification.title := lit "New Like!";
              Notification.message := lit "Ann" ++ lit " liked you!";
              Notification.data :=
                {[ "user_id"%string := 1; "like_id"%string := 10 ]};
              Notification.read := Some false |}]
          (set_likes
             [{| Like.id := 10; Like.liker_id := 1; Like.liked_id := 2;
                 Like.is_super_like := Some false |}] ann_and_bob)).
Proof.
  apply (like_without_reciprocal 10 20 30 31 32 1 2 (Some false) (lit "Ann")
           ann_and_bob).
  - done.
  - vm_compute. reflexivity.
  - vm_compute. reflexivity.
  - vm_compute. apply not_elem_of_nil.
  - vm_compute. apply not_elem_of_nil.
  - vm_compute. reflexivity.
  - vm_compute. reflexivity.
Defined.

(** C3, counterexample.  Ann likes herself: no like from Ann to Ann is in
    the table beforehand, yet the insert derives the match (1, 1) and
    sends three notifications. *)
Lemma like_without_reciprocal_self_like :
  like_exists ann_and_bob 1 1 = false ∧
  ∃ db', insert_like 12 22 36 37 38 1 1 (Some false) ann_and_bob = Ok db' ∧
         matches ann_and_bob = [] ∧
         matches db' =
           [{| Match.id := 22; Match.user1_id := 1; Match.user2_id := 1 |}] ∧
         Notification.id <$> notifications db' = [36; 37; 38].
Proof.
  split; [vm_compute; reflexivity|].
  eexists. split; [vm_compute; reflexivity|]. by vm_compute.
Qed.

Lemma create_match_notification_success nid1 nid2 NEW name1 name2 db :
  select_first_name db (Match.user1_id NEW) = Some name1 →
  select_first_name db (Match.user2_id NEW) = Some name2 →
  nid1 ∉ Notification.id <$> notifications db →
  nid2 ∉ Notification.id <$> notifications db →
  nid1 ≠ nid2 →
  create_match_notification nid1 nid2 NEW db =
    Ok (set_notifications
          (notifications db ++
             [{| Notification.id := nid1;
                 Notification.user_id := Match.user1_id NEW;
                 Notification.type := lit "match";
                 Notification.title := match_title;
                 Notification.message :=
                   lit "You and " ++ name2 ++ lit " liked each other!";
                 Notification.data :=
                   {[ "match_id"%string := Match.id NEW;
                      "other_user_id"%string := Match.user2_id NEW ]};
                 Notification.read := Some false |};
              {| Notification.id := nid2;
                 Notification.user_id := Match.user2_id NEW;
                 Notification.type := lit "match";
                 Notification.title := match_title;
                 Notification.message :=
                   lit "You and " ++ name1 ++ lit " liked each other!";
                 Notification.data :=
                   {[ "match_id"%string := Match.id NEW;
                      "other_user_id"%string := Match.user1_id NEW ]};
                 Notification.read := Some false |}]) db).
Proof.
  intros Hn1 Hn2 Hnid1 Hnid2 Hne.
  assert (lit "match" ∈ notification_types) as Hty
    by (unfold notification_types; do 2 right; left).
  unfold create_match_notification. rewrite Hn1, Hn2. cbn [sql_concat].
  rewrite create_notification_success;
    [|done|done|exact (select_first_name_exists _ _ _ Hn1)].
  rewrite bind_Ok_l. cbv beta iota.
  rewrite create_notification_success;
    [|done| |exact (select_first_name_exists _ _ _ Hn2)].
  - rewrite bind_Ok_l. cbv beta iota. unfold set_notifications.
    cbn [profiles likes matches messages notifications].
    by rewrite <- !app_assoc.
  - cbn [notifications set_notifications]. rewrite fmap_app, elem_of_app.
    intros [?|Hin]; [done|].
    apply list_elem_of_singleton in Hin. cbn in Hin. congruence.
Qed.

(** C4. A match row inserted for the participants [P1] and [P2] comes
    with exactly two notifications of type match: the first to [P1], whose
    text carries [P2]'s first name, the second to [P2], whose text carries
    [P1]'s; each payload holds the match id and the other participant. *)
Theorem match_insert_notifies_both mid nid1 nid2 (P1 P2 : uuid) name1 name2 db :
  match_exists db P1 P2 = false →
  mid ∉ Match.id <$> matches db →
  select_first_name db P1 = Some name1 →
  select_first_name db P2 = Some name2 →
  nid1 ∉ Notification.id <$> notifications db →
  nid2 ∉ Notification.id <$> notifications db →
  nid1 ≠ nid2 →
  insert_match_do_nothing mid nid1 nid2 P1 P2 db =
    Ok (set_notifications
          (notifications db ++
             [{| Notification.id := nid1; Notification.user_id := P1;
                 Notification.type := lit "match";
                 Notification.title := match_title;
                 Notification.message :=
                   lit "You and " ++ name2 ++ lit " liked each other!";
                 Notification.data :=
                   {[ "match_id"%string := mid; "other_user_id"%string := P2 ]};
                 Notification.read := Some false |};
              {| Notification.id := nid2; Notification.user_id := P2;
                 Notification.type := lit "match";
                 Notification.title := match_title;
                 Notification.message :=
                   lit "You and " ++ name1 ++ lit " liked each other!";
                 Notification.data :=
                   {[ "match_id"%string := mid; "other_user_id"%string := P1 ]};
                 Notification.read := Some false |}])
          (set_matches
             (matches db ++
                [{| Match.id := mid; Match.user1_id := P1; Match.user2_id := P2 |}])
             db)).
Proof.
  intros Hnew Hmid Hn1 Hn2 Hnid1 Hnid2 Hne.
  unfold insert_match_do_nothing.
  rewrite Hnew, (bool_decide_eq_true_2 _ Hmid),
    (select_first_name_exists _ _ _ Hn1), (select_first_name_exists _ _ _ Hn2).
  cbn [ensure andb]. rewrite !bind_Ok_l. cbv zeta.
  by rewrite (create_match_notification_success _ _ _ name1 name2).
Qed.

Lemma match_insert_notifies_both_witness :
  insert_match_do_nothing 21 33 34 1 2 ann_and_bob =
    Ok (set_notifications
          [{| Notification.id := 33; Notification.user_id := 1;
              Notification.type := lit "match";
              Notification.title := match_title;
              Notification.message :=
                lit "You and " ++ lit "Bob" ++ lit " liked each other!";
              Notification.data :=
                {[ "match_id"%string := 21; "other_user_id"%string := 2 ]};
              Notification.read := Some false |};
           {| Notification.id := 34; Notification.user_id := 2;
              Notification.type := lit "match";
              Notification.title := match_title;
              Notification.message :=
                lit "You and " ++ lit "Ann" ++ lit " liked each other!";
              Notification.data :=
                {[ "match_id"%string := 21; "other_user_id"%string := 1 ]};
              Notification.read := Some false |}]
          (set_matches
             [{| Match.id := 21; Match.user1_id := 1; Match.user2_id := 2 |}]
             ann_and_bob)).
Proof.
  apply (match_insert_notifies_both 21 33 34 1 2 (lit "Ann") (lit "Bob") ann_and_bob).
  - vm_compute. reflexivity.
  - vm_compute. apply not_elem_of_nil.
  - vm_compute. reflexivity.
  - vm_compute. reflexivity.
  - vm_compute. apply not_elem_of_nil.
  - vm_compute. apply not_elem_of_nil.
  - done.
Defined.

Lemma select_match_Some db m M :
  select_match db m = Some M → M ∈ matches db ∧ Match.id M = m.
Proof.
  unfold select_match. intros [l E]%head_Some.
  assert (M ∈ filter (λ r, Match.id r = m) (matches db)) as Hin by (rewrite E; left).
  apply list_elem_of_filter in Hin as [? ?]. done.
Qed.

(** The text of a message notification, as the trigger builds it and as
    the specification reads it. *)
Lemma message_text name (c : text) :
  Some name ∥ Some (lit ": ") ∥ Some (LEFT c 50)
    ∥ Some (if bool_decide (50 < LENGTH c)%nat then lit "..." else lit "") =
  Some (name ++ lit ": " ++
        (if bool_decide (50 < length c)%nat then take 50 c ++ lit "..." else c)).
Proof.
  cbn [sql_concat]. unfold LEFT, LENGTH. f_equal. rewrite <- !app_assoc.
  do 2 f_equal. case_bool_decide as E; [done|].
  change (lit "") with (@nil N). rewrite app_nil_r. apply take_ge. lia.
Qed.

(** The message insert for any sender whose profile exists: the trigger
    compares the sender with [user1_id] only. *)
Lemma insert_message_success msgid nid m M sender (c : text) ty name db :
  consistent db →
  select_match db m = Some M →
  select_first_name db sender = Some name →
  msgid ∉ Message.id <$> messages db →
  nid ∉ Notification.id <$> notifications db →
  from_option (λ t, bool_decide (t ∈ message_types)) true ty = true →
  insert_message msgid nid m sender c ty db =
    Ok (set_notifications
          (notifications db ++
             [{| Notification.id := nid;
                 Notification.user_id :=
                   if bool_decide (Match.user1_id M = sender)
                   then Match.user2_id M else Match.user1_id M;
                 Notification.type := lit "message";
                 Notification.title := lit "New Message";
                 Notification.message :=
                   name ++ lit ": " ++
                   (if bool_decide (50 < length c)%nat
                    then take 50 c ++ lit "..." else c);
                 Notification.data :=
                   {[ "match_id"%string := m; "sender_id"%string := sender;
                      "message_id"%string := msgid ]};
                 Notification.read := Some false |}])
          (set_messages
             (messages db ++
                [{| Message.id := msgid; Message.match_id := m;
                    Message.sender_id := sender; Message.content := c;
                    Message.message_type := ty |}]) db)).
Proof.
  intros Hc HM Hname Hmsgid Hnid Hty.
  destruct (select_match_Some _ _ _ HM) as [HMin <-].
  pose proof (matches_fkey _ Hc) as Hfk. rewrite Forall_forall in Hfk.
  destruct (Hfk M HMin) as [Hu1%profile_exists_spec Hu2%profile_exists_spec].
  assert (lit "message" ∈ notification_types) as Htype
    by (unfold notification_types; do 3 right; left).
  assert (Match.id M ∈ Match.id <$> matches db) as Hmid
    by (by apply list_elem_of_fmap_2).
  unfold insert_message.
  rewrite Hty, (bool_decide_eq_true_2 _ Hmsgid), (bool_decide_eq_true_2 _ Hmid),
    (select_first_name_exists _ _ _ Hname).
  cbn [ensure andb]. rewrite !bind_Ok_l. cbv zeta.
  unfold create_message_notification.
  cbn [Message.match_id Message.sender_id Message.content Message.id].
  change (select_match (set_messages ?t db)) with (select_match db).
  change (select_first_name (set_messages ?t db)) with (select_first_name db).
  rewrite HM, Hname, message_text. cbn [fmap option_fmap option_map].
  replace (bool_decide (Some (Match.user1_id M) = Some sender))
    with (bool_decide (Match.user1_id M = sender))
    by (apply bool_decide_ext; split; congruence).
  case_bool_decide as E;
    (rewrite create_notification_success; [by rewrite bind_Ok_l|done|done|done]).
Qed.

(** C5 (as amended). A message sent into a match [M] of two distinct
    users by one of the two is stored and sends exactly one notification
    of type message, addressed to the other one; its text is the sender's
    first name, a colon and a space, then the content, cut to its first
    50 characters and followed by three dots when it is longer than 50. *)
Theorem message_notifies_other_participant msgid nid m M sender (c : text) ty name db :
  reachable db →
  select_match db m = Some M →
  Match.user1_id M ≠ Match.user2_id M →
  sender = Match.user1_id M ∨ sender = Match.user2_id M →
  select_first_name db sender = Some name →
  msgid ∉ Message.id <$> messages db →
  nid ∉ Notification.id <$> notifications db →
  from_option (λ t, bool_decide (t ∈ message_types)) true ty = true →
  ∃ receiver,
    ((sender = Match.user1_id M ∧ receiver = Match.user2_id M) ∨
     (sender = Match.user2_id M ∧ receiver = Match.user1_id M)) ∧
    receiver ≠ sender ∧
    insert_message msgid nid m sender c ty db =
      Ok (set_notifications
            (notifications db ++
               [{| Notification.id := nid; Notification.user_id := receiver;
                   Notification.type := lit "message";
                   Notification.title := lit "New Message";
                   Notification.message :=
                     name ++ lit ": " ++
                     (if bool_decide (50 < length c)%nat
                      then take 50 c ++ lit "..." else c);
                   Notification.data :=
                     {[ "match_id"%string := m; "sender_id"%string := sender;
                        "message_id"%string := msgid ]};
                   Notification.read := Some false |}])
            (set_messages
               (messages db ++
                  [{| Message.id := msgid; Message.match_id := m;
                      Message.sender_id := sender; Message.content := c;
                      Message.message_type := ty |}]) db)).
Proof.
  intros Hc%reachable_consistent HM Hdiff Hpart Hname Hmsgid Hnid Hty.
  exists (if bool_decide (Match.user1_id M = sender)
          then Match.user2_id M else Match.user1_id M).
  split; [|split].
  - case_bool_decide as E; [by left|]. destruct Hpart as [?|?]; [done|by right].
  - case_bool_decide as E; congruence.
  - by apply insert_message_success.
Qed.

Lemma message_notifies_other_participant_witness :
  ∃ receiver,
    ((1 = 1 ∧ receiver = 2) ∨ (1 = 2 ∧ receiver = 1)) ∧
    receiver ≠ 1 ∧
    insert_message 50 60 21 1 greeting (Some (lit "text")) ann_and_bob_matched =
      Ok (set_notifications
            (notifications ann_and_bob_matched ++
               [{| Notification.id := 60; Notification.user_id := receiver;
                   Notification.type := lit "message";
                   Notification.title := lit "New Message";
                   Notification.message :=
                     lit "Ann" ++ lit ": " ++
                     (if bool_decide (50 < length greeting)%nat
                      then take 50 greeting ++ lit "..." else greeting);
                   Notification.data :=
                     {[ "match_id"%string := 21; "sender_id"%string := 1;
                        "message_id"%string := 50 ]};
                   Notification.read := Some false |}])
            (set_messages
               (messages ann_and_bob_matched ++
                  [{| Message.id := 50; Message.match_id := 21;
                      Message.sender_id := 1; Message.content := greeting;
                      Message.message_type := Some (lit "text") |}])
               ann_and_bob_matched)).
Proof.
  apply (message_notifies_other_participant 50 60 21
           {| Match.id := 21; Match.user1_id := 1; Match.user2_id := 2 |}
           1 greeting (Some (lit "text")) (lit "Ann") ann_and_bob_matched).
  - do 3 apply run_reachable. apply rtc_refl.
  - vm_compute. reflexivity.
  - done.
  - left. reflexivity.
  - vm_compute. reflexivity.
  - vm_compute. apply not_elem_of_nil.
  - apply (bool_decide_unpack _). vm_compute. exact I.
  - vm_compute. reflexivity.
Defined.

(** C5, counterexample.  In the match (1, 1) that Ann's like of herself
    derived, Ann is a participant, the policy on [messages] admits her
    message, and the one notification it sends is addressed to Ann, the
    sender: the test [user1_id = sender_id] holds and the receiver is
    [user2_id], which is Ann again. *)
Lemma message_in_self_match_notifies_sender :
  reachable ann_likes_herself ∧
  select_match ann_likes_herself 22
    = Some {| Match.id := 22; Match.user1_id := 1; Match.user2_id := 1 |} ∧
  Policy.messages_insert 1 22 1 ann_likes_herself = true ∧
  ∃ db', insert_message 50 60 22 1 (lit "hi") (Some (lit "text")) ann_likes_herself
           = Ok db' ∧
         Message.sender_id <$> messages db' = [1] ∧
         (λ n, (Notification.id n, Notification.user_id n, Notification.type n))
           <$> added (notifications ann_likes_herself) (notifications db')
           = [(60, 1, lit "message")].
Proof.
  split; [do 2 apply run_reachable; apply rtc_refl|].
  split; [vm_compute; reflexivity|]. split; [vm_compute; reflexivity|].
  eexists. split; [vm_compute; reflexivity|]. by vm_compute.
Qed.

(** The scenario of the specification: the notification Bob receives
    reads "Ann: ", the first 50 characters of the greeting, and three dots. *)
Example greeting_notification :
  Notification.message <$>
    last (notifications
            (run [InsertMessage 50 60 21 1 greeting (Some (lit "text"))]
               ann_and_bob_matched)) =
  Some (lit "Ann: Hello there, this is a moderately long greeting th...").
Proof. vm_compute. reflexivity. Qed.

Lemma NoDup_fmap_eq {A B} (f : A → B) (l : list A) x y :
  NoDup (f <$> l) → x ∈ l → y ∈ l → f x = f y → x = y.
Proof.
  induction l as [|z l IH]; intros Hnd Hx Hy Hf; [by apply elem_of_nil in Hx|].
  rewrite fmap_cons in Hnd. apply NoDup_cons in Hnd as [Hz Hnd].
  apply elem_of_cons in Hx as [->|Hx]; apply elem_of_cons in Hy as [->|Hy].
  - done.
  - destruct Hz. rewrite Hf. by apply list_elem_of_fmap_2.
  - destruct Hz. rewrite <- Hf. by apply list_elem_of_fmap_2.
  - by apply IH.
Qed.

Lemma outsider_denied uid m M sender db :
  consistent db → select_match db m = Some M →
  sender ≠ Match.user1_id M → sender ≠ Match.user2_id M →
  Policy.messages_insert uid m sender db = false.
Proof.
  intros Hc [HMin <-]%select_match_Some H1 H2. unfold Policy.messages_insert.
  apply andb_false_iff. destruct (decide (uid = sender)) as [->|Hne].
  - right. apply bool_decide_eq_false. intros (r & Hr & Hid & Hpart)%Exists_exists.
    assert (r = M) as -> by (eapply NoDup_fmap_eq; eauto using matches_pkey).
    destruct Hpart; congruence.
  - left. by apply bool_decide_eq_false.
Qed.

(** C6 (as amended). For a sender who is in neither slot of the match,
    the trigger has no guard: the message insert goes through and notifies
    [user1_id] of the match.  Only the INSERT policy of [messages] keeps
    such a message out: sent by a signed-in user, whoever it is, the
    statement is refused, so nothing is stored and nobody is notified. *)
Theorem outsider_message msgid nid m M sender (c : text) ty name db :
  reachable db →
  select_match db m = Some M →
  sender ≠ Match.user1_id M → sender ≠ Match.user2_id M →
  select_first_name db sender = Some name →
  msgid ∉ Message.id <$> messages db →
  nid ∉ Notification.id <$> notifications db →
  from_option (λ t, bool_decide (t ∈ message_types)) true ty = true →
  insert_message msgid nid m sender c ty db =
    Ok (set_notifications
          (notifications db ++
             [{| Notification.id := nid;
                 Notification.user_id := Match.user1_id M;
                 Notification.type := lit "message";
                 Notification.title := lit "New Message";
                 Notification.message :=
                   name ++ lit ": " ++
                   (if bool_decide (50 < length c)%nat
                    then take 50 c ++ lit "..." else c);
                 Notification.data :=
                   {[ "match_id"%string := m; "sender_id"%string := sender;
                      "message_id"%string := msgid ]};
                 Notification.read := Some false |}])
          (set_messages
             (messages db ++
                [{| Message.id := msgid; Message.match_id := m;
                    Message.sender_id := sender; Message.content := c;
                    Message.message_type := ty |}]) db)) ∧
  ∀ uid, as_authenticated uid (InsertMessage msgid nid m sender c ty) db =
           Raise insufficient_privilege.
Proof.
  intros Hc%reachable_consistent HM H1 H2 Hname Hmsgid Hnid Hty. split.
  - rewrite (insert_message_success _ _ _ M _ _ _ name); try done.
    by rewrite bool_decide_eq_false_2.
  - intros uid. unfold as_authenticated.
    by rewrite (outsider_denied uid m M sender db).
Qed.

Lemma outsider_message_witness :
  insert_message 50 60 21 3 (lit "hi") (Some (lit "text")) with_cy =
    Ok (set_notifications
          (notifications with_cy ++
             [{| Notification.id := 60;
                 Notification.user_id := 1;
                 Notification.type := lit "message";
                 Notification.title := lit "New Message";
                 Notification.message :=
                   lit "Cy" ++ lit ": " ++
                   (if bool_decide (50 < length (lit "hi"))%nat
                    then take 50 (lit "hi") ++ lit "..." else lit "hi");
                 Notification.data :=
                   {[ "match_id"%string := 21; "sender_id"%string := 3;
                      "message_id"%string := 50 ]};
                 Notification.read := Some false |}])
          (set_messages
             (messages with_cy ++
                [{| Message.id := 50; Message.match_id := 21;
                    Message.sender_id := 3; Message.content := lit "hi";
                    Message.message_type := Some (lit "text") |}]) with_cy)) ∧
  ∀ uid, as_authenticated uid
           (InsertMessage 50 60 21 3 (lit "hi") (Some (lit "text"))) with_cy =
           Raise insufficient_privilege.
Proof.
  apply (outsider_message 50 60 21
           {| Match.id := 21; Match.user1_id := 1; Match.user2_id := 2 |}
           3 (lit "hi") (Some (lit "text")) (lit "Cy") with_cy).
  - do 4 apply run_reachable. apply rtc_refl.
  - vm_compute. reflexivity.
  - vm_compute. discriminate.
  - vm_compute. discriminate.
  - vm_compute. reflexivity.
  - vm_compute. apply not_elem_of_nil.
  - apply (bool_decide_unpack _). vm_compute. exact I.
  - vm_compute. reflexivity.
Defined.

(** C6, counterexample.  Cy is in neither slot of match 21, and his
    message into it still produces a notification, addressed to Ann. *)
Lemma outsider_message_is_notified :
  select_match with_cy 21 =
    Some {| Match.id := 21; Match.user1_id := 1; Match.user2_id := 2 |} ∧
  ∃ db', insert_message 50 60 21 3 (lit "hi") (Some (lit "text")) with_cy = Ok db' ∧
         length (notifications db') = S (length (notifications with_cy)) ∧
         (λ n, (Notification.user_id n, Notification.type n, Notification.message n))
           <$> last (notifications db') =
         Some (1, lit "message", lit "Cy: hi").
Proof.
  split; [vm_compute; reflexivity|].
  eexists. split; [vm_compute; reflexivity|]. by vm_compute.
Qed.

Lemma create_notification_null_message nid u ty ti d db :
  create_notification nid u ty ti None d db = Raise not_null_violation.
Proof. unfold create_notification. by destruct u, ty, ti. Qed.

Lemma bind_never_Ok {A B} (m : result A) (f : A → result B) :
  (∀ a, ∃ e, f a = Raise e) → ∃ e, m ≫= f = Raise e.
Proof. intros Hf. destruct m as [a|e]; simpl; eauto. Qed.

(** C7 (as amended). When the first name of an actor of the inserted
    row cannot be resolved, the fanout trigger substitutes nothing: the
    text it builds is NULL and the insert into [notifications] raises, so
    the trigger fails instead of degrading; for a like and for a message
    the error is the NOT NULL violation.  The placeholder exists in the
    client's in-app banner only: "Someone" for a like and for a message,
    "someone" for a match. *)
Theorem unresolved_name_aborts nid1 nid2 ev db u :
  u ∈ actors ev → select_first_name db u = None →
  (∃ e, notification_trigger nid1 nid2 ev db = Raise e ∧
        ((∀ NEW, ev ≠ InsertedMatch NEW) → e = not_null_violation)) ∧
  (∀ like,
     NotificationProvider.message (NotificationProvider.on_like None like) =
       lit "Someone" ++ lit " " ++
       (if IS_TRUE (Like.is_super_like like) then lit "super liked" else lit "liked")
       ++ lit " you!") ∧
  (∀ m,
     NotificationProvider.message (NotificationProvider.on_match None m) =
       lit "You and " ++ lit "someone" ++ lit " liked each other!") ∧
  (∀ user m msg b,
     NotificationProvider.on_message user m None msg = Some b →
     NotificationProvider.message b =
       lit "Someone" ++ lit ": " ++ take 50 (Message.content msg) ++
       (if bool_decide (50 < length (Message.content msg))%nat
        then lit "..." else lit "")).
Proof.
  intros Hu Hname. split; [|split; [done|split; [done|]]].
  - destruct ev as [NEW|NEW|NEW]; simpl in Hu |- *.
    + apply list_elem_of_singleton in Hu as ->.
      exists not_null_violation. split; [|done].
      unfold create_like_notification. rewrite Hname.
      destruct (IS_TRUE _); simpl sql_concat; cbv beta iota;
        by rewrite create_notification_null_message.
    + assert (∃ e, create_match_notification nid1 nid2 NEW db = Raise e) as [e He].
      { unfold create_match_notification.
        apply elem_of_cons in Hu as [->|Hu];
          [|apply list_elem_of_singleton in Hu as ->].
        - apply bind_never_Ok. intros [r db1].
          rewrite Hname. cbn [sql_concat].
          rewrite create_notification_null_message. eauto.
        - rewrite Hname. cbn [sql_concat].
          rewrite create_notification_null_message. eauto. }
      exists e. split; [done|]. intros Hno. by destruct (Hno NEW).
    + apply list_elem_of_singleton in Hu as ->.
      exists not_null_violation. split; [|done].
      unfold create_message_notification. rewrite Hname. cbn [sql_concat].
      by rewrite create_notification_null_message.
  - intros user m msg b. unfold NotificationProvider.on_message.
    case_bool_decide; [done|]. destruct m as [m|]; [|done].
    case_bool_decide; [done|]. by intros [= <-].
Qed.

Lemma unresolved_name_aborts_witness :
  ∃ e, notification_trigger 30 31
         (InsertedLike {| Like.id := 10; Like.liker_id := 7; Like.liked_id := 2;
                          Like.is_super_like := Some false |}) ann_and_bob = Raise e ∧
       ((∀ NEW, InsertedLike {| Like.id := 10; Like.liker_id := 7; Like.liked_id := 2;
                                Like.is_super_like := Some false |}
                ≠ InsertedMatch NEW) → e = not_null_violation).
Proof.
  refine (proj1 (unresolved_name_aborts 30 31
                   (InsertedLike {| Like.id := 10; Like.liker_id := 7;
                                    Like.liked_id := 2;
                                    Like.is_super_like := Some false |})
                   ann_and_bob 7 _ _)).
  - simpl. left.
  - vm_compute. reflexivity.
Defined.

(** C7, counterexample.  No profile has id 7: for a like by 7 the fanout
    trigger raises instead of notifying with a placeholder, and the like
    insert itself is refused. *)
Lemma unresolved_name_no_placeholder :
  select_first_name ann_and_bob 7 = None ∧
  create_like_notification 30
    {| Like.id := 10; Like.liker_id := 7; Like.liked_id := 2;
       Like.is_super_like := Some false |} ann_and_bob = Raise not_null_violation ∧
  insert_like 10 20 30 31 32 7 2 (Some false) ann_and_bob =
    Raise foreign_key_violation.
Proof. by vm_compute. Qed.

(** The foreign keys keep an accepted insert away from that case: its
    actors have a profile, hence a first name. *)
Lemma accepted_like_resolves_name lid mid nm1 nm2 nl liker liked s db db' :
  insert_like lid mid nm1 nm2 nl liker liked s db = Ok db' →
  is_Some (select_first_name db liker).
Proof.
  unfold insert_like. intros H. ok_inv H.
  apply andb_true_iff in Hx1 as [H1%profile_exists_spec _].
  by apply select_first_name_Some.
Qed.

Lemma accepted_match_resolves_names mid nid1 nid2 u1 u2 db db' :
  match_exists db u1 u2 = false →
  insert_match_do_nothing mid nid1 nid2 u1 u2 db = Ok db' →
  is_Some (select_first_name db u1) ∧ is_Some (select_first_name db u2).
Proof.
  intros Hnew [[? _]|(_ & _ & H1 & H2 & _)]%insert_match_do_nothing_Ok;
    [congruence|].
  split; by apply select_first_name_Some.
Qed.

Lemma accepted_message_resolves_name msgid nid m sender c ty db db' :
  insert_message msgid nid m sender c ty db = Ok db' →
  is_Some (select_first_name db sender).
Proof.
  unfold insert_message. intros H. ok_inv H.
  apply andb_true_iff in Hx1 as [_ H1%profile_exists_spec].
  by apply select_first_name_Some.
Qed.

(** ** Self-likes *)

(** C8 (as amended). For a like of [A] by [A] the reciprocity test of
    the deriver does hold: the trigger reads the table that already
    contains the new row, which is its own reciprocal.  With no match
    (A, A) yet, the insert therefore stores the like, derives the match
    row with [user1_id = user2_id = A], sends its two match notifications
    to [A], and then the like notification. *)
Theorem self_like_derives_self_match lid mid nm1 nm2 nl (A : uuid) s name db :
  like_exists db A A = false →
  match_exists db A A = false →
  select_first_name db A = Some name →
  lid ∉ Like.id <$> likes db →
  mid ∉ Match.id <$> matches db →
  nm1 ∉ Notification.id <$> notifications db →
  nm2 ∉ Notification.id <$> notifications db →
  nl ∉ Notification.id <$> notifications db →
  nm1 ≠ nm2 → nl ≠ nm1 → nl ≠ nm2 →
  like_exists
    (set_likes
       (likes db ++ [{| Like.id := lid; Like.liker_id := A; Like.liked_id := A;
                        Like.is_super_like := s |}]) db) A A = true ∧
  insert_like lid mid nm1 nm2 nl A A s db =
    Ok (set_notifications
          (notifications db ++
             [{| Notification.id := nm1; Notification.user_id := A;
                 Notification.type := lit "match";
                 Notification.title := match_title;
                 Notification.message :=
                   lit "You and " ++ name ++ lit " liked each other!";
                 Notification.data :=
                   {[ "match_id"%string := mid; "other_user_id"%string := A ]};
                 Notification.read := Some false |};
              {| Notification.id := nm2; Notification.user_id := A;
                 Notification.type := lit "match";
                 Notification.title := match_title;
                 Notification.message :=
                   lit "You and " ++ name ++ lit " liked each other!";
                 Notification.data :=
                   {[ "match_id"%string := mid; "other_user_id"%string := A ]};
                 Notification.read := Some false |};
              {| Notification.id := nl; Notification.user_id := A;
                 Notification.type :=
                   if IS_TRUE s then lit "super_like" else lit "like";
                 Notification.title :=
                   if IS_TRUE s then lit "Super Like!" else lit "New Like!";
                 Notification.message :=
                   name ++ (if IS_TRUE s
                            then lit " super liked you!" else lit " liked you!");
                 Notification.data :=
                   {[ "user_id"%string := A; "like_id"%string := lid ]};
                 Notification.read := Some false |}])
          (set_matches
             (matches db ++
                [{| Match.id := mid; Match.user1_id := A; Match.user2_id := A |}])
             (set_likes
                (likes db ++
                   [{| Like.id := lid; Like.liker_id := A; Like.liked_id := A;
                       Like.is_super_like := s |}]) db))).
Proof.
  intros Hnew Hnomatch Hname Hlid Hmid Hnm1 Hnm2 Hnl Hne12 Hne1 Hne2.
  assert (like_exists
            (set_likes
               (likes db ++ [{| Like.id := lid; Like.liker_id := A;
                                Like.liked_id := A; Like.is_super_like := s |}]) db)
            A A = true) as Hself
    by (apply like_exists_snoc; by right).
  split; [done|].
  unfold insert_like.
  rewrite (bool_decide_eq_true_2 _ Hlid), Hnew, (select_first_name_exists _ _ _ Hname).
  cbn [ensure andb negb]. rewrite !bind_Ok_l. cbv zeta.
  unfold create_match_on_mutual_like. cbn [Like.liked_id Like.liker_id].
  rewrite Hself. unfold LEAST, GREATEST. rewrite N.min_id, N.max_id.
  unfold insert_match_do_nothing.
  change (match_exists (set_likes ?t db)) with (match_exists db).
  change (profile_exists (set_likes ?t db)) with (profile_exists db).
  rewrite Hnomatch, (select_first_name_exists _ _ _ Hname).
  cbn [matches set_likes]. rewrite (bool_decide_eq_true_2 _ Hmid).
  cbn [ensure andb]. rewrite !bind_Ok_l. cbv zeta.
  rewrite (create_match_notification_success _ _ _ name name); try done.
  rewrite bind_Ok_l.
  rewrite (create_like_notification_success _ _ name); try done.
  - cbn [Like.liked_id Like.liker_id Like.id Like.is_super_like].
    unfold set_notifications, set_matches, set_likes.
    cbn [profiles likes matches messages notifications].
    by rewrite <- !app_assoc.
  - cbn [notifications set_notifications]. rewrite fmap_app, elem_of_app.
    intros [?|Hin]; [done|]. cbn in Hin.
    apply elem_of_cons in Hin as [?|Hin]; [done|].
    by apply list_elem_of_singleton in Hin.
  - exact (select_first_name_exists _ _ _ Hname).
Qed.

Lemma self_like_derives_self_match_witness :
  like_exists
    (set_likes
       (likes ann_and_bob ++
          [{| Like.id := 12; Like.liker_id := 1; Like.liked_id := 1;
              Like.is_super_like := Some false |}]) ann_and_bob) 1 1 = true ∧
  insert_like 12 22 36 37 38 1 1 (Some false) ann_and_bob =
    Ok (set_notifications
          (notifications ann_and_bob ++
             [{| Notification.id := 36; Notification.user_id := 1;
                 Notification.type := lit "match";
                 Notification.title := match_title;
                 Notification.message :=
                   lit "You and " ++ lit "Ann" ++ lit " liked each other!";
                 Notification.data :=
                   {[ "match_id"%string := 22; "other_user_id"%string := 1 ]};
                 Notification.read := Some false |};
              {| Notification.id := 37; Notification.user_id := 1;
                 Notification.type := lit "match";
                 Notification.title := match_title;
                 Notification.message :=
                   lit "You and " ++ lit "Ann" ++ lit " liked each other!";
                 Notification.data :=
                   {[ "match_id"%string := 22; "other_user_id"%string := 1 ]};
                 Notification.read := Some false |};
              {| Notification.id := 38; Notification.user_id := 1;
                 Notification.type :=
                   if IS_TRUE (Some false) then lit "super_like" else lit "like";
                 Notification.title :=
                   if IS_TRUE (Some false) then lit "Super Like!" else lit "New Like!";
                 Notification.message :=
                   lit "Ann" ++ (if IS_TRUE (Some false)
                                 then lit " super liked you!" else lit " liked you!");
                 Notification.data :=
                   {[ "user_id"%string := 1; "like_id"%string := 12 ]};
                 Notification.read := Some false |}])
          (set_matches
             (matches ann_and_bob ++
                [{| Match.id := 22; Match.user1_id := 1; Match.user2_id := 1 |}])
             (set_likes
                (likes ann_and_bob ++
                   [{| Like.id := 12; Like.liker_id := 1; Like.liked_id := 1;
                       Like.is_super_like := Some false |}]) ann_and_bob))).
Proof.
  apply (self_like_derives_self_match 12 22 36 37 38 1 (Some false) (lit "Ann")
           ann_and_bob).
  - vm_compute. reflexivity.
  - vm_compute. reflexivity.
  - vm_compute. reflexivity.
  - vm_compute. apply not_elem_of_nil.
  - vm_compute. apply not_elem_of_nil.
  - vm_compute. apply not_elem_of_nil.
  - vm_compute. apply not_elem_of_nil.
  - vm_compute. apply not_elem_of_nil.
  - done.
  - done.
  - done.
Defined.

(** C8, counterexample.  Ann likes herself: the reciprocity test holds
    on the table the trigger reads, and the match row (1, 1) is created. *)
Lemma self_like_triggers_deriver :
  like_exists
    (set_likes
       (likes ann_and_bob ++
          [{| Like.id := 12; Like.liker_id := 1; Like.liked_id := 1;
              Like.is_super_like := Some false |}]) ann_and_bob) 1 1 = true ∧
  ∃ db', insert_like 12 22 36 37 38 1 1 (Some false) ann_and_bob = Ok db' ∧
         {| Match.id := 22; Match.user1_id := 1; Match.user2_id := 1 |}
           ∈ matches db'.
Proof.
  split; [vm_compute; reflexivity|].
  eexists. split; [vm_compute; reflexivity|]. left.
Qed.

(** ** The second like *)

Lemma unique_key_one_row {A B} `{EqDecision B} (f : A → B) (l : list A) k :
  NoDup (f <$> l) → k ∈ f <$> l → length (filter (λ x, f x = k) l) = 1%nat.
Proof.
  induction l as [|x l IH]; intros Hnd Hin; [by apply elem_of_nil in Hin|].
  rewrite fmap_cons in Hnd, Hin. apply NoDup_cons in Hnd as [Hx Hnd].
  rewrite filter_cons. destruct (decide (f x = k)) as [<-|Hne].
  - simpl. f_equal.
    destruct (filter (λ y, f y = f x) l) as [|y l'] eqn:E; [done|].
    assert (y ∈ filter (λ y, f y = f x) l) as Hy by (rewrite E; left).
    apply list_elem_of_filter in Hy as [Hfy Hy].
    destruct Hx. rewrite <- Hfy. by apply list_elem_of_fmap_2.
  - apply IH; [done|]. apply elem_of_cons in Hin as [?|?]; [congruence|done].
Qed.

Lemma like_ids_set_super_like a b s (ls : list Like.row) :
  Like.id <$> (set_super_like a b s <$> ls) = Like.id <$> ls.
Proof.
  induction ls as [|l ls IH]; [done|].
  rewrite !fmap_cons. f_equal; [|done].
  unfold set_super_like. by case_bool_decide.
Qed.

(** C9. When [A] already likes [B], a second like through the upsert
    leaves exactly one row for the ordered pair (A, B): the statement
    succeeds on the table by rewriting the flag of that row, inserts no
    row, fires no trigger, so [matches] and [notifications] are what they
    were; the same holds for the database the client's [handleLike] leaves
    behind when [A] swipes on [B] again. *)
Theorem second_like_adds_nothing lid mid nm1 nm2 nl (A B : uuid) s db
    st profile isSuperLike :
  reachable db →
  like_exists db A B = true →
  DiscoverScreen.profiles st !! DiscoverScreen.currentIndex st = Some profile →
  Profile.id profile = B →
  let unchanged db' :=
    length (filter (λ l, like_key l = (A, B)) (likes db')) = 1%nat ∧
    Like.id <$> likes db' = Like.id <$> likes db ∧
    like_key <$> likes db' = like_key <$> likes db ∧
    matches db' = matches db ∧
    notifications db' = notifications db in
  upsert_like lid mid nm1 nm2 nl A B s db =
    Ok (set_likes (set_super_like A B s <$> likes db) db) ∧
  unchanged (set_likes (set_super_like A B s <$> likes db) db) ∧
  (∀ l, l ∈ set_super_like A B s <$> likes db → like_key l = (A, B) →
        Like.is_super_like l = s) ∧
  unchanged
    (DiscoverScreen.handleLike (Some A) lid mid nm1 nm2 nl true isSuperLike st db).2.
Proof.
  intros Hc%reachable_consistent Hex Hcard Hid unchanged.
  pose proof (likes_unique _ Hc) as Hnd.
  pose proof (proj1 (like_exists_spec _ _ _) Hex) as Hin.
  split; [|split; [|split]].
  - unfold upsert_like. by rewrite Hex.
  - unfold unchanged. cbn [likes matches notifications set_likes].
    rewrite like_keys_set_super_like, like_ids_set_super_like.
    split; [|done].
    apply (unique_key_one_row like_key); by rewrite like_keys_set_super_like.
  - intros l (l0 & -> & Hl0)%list_elem_of_fmap. unfold set_super_like.
    case_bool_decide as E; [done|]. intros [= ? ?]. by destruct E.
  - unfold DiscoverScreen.handleLike. rewrite Hcard, Hid.
    unfold as_authenticated, Policy.likes_insert.
    rewrite bool_decide_eq_true_2, Hex by done. cbn.
    unfold unchanged. split; [|done].
    by apply (unique_key_one_row like_key).
Qed.

Lemma second_like_adds_nothing_witness :
  let unchanged db' :=
    length (filter (λ l, like_key l = (1, 2)) (likes db')) = 1%nat ∧
    Like.id <$> likes db' = Like.id <$> likes ann_likes_bob ∧
    like_key <$> likes db' = like_key <$> likes ann_likes_bob ∧
    matches db' = matches ann_likes_bob ∧
    notifications db' = notifications ann_likes_bob in
  upsert_like 13 23 39 40 41 1 2 (Some true) ann_likes_bob =
    Ok (set_likes (set_super_like 1 2 (Some true) <$> likes ann_likes_bob)
          ann_likes_bob) ∧
  unchanged
    (set_likes (set_super_like 1 2 (Some true) <$> likes ann_likes_bob)
       ann_likes_bob) ∧
  (∀ l, l ∈ set_super_like 1 2 (Some true) <$> likes ann_likes_bob →
        like_key l = (1, 2) → Like.is_super_like l = Some true) ∧
  unchanged
    (DiscoverScreen.handleLike (Some 1) 13 23 39 40 41 true true
       ann_sees_bob ann_likes_bob).2.
Proof.
  apply (second_like_adds_nothing 13 23 39 40 41 1 2 (Some true) ann_likes_bob
           ann_sees_bob bob true).
  - do 2 apply run_reachable. apply rtc_refl.
  - vm_compute. reflexivity.
  - reflexivity.
  - reflexivity.
Defined.

(** ** Discovery *)

Lemma liked_ids_spec db u x :
  x ∈ DiscoverScreen.select_liked_ids db u ↔ like_exists db u x = true.
Proof.
  unfold DiscoverScreen.select_liked_ids.
  rewrite like_exists_spec, !list_elem_of_fmap. split.
  - intros (l & -> & [<- Hl]%list_elem_of_filter). by exists l.
  - intros (l & [= -> ->] & Hl). exists l. split; [done|].
    by apply list_elem_of_filter.
Qed.

Lemma run_admits q db p :
  p ∈ DiscoverScreen.run q db → DiscoverScreen.admits q p = true.
Proof.
  unfold DiscoverScreen.run. intros Hin.
  eapply elem_of_sublist in Hin; [|apply sublist_take].
  apply list_elem_of_filter in Hin as [Hp _]. by apply Is_true_true.
Qed.

(** C10 (as amended). With the profiles request answered by the server,
    the list [fetchProfiles] stores never holds the user's own profile and
    has at most 10 entries; it holds no profile the user already likes
    provided the likes request came back with its rows. *)
Theorem fetchProfiles_excludes (U : uuid) likes_response db st :
  let st' :=
    DiscoverScreen.fetchProfiles (Some U) likes_response
      (λ q, answered (DiscoverScreen.run q db)) st in
  (∀ P, P ∈ DiscoverScreen.profiles st' → Profile.id P ≠ U) ∧
  (length (DiscoverScreen.profiles st') ≤ 10)%nat ∧
  (data likes_response = Some (DiscoverScreen.select_liked_ids db U) →
   ∀ P, P ∈ DiscoverScreen.profiles st' → like_exists db U (Profile.id P) = false).
Proof.
  unfold DiscoverScreen.fetchProfiles.
  cbn [error answered data default from_option DiscoverScreen.profiles id].
  split; [|split].
  - intros P HP%run_admits. unfold DiscoverScreen.admits in HP.
    apply andb_true_iff in HP as [HP _]. by apply bool_decide_eq_true in HP.
  - unfold DiscoverScreen.run. rewrite length_take. cbn [DiscoverScreen.limit]. lia.
  - intros -> P HP%run_admits. cbn [default from_option id] in HP.
    apply not_true_iff_false. intros Hliked%liked_ids_spec.
    unfold DiscoverScreen.admits in HP. apply andb_true_iff in HP as [_ HP].
    cbn [DiscoverScreen.not_in] in HP.
    case_bool_decide as E.
    + cbn in HP. by apply bool_decide_eq_true in HP.
    + destruct (DiscoverScreen.select_liked_ids db U); [by apply elem_of_nil in Hliked|].
      simpl in E. lia.
Qed.

Lemma fetchProfiles_excludes_witness :
  let st' :=
    DiscoverScreen.fetchProfiles (Some 1)
      (answered (DiscoverScreen.select_liked_ids ann_likes_bob 1))
      (λ q, answered (DiscoverScreen.run q ann_likes_bob)) ann_sees_bob in
  data (answered (DiscoverScreen.select_liked_ids ann_likes_bob 1)) =
    Some (DiscoverScreen.select_liked_ids ann_likes_bob 1) ∧
  ∀ P, P ∈ DiscoverScreen.profiles st' →
       like_exists ann_likes_bob 1 (Profile.id P) = false.
Proof.
  split; [reflexivity|].
  apply (fetchProfiles_excludes 1
           (answered (DiscoverScreen.select_liked_ids ann_likes_bob 1))
           ann_likes_bob ann_sees_bob).
  reflexivity.
Defined.

(** C10, counterexample.  Ann already likes Bob; the likes request
    fails, the profiles request is answered: Bob's card is fetched again. *)
Lemma fetchProfiles_after_failed_likes_request :
  like_exists ann_likes_bob 1 2 = true ∧
  DiscoverScreen.profiles
    (DiscoverScreen.fetchProfiles (Some 1) (failed (lit "Network request failed"))
       (λ q, answered (DiscoverScreen.run q ann_likes_bob)) ann_sees_bob) = [bob].
Proof. by vm_compute. Qed.

(** * Further properties *)

(** ** What a successful fanout has written *)

Lemma create_notification_inv nid u ty ti msg d db r db' :
  create_notification nid u ty ti msg d db = Ok (r, db') →
  ∃ u' ty' ti' msg',
    u = Some u' ∧ ty = Some ty' ∧ ti = Some ti' ∧ msg = Some msg' ∧
    ty' ∈ notification_types ∧
    (nid ∉ Notification.id <$> notifications db) ∧
    u' ∈ Profile.id <$> profiles db ∧
    r = nid ∧
    db' = set_notifications
            (notifications db ++
               [{| Notification.id := nid; Notification.user_id := u';
                   Notification.type := ty'; Notification.title := ti';
                   Notification.message := msg'; Notification.data := d;
                   Notification.read := Some false |}]) db.
Proof.
  unfold create_notification. destruct u as [u'|], ty as [ty'|], ti as [ti'|],
    msg as [msg'|]; try done.
  intros H. ok_inv H. injection H as <- <-.
  apply bool_decide_eq_true in Hx, Hx0. apply profile_exists_spec in Hx1.
  by exists u', ty', ti', msg'.
Qed.

Lemma notified_one db n :
  (Notification.id n ∉ Notification.id <$> notifications db) →
  Notification.user_id n ∈ Profile.id <$> profiles db →
  Notification.type n ∈ notification_types →
  Notification.read n = Some false →
  notified db (set_notifications (notifications db ++ [n]) db) [n].
Proof.
  intros Hid Hu Hty Hr. unfold notified. split_and!; try done.
  - apply NoDup_singleton.
  - by apply Forall_singleton.
Qed.

Lemma notified_row nid u ty ti msg d db :
  (nid ∉ Notification.id <$> notifications db) →
  u ∈ Profile.id <$> profiles db →
  ty ∈ notification_types →
  let n := {| Notification.id := nid; Notification.user_id := u;
              Notification.type := ty; Notification.title := ti;
              Notification.message := msg; Notification.data := d;
              Notification.read := Some false |} in
  notified db (set_notifications (notifications db ++ [n]) db) [n].
Proof. intros Hid Hu Hty n. by apply notified_one. Qed.

Lemma notified_trans db1 db2 db3 ns1 ns2 :
  notified db1 db2 ns1 → notified db2 db3 ns2 → notified db1 db3 (ns1 ++ ns2).
Proof.
  intros (Hp1 & Hl1 & Hm1 & Hg1 & Hn1 & Hnd1 & Hf1)
         (Hp2 & Hl2 & Hm2 & Hg2 & Hn2 & Hnd2 & Hf2).
  rewrite Forall_forall in Hf1, Hf2.
  unfold notified. split_and!; try congruence.
  - by rewrite Hn2, Hn1, app_assoc.
  - rewrite fmap_app. apply NoDup_app. split; [done|]. split; [|done].
    intros i Hi (n & -> & Hn)%list_elem_of_fmap.
    destruct (Hf2 n Hn) as (Hfresh & _). apply Hfresh.
    rewrite Hn1, fmap_app, elem_of_app. by right.
  - apply Forall_app. split; apply Forall_forall; intros n Hn.
    + by apply Hf1.
    + destruct (Hf2 n Hn) as (Hfresh & Hu & Hty & Hr).
      split; [|by rewrite <- Hp1].
      intros Hin. apply Hfresh. rewrite Hn1, fmap_app, elem_of_app. by left.
Qed.

Lemma create_notification_notified nid u ty ti msg d db r db' :
  create_notification nid u ty ti msg d db = Ok (r, db') →
  ∃ n, notified db db' [n] ∧
       Some (Notification.user_id n) = u ∧ Some (Notification.type n) = ty ∧
       Some (Notification.title n) = ti ∧ Some (Notification.message n) = msg ∧
       Notification.data n = d ∧ Notification.id n = nid.
Proof.
  intros (u' & ty' & ti' & msg' & -> & -> & -> & -> & Hty & Hid & Hu & _ & ->)
    %create_notification_inv.
  eexists. split; [by apply notified_one|done].
Qed.

Lemma create_like_notification_inv nid NEW db db' :
  create_like_notification nid NEW db = Ok db' →
  ∃ n name,
    notified db db' [n] ∧ select_first_name db (Like.liker_id NEW) = Some name ∧
    n = {| Notification.id := nid;
           Notification.user_id := Like.liked_id NEW;
           Notification.type :=
             if IS_TRUE (Like.is_super_like NEW) then lit "super_like" else lit "like";
           Notification.title :=
             if IS_TRUE (Like.is_super_like NEW)
             then lit "Super Like!" else lit "New Like!";
           Notification.message :=
             name ++ (if IS_TRUE (Like.is_super_like NEW)
                      then lit " super liked you!" else lit " liked you!");
           Notification.data :=
             {[ "user_id"%string := Like.liker_id NEW;
                "like_id"%string := Like.id NEW ]};
           Notification.read := Some false |}.
Proof.
  unfold create_like_notification.
  destruct (select_first_name db (Like.liker_id NEW)) as [name|] eqn:Hname.
  - destruct (IS_TRUE (Like.is_super_like NEW)); cbn [sql_concat]; cbv beta iota;
      intros H; ok_inv H; injection H as <-;
      apply create_notification_inv in Hx
        as (u' & ty' & ti' & msg' & [= <-] & [= <-] & [= <-] & [= <-] &
            Hty & Hid & Hu & _ & ->);
      (eexists _, name; split; [by apply notified_one|done]).
  - destruct (IS_TRUE (Like.is_super_like NEW)); cbn [sql_concat]; cbv beta iota;
      by rewrite create_notification_null_message.
Qed.

Lemma create_match_notification_inv nid1 nid2 NEW db db' :
  create_match_notification nid1 nid2 NEW db = Ok db' →
  ∃ n1 n2 name1 name2,
    notified db db' [n1; n2] ∧
    select_first_name db (Match.user1_id NEW) = Some name1 ∧
    select_first_name db (Match.user2_id NEW) = Some name2 ∧
    n1 = {| Notification.id := nid1;
            Notification.user_id := Match.user1_id NEW;
            Notification.type := lit "match";
            Notification.title := match_title;
            Notification.message :=
              lit "You and " ++ name2 ++ lit " liked each other!";
            Notification.data :=
              {[ "match_id"%string := Match.id NEW;
                 "other_user_id"%string := Match.user2_id NEW ]};
            Notification.read := Some false |} ∧
    n2 = {| Notification.id := nid2;
            Notification.user_id := Match.user2_id NEW;
            Notification.type := lit "match";
            Notification.title := match_title;
            Notification.message :=
              lit "You and " ++ name1 ++ lit " liked each other!";
            Notification.data :=
              {[ "match_id"%string := Match.id NEW;
                 "other_user_id"%string := Match.user1_id NEW ]};
            Notification.read := Some false |}.
Proof.
  unfold create_match_notification.
  destruct (select_first_name db (Match.user1_id NEW)) as [name1|] eqn:Hn1;
    destruct (select_first_name db (Match.user2_id NEW)) as [name2|] eqn:Hn2;
    cbn [sql_concat]; intros H; ok_inv H;
    try (by rewrite create_notification_null_message in Hx);
    try (by rewrite create_notification_null_message in Hx0).
  injection H as <-.
  apply create_notification_inv in Hx
    as (? & ? & ? & ? & [= <-] & [= <-] & [= <-] & [= <-] & Hty & Hid & Hu & _ & ->).
  pose proof (notified_row _ _ _ match_title
                (lit "You and " ++ name2 ++ lit " liked each other!")
                (jsonb_build_object
                   [("match_id", Match.id NEW);
                    ("other_user_id", Match.user2_id NEW)]%string)
                _ Hid Hu Hty) as N1.
  apply create_notification_inv in Hx0
    as (? & ? & ? & ? & [= <-] & [= <-] & [= <-] & [= <-] & Hty2 & Hid2 & Hu2 & _ & ->).
  pose proof (notified_row _ _ _ match_title
                (lit "You and " ++ name1 ++ lit " liked each other!")
                (jsonb_build_object
                   [("match_id", Match.id NEW);
                    ("other_user_id", Match.user1_id NEW)]%string)
                _ Hid2 Hu2 Hty2) as N2.
  eexists _, _, name1, name2.
  split; [exact (notified_trans _ _ _ _ _ N1 N2)|done].
Qed.

Lemma create_message_notification_inv nid NEW db db' :
  create_message_notification nid NEW db = Ok db' →
  ∃ n M name,
    notified db db' [n] ∧
    select_match db (Message.match_id NEW) = Some M ∧
    select_first_name db (Message.sender_id NEW) = Some name ∧
    n = {| Notification.id := nid;
           Notification.user_id :=
             if bool_decide (Match.user1_id M = Message.sender_id NEW)
             then Match.user2_id M else Match.user1_id M;
           Notification.type := lit "message";
           Notification.title := lit "New Message";
           Notification.message :=
             name ++ lit ": " ++
             (if bool_decide (50 < length (Message.content NEW))%nat
              then take 50 (Message.content NEW) ++ lit "..."
              else Message.content NEW);
           Notification.data :=
             {[ "match_id"%string := Message.match_id NEW;
                "sender_id"%string := Message.sender_id NEW;
                "message_id"%string := Message.id NEW ]};
           Notification.read := Some false |}.
Proof.
  unfold create_message_notification.
  destruct (select_first_name db (Message.sender_id NEW)) as [name|] eqn:Hname;
    [|cbn [sql_concat]; by rewrite create_notification_null_message].
  rewrite message_text.
  destruct (select_match db (Message.match_id NEW)) as [M|] eqn:HM;
    cbn [fmap option_fmap option_map]; [|by rewrite bool_decide_eq_false_2].
  replace (bool_decide (Some (Match.user1_id M) = Some (Message.sender_id NEW)))
    with (bool_decide (Match.user1_id M = Message.sender_id NEW))
    by (apply bool_decide_ext; split; congruence).
  intros H. ok_inv H. injection H as <-.
  exists {| Notification.id := nid;
            Notification.user_id :=
              if bool_decide (Match.user1_id M = Message.sender_id NEW)
              then Match.user2_id M else Match.user1_id M;
            Notification.type := lit "message";
            Notification.title := lit "New Message";
            Notification.message :=
              name ++ lit ": " ++
              (if bool_decide (50 < length (Message.content NEW))%nat
               then take 50 (Message.content NEW) ++ lit "..."
               else Message.content NEW);
            Notification.data :=
              {[ "match_id"%string := Message.match_id NEW;
                 "sender_id"%string := Message.sender_id NEW;
                 "message_id"%string := Message.id NEW ]};
            Notification.read := Some false |}, M, name.
  split; [|done].
  case_bool_decide;
    apply create_notification_inv in Hx
      as (? & ? & ? & ? & [= <-] & [= <-] & [= <-] & [= <-] & Hty & Hid & Hu & _ & ->);
    by apply notified_one.
Qed.

(** X1.  A notification trigger that returns has read the other tables without
    writing them, has left the existing notifications in place, and has
    appended exactly one unread row for a like or a message, two for a
    match, each with a fresh id, an allowed type and a recipient who has
    a profile: the liked user, the two participants, a participant of the
    match of the message. *)
Theorem fanout_appends_only nid1 nid2 ev db db' :
  notification_trigger nid1 nid2 ev db = Ok db' →
  ∃ ns, notified db db' ns ∧
        match ev with
        | InsertedLike NEW =>
            Notification.user_id <$> ns = [Like.liked_id NEW]
        | InsertedMatch NEW =>
            Notification.user_id <$> ns = [Match.user1_id NEW; Match.user2_id NEW]
        | InsertedMessage NEW =>
            ∃ M r, select_match db (Message.match_id NEW) = Some M ∧
                   Notification.user_id <$> ns = [r] ∧
                   (r = Match.user1_id M ∨ r = Match.user2_id M)
        end.
Proof.
  destruct ev as [NEW|NEW|NEW]; simpl.
  - intros (n & name & Hn & _ & ->)%create_like_notification_inv.
    eexists. split; [exact Hn|done].
  - intros (n1 & n2 & name1 & name2 & Hn & _ & _ & -> & ->)
      %create_match_notification_inv.
    eexists. split; [exact Hn|done].
  - intros (n & M & name & Hn & HM & _ & ->)%create_message_notification_inv.
    eexists. split; [exact Hn|]. exists M. eexists. split; [done|].
    split; [done|]. simpl. case_bool_decide; auto.
Qed.

Lemma fanout_appends_only_witness :
  ∃ ns, notified ann_and_bob
          (set_notifications
             [{| Notification.id := 30; Notification.user_id := 2;
                 Notification.type := lit "like";
                 Notification.title := lit "New Like!";
                 Notification.message := lit "Ann liked you!";
                 Notification.data :=
                   {[ "user_id"%string := 1; "like_id"%string := 10 ]};
                 Notification.read := Some false |}] ann_and_bob) ns ∧
        Notification.user_id <$> ns = [2].
Proof.
  apply (fanout_appends_only 30 31
           (InsertedLike {| Like.id := 10; Like.liker_id := 1; Like.liked_id := 2;
                            Like.is_super_like := Some false |}) ann_and_bob).
  vm_compute. reflexivity.
Defined.

(** ** The outcomes of a like *)

Lemma insert_like_inv lid mid nm1 nm2 nl (A B : uuid) s db db' :
  insert_like lid mid nm1 nm2 nl A B s db = Ok db' →
  let NEW := like_row lid A B s in
  let db0 := set_likes (likes db ++ [NEW]) db in
  (lid ∉ Like.id <$> likes db) ∧
  like_exists db A B = false ∧
  A ∈ Profile.id <$> profiles db ∧ B ∈ Profile.id <$> profiles db ∧
  ∃ name,
    select_first_name db A = Some name ∧
    ((( like_exists db0 B A = false ∨
        match_exists db (LEAST A B) (GREATEST A B) = true) ∧
      notified db0 db' [like_notification nl NEW name]) ∨
     (∃ name1 name2,
        like_exists db0 B A = true ∧
        match_exists db (LEAST A B) (GREATEST A B) = false ∧
        (mid ∉ Match.id <$> matches db) ∧
        select_first_name db (LEAST A B) = Some name1 ∧
        select_first_name db (GREATEST A B) = Some name2 ∧
        notified
          (set_matches
             (matches db ++
                [{| Match.id := mid; Match.user1_id := LEAST A B;
                    Match.user2_id := GREATEST A B |}]) db0)
          db'
          [match_notification nm1 mid (LEAST A B) (GREATEST A B) name2;
           match_notification nm2 mid (GREATEST A B) (LEAST A B) name1;
           like_notification nl NEW name])).
Proof.
  intros H NEW db0. subst NEW db0. unfold like_row.
  unfold insert_like in H. ok_inv H.
  apply bool_decide_eq_true in Hx. apply negb_true_iff in Hx0.
  apply andb_true_iff in Hx1 as [HA%profile_exists_spec HB%profile_exists_spec].
  split_and!; try done.
  apply create_like_notification_inv in H as (n & name & Hn & Hname & ->).
  unfold create_match_on_mutual_like in Hx2.
  cbn [Like.liked_id Like.liker_id] in Hx2.
  match type of Hx2 with
  | context [like_exists ?d B A] => destruct (like_exists d B A) eqn:Hrec
  end.
  - unfold insert_match_do_nothing in Hx2.
    change (match_exists (set_likes ?t db)) with (match_exists db) in Hx2.
    destruct (match_exists db (LEAST A B) (GREATEST A B)) eqn:Hex.
    + injection Hx2 as <-. exists name. split; [done|]. left. split; [by right|done].
    + ok_inv Hx2. apply bool_decide_eq_true in Hx1.
      apply create_match_notification_inv in Hx2
        as (n1 & n2 & name1 & name2 & Hn12 & Hn1 & Hn2 & -> & ->).
      exists name. split.
      { pose proof Hn12 as (Hp & _). unfold select_first_name in Hname |- *.
        by rewrite Hp in Hname. }
      right. exists name1, name2. split_and!; try done.
      exact (notified_trans _ _ _ _ _ Hn12 Hn).
  - injection Hx2 as <-. exists name. split; [done|]. left. split; [by left|done].
Qed.

(** X2.  An accepted like does one of two things and nothing else.  It always
    stores the like row and ends with the like notification for the liked
    user, carrying the liker's first name.  Before that, either it leaves
    [matches] alone and sends nothing more, or it adds the one match row
    (smaller id, larger id) and the two match notifications, in that
    order.  Profiles and messages are never written. *)
Theorem like_insert_outcomes lid mid nm1 nm2 nl (A B : uuid) s db db' :
  insert_like lid mid nm1 nm2 nl A B s db = Ok db' →
  profiles db' = profiles db ∧ messages db' = messages db ∧
  likes db' = likes db ++ [like_row lid A B s] ∧
  ∃ name,
    select_first_name db A = Some name ∧
    ((matches db' = matches db ∧
      notifications db' =
        notifications db ++ [like_notification nl (like_row lid A B s) name]) ∨
     (∃ name1 name2,
        select_first_name db (LEAST A B) = Some name1 ∧
        select_first_name db (GREATEST A B) = Some name2 ∧
        matches db' =
          matches db ++ [{| Match.id := mid; Match.user1_id := LEAST A B;
                            Match.user2_id := GREATEST A B |}] ∧
        notifications db' =
          notifications db ++
            [match_notification nm1 mid (LEAST A B) (GREATEST A B) name2;
             match_notification nm2 mid (GREATEST A B) (LEAST A B) name1;
             like_notification nl (like_row lid A B s) name])).
Proof.
  intros (_ & _ & _ & _ & name & Hname & Hcases)%insert_like_inv.
  destruct Hcases as [[_ (Hp & Hl & Hm & Hg & Hn & _)]|
                      (name1 & name2 & _ & _ & _ & Hn1 & Hn2 &
                       (Hp & Hl & Hm & Hg & Hn & _))].
  - split_and!; try done. exists name. split; [done|]. by left.
  - split_and!; try done. exists name. split; [done|]. right.
    by exists name1, name2.
Qed.

Lemma like_insert_outcomes_witness :
  profiles ann_and_bob_matched = profiles ann_likes_bob ∧
  messages ann_and_bob_matched = messages ann_likes_bob ∧
  likes ann_and_bob_matched = likes ann_likes_bob ++ [like_row 11 2 1 (Some true)] ∧
  ∃ name,
    select_first_name ann_likes_bob 2 = Some name ∧
    ((matches ann_and_bob_matched = matches ann_likes_bob ∧
      notifications ann_and_bob_matched =
        notifications ann_likes_bob ++
          [like_notification 35 (like_row 11 2 1 (Some true)) name]) ∨
     (∃ name1 name2,
        select_first_name ann_likes_bob (LEAST 2 1) = Some name1 ∧
        select_first_name ann_likes_bob (GREATEST 2 1) = Some name2 ∧
        matches ann_and_bob_matched =
          matches ann_likes_bob ++
            [{| Match.id := 21; Match.user1_id := LEAST 2 1;
                Match.user2_id := GREATEST 2 1 |}] ∧
        notifications ann_and_bob_matched =
          notifications ann_likes_bob ++
            [match_notification 33 21 (LEAST 2 1) (GREATEST 2 1) name2;
             match_notification 34 21 (GREATEST 2 1) (LEAST 2 1) name1;
             like_notification 35 (like_row 11 2 1 (Some true)) name])).
Proof.
  apply (like_insert_outcomes 11 21 33 34 35 2 1 (Some true) ann_likes_bob
           ann_and_bob_matched).
  vm_compute. reflexivity.
Defined.

(** The rows a like that answers a like leaves behind. *)
Lemma insert_like_mutual lid mid nm1 nm2 nl (A B : uuid) s
    name name1 name2 db :
  like_exists db B A = true →
  like_exists db A B = false →
  match_exists db (LEAST A B) (GREATEST A B) = false →
  select_first_name db A = Some name →
  select_first_name db (LEAST A B) = Some name1 →
  select_first_name db (GREATEST A B) = Some name2 →
  profile_exists db B = true →
  lid ∉ Like.id <$> likes db →
  mid ∉ Match.id <$> matches db →
  nm1 ∉ Notification.id <$> notifications db →
  nm2 ∉ Notification.id <$> notifications db →
  nl ∉ Notification.id <$> notifications db →
  nm1 ≠ nm2 → nl ≠ nm1 → nl ≠ nm2 →
  insert_like lid mid nm1 nm2 nl A B s db =
    Ok (set_notifications
          (notifications db ++
             [match_notification nm1 mid (LEAST A B) (GREATEST A B) name2;
              match_notification nm2 mid (GREATEST A B) (LEAST A B) name1;
              like_notification nl (like_row lid A B s) name])
          (set_matches
             (matches db ++
                [{| Match.id := mid; Match.user1_id := LEAST A B;
                    Match.user2_id := GREATEST A B |}])
             (set_likes (likes db ++ [like_row lid A B s]) db))).
Proof.
  intros Hrec Hnew Hnomatch Hname Hn1 Hn2 HB Hlid Hmid Hnm1 Hnm2 Hnl Hne12 Hne1 Hne2.
  assert (like_exists (set_likes (likes db ++ [like_row lid A B s]) db) B A = true)
    as Hrec'.
  { apply like_exists_snoc. left. by apply like_exists_spec. }
  unfold insert_like.
  rewrite (bool_decide_eq_true_2 _ Hlid), Hnew, (select_first_name_exists _ _ _ Hname), HB.
  cbn [ensure andb negb]. rewrite !bind_Ok_l. cbv zeta.
  unfold create_match_on_mutual_like. cbn [Like.liked_id Like.liker_id].
  fold (like_row lid A B s). rewrite Hrec'.
  unfold insert_match_do_nothing.
  change (match_exists (set_likes ?t db)) with (match_exists db).
  change (profile_exists (set_likes ?t db)) with (profile_exists db).
  rewrite Hnomatch, (select_first_name_exists _ _ _ Hn1),
    (select_first_name_exists _ _ _ Hn2).
  cbn [matches set_likes]. rewrite (bool_decide_eq_true_2 _ Hmid).
  cbn [ensure andb]. rewrite !bind_Ok_l. cbv zeta.
  rewrite (create_match_notification_success _ _ _ name1 name2); try done.
  rewrite bind_Ok_l.
  rewrite (create_like_notification_success _ _ name); try done.
  - unfold set_notifications, set_matches, set_likes, like_notification,
      match_notification, like_row.
    cbn [profiles likes matches messages notifications
         Like.liked_id Like.liker_id Like.id Like.is_super_like
         Match.id Match.user1_id Match.user2_id].
    by rewrite <- !app_assoc.
  - cbn [notifications set_notifications]. rewrite fmap_app, elem_of_app.
    intros [?|Hin]; [done|]. cbn in Hin.
    apply elem_of_cons in Hin as [?|Hin]; [done|].
    by apply list_elem_of_singleton in Hin.
Qed.

(** X3.  The like that answers a like, as the screens send it (an upsert on
    the pair): when [B] already likes [A] and the pair has neither a like
    from [A] nor a match row, the like is stored, the match (smaller id,
    larger id) is created, each of the two is told of the match with the
    other's first name, and [B] is told of the like. *)
Theorem mutual_like_derives_match lid mid nm1 nm2 nl (A B : uuid) s
    name name1 name2 db :
  like_exists db B A = true →
  like_exists db A B = false →
  match_exists db (LEAST A B) (GREATEST A B) = false →
  select_first_name db A = Some name →
  select_first_name db (LEAST A B) = Some name1 →
  select_first_name db (GREATEST A B) = Some name2 →
  profile_exists db B = true →
  lid ∉ Like.id <$> likes db →
  mid ∉ Match.id <$> matches db →
  nm1 ∉ Notification.id <$> notifications db →
  nm2 ∉ Notification.id <$> notifications db →
  nl ∉ Notification.id <$> notifications db →
  nm1 ≠ nm2 → nl ≠ nm1 → nl ≠ nm2 →
  upsert_like lid mid nm1 nm2 nl A B s db =
    Ok (set_notifications
          (notifications db ++
             [match_notification nm1 mid (LEAST A B) (GREATEST A B) name2;
              match_notification nm2 mid (GREATEST A B) (LEAST A B) name1;
              like_notification nl (like_row lid A B s) name])
          (set_matches
             (matches db ++
                [{| Match.id := mid; Match.user1_id := LEAST A B;
                    Match.user2_id := GREATEST A B |}])
             (set_likes (likes db ++ [like_row lid A B s]) db))).
Proof.
  intros Hrec Hnew. intros. unfold upsert_like. rewrite Hnew.
  by apply insert_like_mutual.
Qed.

Lemma mutual_like_derives_match_witness :
  upsert_like 11 21 33 34 35 2 1 (Some true) ann_likes_bob =
    Ok (set_notifications
          (notifications ann_likes_bob ++
             [match_notification 33 21 (LEAST 2 1) (GREATEST 2 1) (lit "Bob");
              match_notification 34 21 (GREATEST 2 1) (LEAST 2 1) (lit "Ann");
              like_notification 35 (like_row 11 2 1 (Some true)) (lit "Bob")])
          (set_matches
             (matches ann_likes_bob ++
                [{| Match.id := 21; Match.user1_id := LEAST 2 1;
                    Match.user2_id := GREATEST 2 1 |}])
             (set_likes (likes ann_likes_bob ++ [like_row 11 2 1 (Some true)])
                ann_likes_bob))).
Proof.
  apply (mutual_like_derives_match 11 21 33 34 35 2 1 (Some true)
           (lit "Bob") (lit "Ann") (lit "Bob") ann_likes_bob).
  - vm_compute. reflexivity.
  - vm_compute. reflexivity.
  - vm_compute. reflexivity.
  - vm_compute. reflexivity.
  - vm_compute. reflexivity.
  - vm_compute. reflexivity.
  - vm_compute. reflexivity.
  - apply (bool_decide_unpack _). vm_compute. exact I.
  - vm_compute. apply not_elem_of_nil.
  - apply (bool_decide_unpack _). vm_compute. exact I.
  - apply (bool_decide_unpack _). vm_compute. exact I.
  - apply (bool_decide_unpack _). vm_compute. exact I.
  - done.
  - done.
  - done.
Defined.

(** X4.  Once the match row of a pair exists, a like between the two never
    adds a match nor a match notification: the like is stored and only
    the like notification is sent, whether or not the reciprocal like is
    (still) in the table.  This is the like that follows an unlike. *)
Theorem like_with_existing_match lid mid nm1 nm2 nl (A B : uuid) s name db :
  match_exists db (LEAST A B) (GREATEST A B) = true →
  like_exists db A B = false →
  select_first_name db A = Some name →
  profile_exists db B = true →
  lid ∉ Like.id <$> likes db →
  nl ∉ Notification.id <$> notifications db →
  insert_like lid mid nm1 nm2 nl A B s db =
    Ok (set_notifications
          (notifications db ++ [like_notification nl (like_row lid A B s) name])
          (set_likes (likes db ++ [like_row lid A B s]) db)).
Proof.
  intros Hmatch Hnew Hname HB Hlid Hnl.
  unfold insert_like.
  rewrite (bool_decide_eq_true_2 _ Hlid), Hnew, (select_first_name_exists _ _ _ Hname), HB.
  cbn [ensure andb negb]. rewrite !bind_Ok_l. cbv zeta.
  unfold create_match_on_mutual_like. cbn [Like.liked_id Like.liker_id].
  fold (like_row lid A B s).
  assert (insert_match_do_nothing mid nm1 nm2 (LEAST A B) (GREATEST A B)
            (set_likes (likes db ++ [like_row lid A B s]) db) =
          Ok (set_likes (likes db ++ [like_row lid A B s]) db)) as ->
    by (by apply insert_match_conflict).
  destruct (like_exists _ B A); rewrite bind_Ok_l;
    by rewrite (create_like_notification_success _ _ name).
Qed.

Lemma like_with_existing_match_witness :
  insert_like 12 22 36 37 38 1 2 None ann_unliked =
    Ok (set_notifications
          (notifications ann_unliked ++
             [like_notification 38 (like_row 12 1 2 None) (lit "Ann")])
          (set_likes (likes ann_unliked ++ [like_row 12 1 2 None]) ann_unliked)).
Proof.
  apply (like_with_existing_match 12 22 36 37 38 1 2 None (lit "Ann") ann_unliked).
  - vm_compute. reflexivity.
  - vm_compute. reflexivity.
  - vm_compute. reflexivity.
  - vm_compute. reflexivity.
  - apply (bool_decide_unpack _). vm_compute. exact I.
  - apply (bool_decide_unpack _). vm_compute. exact I.
Defined.

(** ** Matches only grow, and only from mutual likes *)

(** What one statement may do to [matches]. *)
Lemma like_inserted_matches db db' a b :
  like_inserted db db' a b →
  matches db' = matches db ∨
  ∃ m, matches db' = matches db ++ [m] ∧
       Match.user1_id m ≤ Match.user2_id m ∧
       like_exists db' (Match.user1_id m) (Match.user2_id m) = true ∧
       like_exists db' (Match.user2_id m) (Match.user1_id m) = true.
Proof.
  intros (_ & _ & Hkeys & [[_ Hm]|[(_ & _ & Hm)|(Hba & _ & _ & _ & mid & _ & Hm)]]);
    [by left|by left|].
  right. eexists. split; [exact Hm|]. cbn [Match.user1_id Match.user2_id].
  assert ((a, b) ∈ like_key <$> likes db') as Hab
    by (rewrite Hkeys, elem_of_app; right; left).
  split; [apply LEAST_le_GREATEST|].
  rewrite !like_exists_spec. unfold LEAST, GREATEST.
  destruct (N.le_ge_cases a b).
  - rewrite N.min_l, N.max_r by done. done.
  - rewrite N.min_r, N.max_l by done. done.
Qed.

Lemma exec_matches st db db' :
  exec st db = Ok db' →
  matches db' = matches db ∨
  ∃ m, matches db' = matches db ++ [m] ∧
       Match.user1_id m ≤ Match.user2_id m ∧
       like_exists db' (Match.user1_id m) (Match.user2_id m) = true ∧
       like_exists db' (Match.user2_id m) (Match.user1_id m) = true.
Proof.
  destruct st; simpl.
  - unfold insert_profile. intros H. ok_inv H. injection H as <-. by left.
  - intros [= <-]. by left.
  - intros [H _]%insert_like_Ok. by eapply like_inserted_matches.
  - unfold upsert_like. destruct (like_exists db liker liked).
    + intros [= <-]. by left.
    + intros [H _]%insert_like_Ok. by eapply like_inserted_matches.
  - intros [= <-]. by left.
  - intros (_ & _ & ? & _)%insert_message_Ok. by left.
  - intros [= <-]. by left.
  - intros [= <-]. by left.
Qed.

(** X5.  No statement of the application removes or rewrites a match row, an
    unlike included; a statement adds at most one, and only with both
    directed likes of its two users in the table, the smaller id first. *)
Theorem matches_grow_from_mutual_likes db db' :
  step db db' →
  matches db' = matches db ∨
  ∃ m, matches db' = matches db ++ [m] ∧
       Match.user1_id m ≤ Match.user2_id m ∧
       like_exists db' (Match.user1_id m) (Match.user2_id m) = true ∧
       like_exists db' (Match.user2_id m) (Match.user1_id m) = true.
Proof.
  intros [st [H|[uid H]]]; [by eapply exec_matches|].
  destruct st; unfold as_authenticated in H;
    try (ok_inv H; by eapply exec_matches);
    try (destruct (Policy.profiles_own _ _); [by eapply exec_matches|]);
    try (destruct (Policy.notifications_own _ _ _); [by eapply exec_matches|]);
    injection H as <-; by left.
Qed.

Lemma matches_grow_from_mutual_likes_witness :
  matches ann_and_bob_matched = matches ann_likes_bob ∨
  ∃ m, matches ann_and_bob_matched = matches ann_likes_bob ++ [m] ∧
       Match.user1_id m ≤ Match.user2_id m ∧
       like_exists ann_and_bob_matched (Match.user1_id m) (Match.user2_id m) = true ∧
       like_exists ann_and_bob_matched (Match.user2_id m) (Match.user1_id m) = true.
Proof.
  apply (matches_grow_from_mutual_likes ann_likes_bob ann_and_bob_matched).
  exists (InsertLike 11 21 33 34 35 2 1 (Some true)). left.
  vm_compute. reflexivity.
Defined.

(** ** Keys stay unique and references stay valid *)

Lemma integrity_empty : integrity empty_db.
Proof. split; simpl; constructor. Qed.

Lemma integrity_notified db db' ns :
  integrity db → notified db db' ns → integrity db'.
Proof.
  intros [Hpp Hlp Hlf Hgp Hgf Hnp Hnf] (Hp & Hl & Hm & Hg & Hn & Hnd & Hns).
  split; rewrite ?Hp, ?Hl, ?Hm, ?Hg; try done.
  - rewrite Hn, fmap_app. apply NoDup_app. split; [done|]. split; [|done].
    intros i Hi (n & -> & Hin)%list_elem_of_fmap.
    rewrite Forall_forall in Hns. by destruct (Hns n Hin) as (Hfresh & _).
  - rewrite Hn. apply Forall_app. split; [done|].
    eapply Forall_impl; [exact Hns|]. by intros n (_ & ? & ? & _).
Qed.

Lemma integrity_add_like db NEW :
  integrity db →
  (Like.id NEW ∉ Like.id <$> likes db) →
  Like.liker_id NEW ∈ Profile.id <$> profiles db →
  Like.liked_id NEW ∈ Profile.id <$> profiles db →
  integrity (set_likes (likes db ++ [NEW]) db).
Proof.
  intros [Hpp Hlp Hlf Hgp Hgf Hnp Hnf] Hid HA HB. split; simpl; try done.
  - rewrite fmap_app. apply NoDup_app. split; [done|]. split; [|apply NoDup_singleton].
    intros i Hi ->%list_elem_of_singleton. done.
  - apply Forall_app. split; [done|]. by apply Forall_singleton.
Qed.

Lemma integrity_add_match db m :
  integrity db → integrity (set_matches (matches db ++ [m]) db).
Proof.
  intros [Hpp Hlp Hlf Hgp Hgf Hnp Hnf]. split; simpl; try done.
  eapply Forall_impl; [exact Hgf|]. intros g [? ?]. split; [|done].
  rewrite fmap_app, elem_of_app. by left.
Qed.

Lemma integrity_add_message db NEW :
  integrity db →
  (Message.id NEW ∉ Message.id <$> messages db) →
  Message.match_id NEW ∈ Match.id <$> matches db →
  Message.sender_id NEW ∈ Profile.id <$> profiles db →
  integrity (set_messages (messages db ++ [NEW]) db).
Proof.
  intros [Hpp Hlp Hlf Hgp Hgf Hnp Hnf] Hid Hm Hs. split; simpl; try done.
  - rewrite fmap_app. apply NoDup_app. split; [done|]. split; [|apply NoDup_singleton].
    intros i Hi ->%list_elem_of_singleton. done.
  - apply Forall_app. split; [done|]. by apply Forall_singleton.
Qed.

(** Statements that keep the rows of a table, or some of them, with their
    keys and references, and may add profiles. *)
Lemma integrity_frame db db' :
  integrity db →
  (Profile.id <$> profiles db') = (Profile.id <$> profiles db) →
  ((λ l, (Like.id l, Like.liker_id l, Like.liked_id l)) <$> likes db')
    `sublist_of` ((λ l, (Like.id l, Like.liker_id l, Like.liked_id l)) <$> likes db) →
  matches db' = matches db → messages db' = messages db →
  ((λ n, (Notification.id n, Notification.user_id n, Notification.type n))
     <$> notifications db')
    `sublist_of`
  ((λ n, (Notification.id n, Notification.user_id n, Notification.type n))
     <$> notifications db) →
  integrity db'.
Proof.
  intros [Hpp Hlp Hlf Hgp Hgf Hnp Hnf] Hp Hl Hm Hg Hn.
  assert (Like.id <$> likes db' `sublist_of` Like.id <$> likes db) as Hlid.
  { apply (fmap_sublist (λ t : N * N * N, t.1.1)) in Hl.
    by rewrite <- !list_fmap_compose in Hl. }
  assert (Notification.id <$> notifications db'
            `sublist_of` Notification.id <$> notifications db) as Hnid.
  { apply (fmap_sublist (λ t : N * N * list N, t.1.1)) in Hn.
    by rewrite <- !list_fmap_compose in Hn. }
  split; rewrite ?Hp, ?Hm, ?Hg; try done.
  - eapply sublist_NoDup; [exact Hlp|exact Hlid].
  - apply Forall_forall. intros l Hin.
    assert ((Like.id l, Like.liker_id l, Like.liked_id l) ∈
              (λ l, (Like.id l, Like.liker_id l, Like.liked_id l)) <$> likes db)
      as (l0 & [= _ -> ->] & Hl0)%list_elem_of_fmap
      by (eapply elem_of_sublist; [|exact Hl];
          by apply (list_elem_of_fmap_2
                      (λ l, (Like.id l, Like.liker_id l, Like.liked_id l)))).
    rewrite Forall_forall in Hlf. by apply Hlf.
  - eapply sublist_NoDup; [exact Hnp|exact Hnid].
  - apply Forall_forall. intros n Hin.
    assert ((Notification.id n, Notification.user_id n, Notification.type n) ∈
              (λ n, (Notification.id n, Notification.user_id n, Notification.type n))
                <$> notifications db)
      as (n0 & [= _ -> ->] & Hn0)%list_elem_of_fmap
      by (eapply elem_of_sublist; [|exact Hn];
          by apply (list_elem_of_fmap_2
                      (λ n, (Notification.id n, Notification.user_id n,
                             Notification.type n)))).
    rewrite Forall_forall in Hnf. by apply Hnf.
Qed.

Lemma integrity_add_profile db p :
  integrity db → (Profile.id p ∉ Profile.id <$> profiles db) →
  integrity (set_profiles (profiles db ++ [p]) db).
Proof.
  intros [Hpp Hlp Hlf Hgp Hgf Hnp Hnf] Hid.
  assert (∀ u, u ∈ Profile.id <$> profiles db →
               u ∈ Profile.id <$> profiles db ++ [p]) as Hsub
    by (intros u Hu; rewrite fmap_app, elem_of_app; by left).
  split; simpl; try done.
  - rewrite fmap_app. apply NoDup_app. split; [done|]. split; [|apply NoDup_singleton].
    intros i Hi ->%list_elem_of_singleton. done.
  - eapply Forall_impl; [exact Hlf|]. intros l [? ?]. split; by apply Hsub.
  - eapply Forall_impl; [exact Hgf|]. intros g [? ?]. split; [done|by apply Hsub].
  - eapply Forall_impl; [exact Hnf|]. intros n [? ?]. split; [by apply Hsub|done].
Qed.

Lemma insert_message_inv msgid nid m sender (c : text) ty db db' :
  insert_message msgid nid m sender c ty db = Ok db' →
  let NEW := {| Message.id := msgid; Message.match_id := m;
                Message.sender_id := sender; Message.content := c;
                Message.message_type := ty |} in
  (msgid ∉ Message.id <$> messages db) ∧
  m ∈ Match.id <$> matches db ∧ sender ∈ Profile.id <$> profiles db ∧
  ∃ n M name,
    notified (set_messages (messages db ++ [NEW]) db) db' [n] ∧
    select_match db m = Some M ∧ select_first_name db sender = Some name ∧
    n = {| Notification.id := nid;
           Notification.user_id :=
             if bool_decide (Match.user1_id M = sender)
             then Match.user2_id M else Match.user1_id M;
           Notification.type := lit "message";
           Notification.title := lit "New Message";
           Notification.message :=
             name ++ lit ": " ++
             (if bool_decide (50 < length c)%nat then take 50 c ++ lit "..." else c);
           Notification.data :=
             {[ "match_id"%string := m; "sender_id"%string := sender;
                "message_id"%string := msgid ]};
           Notification.read := Some false |}.
Proof.
  intros H NEW. subst NEW. unfold insert_message in H. ok_inv H.
  apply bool_decide_eq_true in Hx0.
  apply andb_true_iff in Hx1 as [Hm%bool_decide_eq_true Hs%profile_exists_spec].
  split_and!; try done.
  apply create_message_notification_inv in H as (n & M & name & Hn & HM & Hname & ->).
  eexists _, M, name. split; [exact Hn|]. done.
Qed.

Lemma exec_integrity st db db' :
  integrity db → exec st db = Ok db' → integrity db'.
Proof.
  intros Hi. destruct st; simpl.
  - unfold insert_profile. intros H. ok_inv H. injection H as <-.
    apply integrity_add_profile; [done|]. simpl.
    apply negb_true_iff in Hx. intros Hin%profile_exists_spec. congruence.
  - intros [= <-]. eapply integrity_frame; [exact Hi| |done..]. simpl.
    by rewrite profile_ids_update.
  - intros (Hlid & _ & HA & HB & name & _ & [[_ Hn]|(n1 & n2 & _ & _ & _ & _ & _ & Hn)])
      %insert_like_inv.
    + eapply integrity_notified; [|exact Hn]. by apply integrity_add_like.
    + eapply integrity_notified; [|exact Hn].
      apply (integrity_add_match
               (set_likes (likes db ++ [like_row lid liker liked s]) db)).
      by apply integrity_add_like.
  - unfold upsert_like. destruct (like_exists db liker liked).
    + intros [= <-]. eapply integrity_frame; [exact Hi|done| |done..]. simpl.
      rewrite <- list_fmap_compose.
      assert (((λ l, (Like.id l, Like.liker_id l, Like.liked_id l))
                 ∘ set_super_like liker liked s <$> likes db) =
              ((λ l, (Like.id l, Like.liker_id l, Like.liked_id l)) <$> likes db))
        as ->; [|done].
      apply list_fmap_ext. intros i l _. unfold set_super_like. simpl.
      case_bool_decide as E; [|done]. by destruct E as [<- <-].
    + intros (Hlid & _ & HA & HB & name & _ &
              [[_ Hn]|(n1 & n2 & _ & _ & _ & _ & _ & Hn)])%insert_like_inv.
      * eapply integrity_notified; [|exact Hn]. by apply integrity_add_like.
      * eapply integrity_notified; [|exact Hn].
        apply (integrity_add_match
                 (set_likes (likes db ++ [like_row lid liker liked s]) db)).
        by apply integrity_add_like.
  - intros [= <-]. eapply integrity_frame; [exact Hi|done| |done..]. simpl.
    apply fmap_sublist, sublist_filter.
  - intros (Hid & Hm & Hs & n & M & name & Hn & _)%insert_message_inv.
    eapply integrity_notified; [|exact Hn]. by apply integrity_add_message.
  - intros [= <-]. eapply integrity_frame; [exact Hi|done..|]. simpl.
    rewrite <- list_fmap_compose.
    assert (((λ n, (Notification.id n, Notification.user_id n, Notification.type n))
               ∘ (λ n, if bool_decide (Notification.id n = nid)
                       then {| Notification.id := Notification.id n;
                               Notification.user_id := Notification.user_id n;
                               Notification.type := Notification.type n;
                               Notification.title := Notification.title n;
                               Notification.message := Notification.message n;
                               Notification.data := Notification.data n;
                               Notification.read := Some true |}
                       else n) <$> notifications db) =
            ((λ n, (Notification.id n, Notification.user_id n, Notification.type n))
               <$> notifications db)) as ->; [|done].
    apply list_fmap_ext. intros i n _. simpl. by case_bool_decide.
  - intros [= <-]. eapply integrity_frame; [exact Hi|done..|]. simpl.
    apply fmap_sublist, sublist_filter.
Qed.

Lemma as_authenticated_integrity uid st db db' :
  integrity db → as_authenticated uid st db = Ok db' → integrity db'.
Proof.
  intros Hi. destruct st; unfold as_authenticated.
  - intros H. ok_inv H. by eapply exec_integrity.
  - destruct (Policy.profiles_own _ _); [by apply exec_integrity|by intros [= <-]].
  - intros H. ok_inv H. by eapply exec_integrity.
  - intros H. ok_inv H. by eapply exec_integrity.
  - intros [= <-]. eapply integrity_frame; [exact Hi|done| |done..]. simpl.
    apply fmap_sublist, sublist_filter.
  - intros H. ok_inv H. by eapply exec_integrity.
  - destruct (Policy.notifications_own _ _ _);
      [by apply exec_integrity|by intros [= <-]].
  - destruct (Policy.notifications_own _ _ _);
      [by apply exec_integrity|by intros [= <-]].
Qed.

Lemma reachable_keys db : reachable db → integrity db.
Proof.
  revert db. apply rtc_ind_r; [apply integrity_empty|].
  intros db db' _ [st [H|[uid H]]] Hi;
    eauto using exec_integrity, as_authenticated_integrity.
Qed.

(** X6.  In every database the application can reach, the primary keys of the
    five tables are unique, every like, match, message and notification
    refers to existing profiles (and every message to an existing match),
    and every notification has one of the types like, super_like, match,
    message: the rows the triggers insert never break a key or a
    reference. *)
Theorem reachable_integrity db :
  reachable db →
  integrity db ∧
  NoDup (Match.id <$> matches db) ∧
  Forall (λ m, Match.user1_id m ∈ Profile.id <$> profiles db ∧
               Match.user2_id m ∈ Profile.id <$> profiles db) (matches db).
Proof.
  intros Hr. split; [|split].
  - by apply reachable_keys.
  - by apply matches_pkey, reachable_consistent.
  - by apply matches_fkey, reachable_consistent.
Qed.

Lemma reachable_integrity_witness :
  integrity with_cy ∧
  NoDup (Match.id <$> matches with_cy) ∧
  Forall (λ m, Match.user1_id m ∈ Profile.id <$> profiles with_cy ∧
               Match.user2_id m ∈ Profile.id <$> profiles with_cy) (matches with_cy).
Proof.
  apply (reachable_integrity with_cy).
  do 4 apply run_reachable. apply rtc_refl.
Defined.

(** ** The matches screen *)

(** The set of matched users the screen builds holds [a] exactly when a
    match row joins the user and [a]. *)
Lemma matchedUserIds_spec u a db :
  a ∈ (λ m, if bool_decide (Match.user1_id m = u)
            then Match.user2_id m else Match.user1_id m)
        <$> MatchesScreen.select_own_matches db u ↔
  Exists (joins u a) (matches db).
Proof.
  unfold MatchesScreen.select_own_matches.
  rewrite list_elem_of_fmap, Exists_exists. unfold joins, match_key. split.
  - intros (m & -> & [Hu Hm]%list_elem_of_filter). exists m. split; [done|].
    case_bool_decide as E; [left; by rewrite E|].
    destruct Hu as [?|Hu]; [done|]. right. by rewrite Hu.
  - intros (m & Hm & [[= H1 H2]|[= H1 H2]]); exists m.
    + rewrite bool_decide_eq_true_2 by done.
      split; [done|]. apply list_elem_of_filter. split; [by left|done].
    + split; [|apply list_elem_of_filter; split; [by right|done]].
      case_bool_decide; congruence.
Qed.

Lemma pending_spec u db st x :
  x ∈ MatchesScreen.like <$> MatchesScreen.pendingLikes
        (MatchesScreen.fetchPendingLikes (Some u)
           (answered (MatchesScreen.select_incoming db u))
           (answered (MatchesScreen.select_own_matches db u)) st) ↔
  x ∈ likes db ∧ Like.liked_id x = u ∧
  ¬ Exists (joins u (Like.liker_id x)) (matches db).
Proof.
  unfold MatchesScreen.fetchPendingLikes, answered.
  cbn [error data default fmap option_fmap option_map id MatchesScreen.pendingLikes].
  rewrite list_elem_of_fmap. split.
  - intros (l & -> & [Hn Hl]%list_elem_of_filter).
    unfold MatchesScreen.select_incoming in Hl.
    apply list_elem_of_fmap in Hl as (y & -> & [Hy Hin]%list_elem_of_filter).
    cbn [MatchesScreen.like] in *. split_and!; try done.
    by rewrite <- matchedUserIds_spec.
  - intros (Hin & Hu & Hn).
    exists {| MatchesScreen.like := x;
              MatchesScreen.profile :=
                head (filter (λ p, Profile.id p = Like.liker_id x) (profiles db)) |}.
    split; [done|]. apply list_elem_of_filter. split.
    + cbn [MatchesScreen.like]. by rewrite matchedUserIds_spec.
    + unfold MatchesScreen.select_incoming. apply list_elem_of_fmap.
      exists x. split; [done|].
      by apply list_elem_of_filter.
Qed.

(** In a reachable database a match row of the pair is the canonical
    one. *)
Lemma joins_match_exists u a db :
  consistent db →
  Exists (joins u a) (matches db) ↔
  match_exists db (LEAST u a) (GREATEST u a) = true.
Proof.
  intros Hc. rewrite match_exists_spec, Exists_exists, list_elem_of_fmap. split.
  - intros (m & Hm & Hj). exists m. split; [|done].
    pose proof (matches_ordered _ Hc) as Hord. rewrite Forall_forall in Hord.
    specialize (Hord m Hm). unfold LEAST, GREATEST.
    destruct Hj as [Hk|Hk]; rewrite Hk; unfold match_key in Hk;
      injection Hk as H1 H2; rewrite H1, H2 in Hord.
    + by rewrite N.min_l, N.max_r.
    + by rewrite N.min_r, N.max_l.
  - intros (m & Hk & Hm). exists m. split; [done|]. unfold joins.
    rewrite <- Hk. unfold LEAST, GREATEST.
    destruct (N.le_ge_cases u a).
    + left. by rewrite N.min_l, N.max_r.
    + right. by rewrite N.min_r, N.max_l.
Qed.



(** What the screen knows of a pending like, in a reachable database. *)
Lemma pending_like_facts u db st l :
  reachable db →
  l ∈ MatchesScreen.pendingLikes
        (MatchesScreen.fetchPendingLikes (Some u)
           (answered (MatchesScreen.select_incoming db u))
           (answered (MatchesScreen.select_own_matches db u)) st) →
  MatchesScreen.like l ∈ likes db ∧
  Like.liked_id (MatchesScreen.like l) = u ∧
  Like.liker_id (MatchesScreen.like l) ≠ u ∧
  like_exists db (Like.liker_id (MatchesScreen.like l)) u = true ∧
  like_exists db u (Like.liker_id (MatchesScreen.like l)) = false ∧
  match_exists db (LEAST u (Like.liker_id (MatchesScreen.like l)))
    (GREATEST u (Like.liker_id (MatchesScreen.like l))) = false ∧
  u ∈ Profile.id <$> profiles db ∧
  Like.liker_id (MatchesScreen.like l) ∈ Profile.id <$> profiles db.
Proof.
  intros Hr Hl. pose proof (reachable_consistent _ Hr) as Hc.
  pose proof (reachable_keys _ Hr) as Hi.
  apply (list_elem_of_fmap_2 MatchesScreen.like) in Hl.
  apply pending_spec in Hl as (Hin & Hu & Hn).
  rewrite (joins_match_exists _ _ _ Hc), not_true_iff_false in Hn.
  assert ((Like.liker_id (MatchesScreen.like l), u) ∈ like_key <$> likes db) as Hk.
  { apply list_elem_of_fmap. exists (MatchesScreen.like l). split; [|done].
    unfold like_key. by rewrite Hu. }
  assert (like_exists db u (Like.liker_id (MatchesScreen.like l)) = false) as Hnew.
  { apply not_true_iff_false. intros Hrec%like_exists_spec.
    apply not_true_iff_false in Hn. apply Hn, match_exists_spec.
    by apply (mutual_matched _ Hc). }
  pose proof (likes_fkey _ Hi) as Hfk. rewrite Forall_forall in Hfk.
  destruct (Hfk _ Hin) as [HA HB]. rewrite Hu in HB.
  split_and!; try done.
  - intros E. rewrite E in Hnew, Hk. apply like_exists_spec in Hk. congruence.
  - by apply like_exists_spec.
Qed.



Lemma filter_all {A} (P : A → Prop) `{!∀ x, Decision (P x)} (l : list A) :
  Forall P l → filter P l = l.
Proof.
  induction 1 as [|x l Hx _ IH]; [done|]. by rewrite filter_cons_True, IH.
Qed.

(** X9.  Passing on a pending like deletes nothing: the only DELETE policy
    on [likes] admits the rows the user sent, and a pending like was sent
    by someone else.  The modal closes, the row stays in the table, and
    the next [fetchPendingLikes] shows it again. *)
Theorem pass_deletes_nothing u db st0 st l :
  reachable db →
  l ∈ MatchesScreen.pendingLikes
        (MatchesScreen.fetchPendingLikes (Some u)
           (answered (MatchesScreen.select_incoming db u))
           (answered (MatchesScreen.select_own_matches db u)) st0) →
  MatchesScreen.selectedProfile st = Some l →
  MatchesScreen.handlePassLike (Some u) st db =
    (MatchesScreen.closed (MatchesScreen.activeTab st) st, db).
Proof.
  intros Hr Hl Hsel.
  destruct (pending_like_facts _ _ _ _ Hr Hl) as (Hin & Hu & Hne & _).
  pose proof (likes_pkey _ (reachable_keys _ Hr)) as Hpk.
  unfold MatchesScreen.handlePassLike. rewrite Hsel. f_equal.
  unfold as_authenticated, commit.
  assert (filter (λ l', ¬ (Like.id l' = Like.id (MatchesScreen.like l) ∧
                           Policy.likes_delete u l')) (likes db) = likes db) as ->.
  { apply filter_all. apply Forall_forall. intros l' Hl' [Hid Hown].
    apply (NoDup_fmap_eq Like.id _ _ _ Hpk Hl' Hin) in Hid. subst l'.
    unfold Policy.likes_delete in Hown. apply bool_decide_unpack in Hown. done. }
  by destruct db.
Qed.

Lemma pass_deletes_nothing_witness :
  MatchesScreen.handlePassLike (Some 2)
      (MatchesScreen.handleLikeProfile anns_like_shown bob_opens_matches)
      ann_likes_bob =
    (MatchesScreen.closed
       (MatchesScreen.activeTab
          (MatchesScreen.handleLikeProfile anns_like_shown bob_opens_matches))
       (MatchesScreen.handleLikeProfile anns_like_shown bob_opens_matches),
     ann_likes_bob).
Proof.
  apply (pass_deletes_nothing 2 ann_likes_bob bob_opens_matches
           (MatchesScreen.handleLikeProfile anns_like_shown bob_opens_matches)
           anns_like_shown).
  - do 2 apply run_reachable. apply rtc_refl.
  - vm_compute. left.
  - reflexivity.
Defined.

(** ** What a signed-in user can write *)

(** The tables after an accepted like. *)
Lemma insert_like_tables lid mid nm1 nm2 nl (A B : uuid) s db db' :
  insert_like lid mid nm1 nm2 nl A B s db = Ok db' →
  profiles db' = profiles db ∧ messages db' = messages db ∧
  likes db' = likes db ++ [like_row lid A B s] ∧
  ∃ ns, notifications db' = notifications db ++ ns.
Proof.
  intros (_ & _ & _ & _ & name & _ &
          [[_ Hn]|(n1 & n2 & _ & _ & _ & _ & _ & Hn)])%insert_like_inv;
    destruct Hn as (Hp & Hl & Hm & Hg & Hn & _); split_and!; try done;
    by eexists.
Qed.

Lemma insert_message_tables msgid nid m sender (c : text) ty db db' :
  insert_message msgid nid m sender c ty db = Ok db' →
  profiles db' = profiles db ∧ likes db' = likes db ∧
  messages db' = messages db ++
    [{| Message.id := msgid; Message.match_id := m; Message.sender_id := sender;
        Message.content := c; Message.message_type := ty |}] ∧
  ∃ ns, notifications db' = notifications db ++ ns.
Proof.
  intros (_ & _ & _ & n & M & name & Hn & _)%insert_message_inv.
  destruct Hn as (Hp & Hl & Hm & Hg & Hn & _); split_and!; try done.
  by eexists.
Qed.

(** X10.  Row-level security confines the statements a signed-in user
    sends from the screens to their own rows.  A like that a statement of
    user [uid] adds or removes has [uid] as its liker; a message it adds has [uid] as its sender and goes to a match
    that [uid] is part of; a profile it adds or rewrites is [uid]'s own;
    a notification it removes or rewrites was addressed to [uid].  No
    message is ever removed. *)
Theorem writes_as_oneself uid st db db' :
  reachable db →
  as_authenticated uid st db = Ok db' →
  (∀ l, l ∈ likes db' → l ∉ likes db → Like.liker_id l = uid) ∧
  (∀ l, l ∈ likes db → l ∉ likes db' → Like.liker_id l = uid) ∧
  (∀ m, m ∈ messages db' → m ∉ messages db →
        Message.sender_id m = uid ∧
        ∃ M, M ∈ matches db ∧ Match.id M = Message.match_id m ∧
             (Match.user1_id M = uid ∨ Match.user2_id M = uid)) ∧
  (∀ m, m ∈ messages db → m ∈ messages db') ∧
  (∀ p, p ∈ profiles db' → p ∉ profiles db → Profile.id p = uid) ∧
  (∀ p, p ∈ profiles db → p ∉ profiles db' → Profile.id p = uid) ∧
  (∀ n, n ∈ notifications db → n ∉ notifications db' → Notification.user_id n = uid).
Proof.
  intros Hr H. pose proof (notifications_pkey _ (reachable_keys _ Hr)) as Hpk.
  assert (∀ nid n, Policy.notifications_own uid db nid = true →
                   n ∈ notifications db → Notification.id n = nid →
                   Notification.user_id n = uid) as Hown.
  { intros nid n Hp Hn Hid. unfold Policy.notifications_own in Hp.
    apply bool_decide_eq_true, Exists_exists in Hp as (n0 & Hn0 & Hid0 & Hu0).
    rewrite <- Hid0 in Hid.
    by rewrite (NoDup_fmap_eq Notification.id _ _ _ Hpk Hn Hn0 Hid). }
  destruct st; unfold as_authenticated in H.
  - ok_inv H. cbn [exec] in H. unfold insert_profile in H. ok_inv H.
    injection H as <-. cbn [set_profiles profiles likes messages notifications].
    unfold Policy.profiles_own in Hx. apply bool_decide_eq_true in Hx.
    split_and!; try done.
    + intros p [?|Hp%list_elem_of_singleton]%elem_of_app ?; [done|]. by subst p.
    + intros p Hp Hn. destruct Hn. apply elem_of_app. by left.
  - destruct (Policy.profiles_own uid u) eqn:Hp; [|injection H as <-; by split_and!].
    injection H as <-. unfold Policy.profiles_own in Hp.
    apply bool_decide_eq_true in Hp. subst u.
    cbn [update_profile set_profiles profiles likes messages notifications].
    split_and!; try done.
    + intros p (q & -> & Hq)%list_elem_of_fmap Hn.
      case_bool_decide; [done|]. done.
    + intros p Hp Hn. destruct (decide (Profile.id p = uid)) as [|Hne]; [done|].
      destruct Hn. apply list_elem_of_fmap. exists p. split; [|done].
      by rewrite bool_decide_eq_false_2.
  - ok_inv H. unfold Policy.likes_insert in Hx. apply bool_decide_eq_true in Hx.
    cbn [exec] in H. apply insert_like_tables in H as (Hp & Hg & Hl & ns & Hn).
    rewrite Hp, Hg, Hl, Hn. split_and!; try done.
    + intros l [?|Hl'%list_elem_of_singleton]%elem_of_app ?; [done|]. by subst l.
    + intros l Hin Hnin. destruct Hnin. apply elem_of_app. by left.
    + intros n Hin Hnin. destruct Hnin. apply elem_of_app. by left.
  - ok_inv H. unfold Policy.likes_insert in Hx. apply bool_decide_eq_true in Hx.
    apply negb_true_iff in Hx0. cbn [exec] in H. unfold upsert_like in H.
    rewrite Hx0 in H. apply insert_like_tables in H as (Hp & Hg & Hl & ns & Hn).
    rewrite Hp, Hg, Hl, Hn. split_and!; try done.
    + intros l [?|Hl'%list_elem_of_singleton]%elem_of_app ?; [done|]. by subst l.
    + intros l Hin Hnin. destruct Hnin. apply elem_of_app. by left.
    + intros n Hin Hnin. destruct Hnin. apply elem_of_app. by left.
  - injection H as <-. cbn [set_likes profiles likes messages notifications].
    split_and!; try done.
    + by intros l [_ ?]%list_elem_of_filter ?.
    + intros l Hin Hnin.
      destruct (decide (uid = Like.liker_id l)) as [|Hne]; [done|].
      destruct Hnin. apply list_elem_of_filter. split; [|done].
      intros [_ Hown']. unfold Policy.likes_delete in Hown'.
      by apply bool_decide_unpack in Hown'.
  - ok_inv H. unfold Policy.messages_insert in Hx.
    apply andb_true_iff in Hx as [Hs%bool_decide_eq_true HM%bool_decide_eq_true].
    apply Exists_exists in HM as (M & HM & Hid & Hpart).
    cbn [exec] in H. apply insert_message_tables in H as (Hp & Hl & Hg & ns & Hn).
    rewrite Hp, Hl, Hg, Hn. split_and!; try done.
    + intros g [?|Hg'%list_elem_of_singleton]%elem_of_app ?; [done|]. subst g.
      cbn [Message.sender_id Message.match_id]. split; [done|]. by exists M.
    + intros g Hin. apply elem_of_app. by left.
    + intros n Hin Hnin. destruct Hnin. apply elem_of_app. by left.
  - destruct (Policy.notifications_own uid db nid) eqn:Hp;
      [|injection H as <-; by split_and!].
    injection H as <-.
    cbn [mark_read set_notifications profiles likes messages notifications].
    split_and!; try done.
    intros n Hin Hnin. destruct (decide (Notification.id n = nid)) as [Hid|Hne].
    + by eapply Hown.
    + destruct Hnin. apply list_elem_of_fmap. exists n. split; [|done].
      by rewrite bool_decide_eq_false_2.
  - destruct (Policy.notifications_own uid db nid) eqn:Hp;
      [|injection H as <-; by split_and!].
    injection H as <-.
    cbn [delete_notification set_notifications profiles likes messages notifications].
    split_and!; try done.
    intros n Hin Hnin. destruct (decide (Notification.id n = nid)) as [Hid|Hne].
    + by eapply Hown.
    + destruct Hnin. by apply list_elem_of_filter.
Qed.

Lemma writes_as_oneself_witness :
  (∀ l, l ∈ likes ann_and_bob_matched → l ∉ likes ann_likes_bob →
        Like.liker_id l = 2) ∧
  (∀ l, l ∈ likes ann_likes_bob → l ∉ likes ann_and_bob_matched →
        Like.liker_id l = 2) ∧
  (∀ m, m ∈ messages ann_and_bob_matched → m ∉ messages ann_likes_bob →
        Message.sender_id m = 2 ∧
        ∃ M, M ∈ matches ann_likes_bob ∧ Match.id M = Message.match_id m ∧
             (Match.user1_id M = 2 ∨ Match.user2_id M = 2)) ∧
  (∀ m, m ∈ messages ann_likes_bob → m ∈ messages ann_and_bob_matched) ∧
  (∀ p, p ∈ profiles ann_and_bob_matched → p ∉ profiles ann_likes_bob →
        Profile.id p = 2) ∧
  (∀ p, p ∈ profiles ann_likes_bob → p ∉ profiles ann_and_bob_matched →
        Profile.id p = 2) ∧
  (∀ n, n ∈ notifications ann_likes_bob → n ∉ notifications ann_and_bob_matched →
        Notification.user_id n = 2).
Proof.
  apply (writes_as_oneself 2 (InsertLike 11 21 33 34 35 2 1 (Some true))
           ann_likes_bob ann_and_bob_matched).
  - do 2 apply run_reachable. apply rtc_refl.
  - vm_compute. reflexivity.
Defined.

(** ** The notifications screen *)

Lemma payload_like nid NEW name : payload_ok (like_notification nid NEW name).
Proof.
  unfold payload_ok, like_notification, payload_keys.
  cbn [Notification.data Notification.type].
  destruct (IS_TRUE (Like.is_super_like NEW));
    rewrite !bool_decide_eq_false_2 by (vm_compute; congruence);
    rewrite dom_insert_L, dom_singleton_L; set_solver.
Qed.

Lemma payload_match nid m to other name :
  payload_ok (match_notification nid m to other name).
Proof.
  unfold payload_ok, match_notification, payload_keys.
  cbn [Notification.data Notification.type].
  rewrite bool_decide_eq_false_2 by (vm_compute; congruence).
  rewrite bool_decide_eq_true_2 by done.
  rewrite dom_insert_L, dom_singleton_L; set_solver.
Qed.

Lemma payload_notified db db' ns :
  notified db db' ns → Forall payload_ok ns →
  Forall payload_ok (notifications db) → Forall payload_ok (notifications db').
Proof.
  intros (_ & _ & _ & _ & -> & _) Hns Hdb. by apply Forall_app.
Qed.

Lemma insert_like_payload lid mid nm1 nm2 nl A B s db db' :
  insert_like lid mid nm1 nm2 nl A B s db = Ok db' →
  Forall payload_ok (notifications db) → Forall payload_ok (notifications db').
Proof.
  intros (_ & _ & _ & _ & name & _ &
          [[_ Hn]|(n1 & n2 & _ & _ & _ & _ & _ & Hn)])%insert_like_inv Hdb;
    (eapply payload_notified; [exact Hn| |exact Hdb]);
    repeat constructor; auto using payload_like, payload_match.
Qed.

Lemma exec_payload st db db' :
  exec st db = Ok db' →
  Forall payload_ok (notifications db) → Forall payload_ok (notifications db').
Proof.
  destruct st; cbn [exec].
  - unfold insert_profile. intros H. ok_inv H. by injection H as <-.
  - by intros [= <-].
  - apply insert_like_payload.
  - unfold upsert_like. destruct (like_exists db liker liked);
      [by intros [= <-]|apply insert_like_payload].
  - by intros [= <-].
  - intros (_ & _ & _ & n & M & name & Hn & _ & _ & ->)%insert_message_inv Hdb.
    eapply payload_notified; [exact Hn| |exact Hdb].
    constructor; [|constructor].
    unfold payload_ok, payload_keys. cbn [Notification.data Notification.type].
    rewrite bool_decide_eq_true_2 by done.
    rewrite !dom_insert_L, dom_singleton_L; set_solver.
  - intros [= <-] Hdb. cbn [mark_read set_notifications notifications].
    apply Forall_fmap. eapply Forall_impl; [exact Hdb|].
    intros n Hn. simpl. by case_bool_decide.
  - intros [= <-] Hdb. cbn [delete_notification set_notifications notifications].
    rewrite Forall_forall in Hdb. apply Forall_forall.
    intros n [_ Hin]%list_elem_of_filter. by apply Hdb.
Qed.

Lemma reachable_payload db :
  reachable db → Forall payload_ok (notifications db).
Proof.
  revert db. apply rtc_ind_r; [constructor|].
  intros db db' _ [st [H|[uid H]]] Hi; [by eapply exec_payload|].
  destruct st; unfold as_authenticated in H;
    try (ok_inv H; by eapply exec_payload);
    try (destruct (Policy.profiles_own _ _); [by eapply exec_payload|]);
    try (destruct (Policy.notifications_own _ _ _); [by eapply exec_payload|]);
    by injection H as <-.
Qed.

(** X11.  Pressing a notification the server has written goes to the matches
    tab for a like, a super like and a match, and nowhere for a message:
    the triggers store the match under the key [match_id], the screen
    looks for [matchId], so the chat is never opened from here. *)
Theorem press_never_opens_chat user src n st db :
  reachable db →
  n ∈ notifications db →
  (NotificationsScreen.handleNotificationPress user
     {| NotificationsScreen.row := n; NotificationsScreen.source_profile := src |}
     st db).1 =
    if bool_decide (Notification.type n = lit "message") then None
    else Some NotificationsScreen.matches_tab.
Proof.
  intros Hr Hn.
  pose proof (reachable_payload _ Hr) as Hp. rewrite Forall_forall in Hp.
  pose proof (notifications_fkey _ (reachable_keys _ Hr)) as Hty.
  rewrite Forall_forall in Hty.
  destruct (Hty _ Hn) as [_ Ht]. specialize (Hp _ Hn).
  unfold NotificationsScreen.handleNotificationPress.
  cbn [fst NotificationsScreen.row].
  unfold notification_types in Ht. unfold payload_ok, payload_keys in Hp.
  repeat (apply elem_of_cons in Ht as [Ht|Ht]); [..|by apply elem_of_nil in Ht];
    rewrite Ht in Hp |- *.
  - done.
  - done.
  - done.
  - rewrite bool_decide_eq_true_2 in Hp by done.
    assert (Notification.data n !! "matchId"%string = None) as Hk.
    { apply not_elem_of_dom. rewrite Hp, !elem_of_union, !elem_of_singleton.
      by intros [[?|?]|?]. }
    rewrite !bool_decide_eq_false_2 by (vm_compute; congruence).
    rewrite !bool_decide_eq_true_2 by done. by rewrite Hk.
Qed.

Lemma press_never_opens_chat_witness :
  (NotificationsScreen.handleNotificationPress (Some 2)
     {| NotificationsScreen.row := bobs_message_notification;
        NotificationsScreen.source_profile := None |}
     [] ann_wrote).1 =
    if bool_decide (Notification.type bobs_message_notification = lit "message")
    then None else Some NotificationsScreen.matches_tab.
Proof.
  apply (press_never_opens_chat (Some 2) None bobs_message_notification [] ann_wrote).
  - do 4 apply run_reachable. apply rtc_refl.
  - vm_compute. do 4 right. left.
Defined.

(** ** The chat screen *)

Lemma trimStart_head s x :
  head (ChatScreen.trimStart s) = Some x → ChatScreen.is_space x = false.
Proof.
  induction s as [|c s IH]; [done|]. cbn [ChatScreen.trimStart].
  destruct (ChatScreen.is_space c) eqn:E; [done|]. by intros [= <-].
Qed.

Lemma trimStart_last s :
  ChatScreen.trimStart s = [] ∨ last (ChatScreen.trimStart s) = last s.
Proof.
  induction s as [|c s IH]; [by left|]. cbn [ChatScreen.trimStart].
  destruct (ChatScreen.is_space c); [|by right].
  destruct IH as [IH|IH]; [by left|].
  destruct s as [|d s]; [by left|]. right. by rewrite IH.
Qed.

Lemma trim_trimmed s : ChatScreen.trim s ≠ [] → trimmed (ChatScreen.trim s).
Proof.
  intros Hne. split; [done|]. unfold ChatScreen.trim in *. split; intros x.
  - rewrite head_reverse.
    destruct (trimStart_last (reverse (ChatScreen.trimStart s))) as [E|E].
    + by rewrite E in Hne.
    + rewrite E, last_reverse. apply trimStart_head.
  - rewrite last_reverse. apply trimStart_head.
Qed.

Lemma heart_trimmed : trimmed ChatScreen.heart.
Proof.
  split; [done|]. split; intros x; cbn; by intros [= <-].
Qed.

(** X12.  Whatever is typed, the chat screen stores no blank and no padded
    message.  [sendMessage] either leaves [messages] as it is, or adds one
    row, sent by the signed-in user, whose content is not empty and has no
    white space at either end: the trimmed input, or the heart when the
    input of an emoji or like message is blank. *)
Theorem sent_message_is_trimmed user matchId msgid nid content type st db :
  messages (ChatScreen.sendMessage user matchId msgid nid content type st db).2
    = messages db ∨
  ∃ u c,
    user = Some u ∧ trimmed c ∧
    (c = ChatScreen.trim content ∨
     (ChatScreen.trim content = [] ∧ type ≠ ChatScreen.text_kind ∧
      c = ChatScreen.heart)) ∧
    messages (ChatScreen.sendMessage user matchId msgid nid content type st db).2
      = messages db ++
        [{| Message.id := msgid; Message.match_id := matchId;
            Message.sender_id := u; Message.content := c;
            Message.message_type := Some (ChatScreen.kind_text type) |}].
Proof.
  unfold ChatScreen.sendMessage.
  destruct (bool_decide (ChatScreen.trim content = []) &&
            bool_decide (type = ChatScreen.text_kind)) eqn:Hblank; [by left|].
  destruct user as [u|]; [|by left]. cbv zeta.
  destruct (as_authenticated u _ db) as [db'|e] eqn:H; [|by left].
  right. cbn [snd]. unfold as_authenticated in H. ok_inv H. cbn [exec] in H.
  apply insert_message_tables in H as (_ & _ & Hg & _).
  eexists u, _. split; [done|]. split; [|split; [|exact Hg]].
  - destruct (ChatScreen.trim content) as [|c t] eqn:E; [apply heart_trimmed|].
    rewrite <- E. apply trim_trimmed. by rewrite E.
  - destruct (ChatScreen.trim content) as [|c t] eqn:E; [|by left]. right.
    rewrite bool_decide_eq_true_2 in Hblank by done.
    split; [done|]. split; [|done]. intros ->. done.
Qed.

Example padded_message :
  messages
    (ChatScreen.sendMessage (Some 1) 21 40 41 (lit "  Hi Bob ") ChatScreen.text_kind
       {| ChatScreen.newMessage := lit "  Hi Bob "; ChatScreen.showEmojiPicker := false |}
       ann_and_bob_matched).2
  = [{| Message.id := 40; Message.match_id := 21; Message.sender_id := 1;
        Message.content := lit "Hi Bob";
        Message.message_type := Some (lit "text") |}].
Proof. vm_compute. reflexivity. Qed.

(** ** The banner and the stored notification *)

(** X13.  The banner the client shows for a like and the row the trigger stores
    for it say the same when the liker has a non-empty first name, and
    only then: for an empty name the row starts with the blank, the banner
    with "Someone".  A super like is stored with its own type and title,
    while the banner is always a "like" titled "New Like!". *)
Theorem like_banner_and_notification nid NEW p db db' :
  create_like_notification nid NEW db = Ok db' →
  select_first_name db (Like.liker_id NEW) = Some (Profile.first_name p) →
  ∃ n, notifications db' = notifications db ++ [n] ∧
       Notification.user_id n = Like.liked_id NEW ∧
       (NotificationProvider.message (NotificationProvider.on_like (Some p) NEW)
          = Notification.message n ↔ Profile.first_name p ≠ []) ∧
       (NotificationProvider.type (NotificationProvider.on_like (Some p) NEW)
          = Notification.type n ↔ IS_TRUE (Like.is_super_like NEW) = false) ∧
       (NotificationProvider.title (NotificationProvider.on_like (Some p) NEW)
          = Notification.title n ↔ IS_TRUE (Like.is_super_like NEW) = false).
Proof.
  intros (n & name & Hn & Hname & ->)%create_like_notification_inv Hp.
  rewrite Hname in Hp. injection Hp as ->.
  destruct Hn as (_ & _ & _ & _ & Hn & _).
  eexists. split; [exact Hn|]. split; [done|].
  cbn [Notification.message Notification.type Notification.title
       NotificationProvider.on_like NotificationProvider.message
       NotificationProvider.type NotificationProvider.title
       fmap option_fmap option_map].
  split; [|destruct (IS_TRUE (Like.is_super_like NEW)); split; split; done].
  destruct (Profile.first_name p) as [|c s]; cbn [NotificationProvider.or_else].
  - destruct (IS_TRUE (Like.is_super_like NEW)); split; [|done| |done];
      vm_compute; intros [=].
  - destruct (IS_TRUE (Like.is_super_like NEW)); (split; [done|]); intros _;
      f_equal.
Qed.

Lemma like_banner_and_notification_witness :
  ∃ n, notifications (commit ann_and_bob
                        (create_like_notification 32 (like_row 10 1 2 (Some true))
                           ann_and_bob))
         = notifications ann_and_bob ++ [n] ∧
       Notification.user_id n = Like.liked_id (like_row 10 1 2 (Some true)) ∧
       (NotificationProvider.message
          (NotificationProvider.on_like
             (Some {| Profile.id := 1; Profile.first_name := lit "Ann" |})
             (like_row 10 1 2 (Some true)))
          = Notification.message n ↔
        Profile.first_name {| Profile.id := 1; Profile.first_name := lit "Ann" |} ≠ []) ∧
       (NotificationProvider.type
          (NotificationProvider.on_like
             (Some {| Profile.id := 1; Profile.first_name := lit "Ann" |})
             (like_row 10 1 2 (Some true)))
          = Notification.type n ↔
        IS_TRUE (Like.is_super_like (like_row 10 1 2 (Some true))) = false) ∧
       (NotificationProvider.title
          (NotificationProvider.on_like
             (Some {| Profile.id := 1; Profile.first_name := lit "Ann" |})
             (like_row 10 1 2 (Some true)))
          = Notification.title n ↔
        IS_TRUE (Like.is_super_like (like_row 10 1 2 (Some true))) = false).
Proof.
  apply (like_banner_and_notification 32 (like_row 10 1 2 (Some true))
           {| Profile.id := 1; Profile.first_name := lit "Ann" |} ann_and_bob).
  - vm_compute. reflexivity.
  - vm_compute. reflexivity.
Defined.

(** X14.  The two rows stored for a match and the banners of the two users say
    the same whenever the other user's first name is not empty; for an
    empty name the banner says "someone" and the row leaves a gap. *)
Theorem match_banner_and_notification nid1 nid2 NEW p1 p2 db db' :
  create_match_notification nid1 nid2 NEW db = Ok db' →
  select_first_name db (Match.user1_id NEW) = Some (Profile.first_name p1) →
  select_first_name db (Match.user2_id NEW) = Some (Profile.first_name p2) →
  ∃ n1 n2,
    notifications db' = notifications db ++ [n1; n2] ∧
    Notification.user_id n1 = Match.user1_id NEW ∧
    Notification.user_id n2 = Match.user2_id NEW ∧
    (NotificationProvider.message (NotificationProvider.on_match (Some p2) NEW)
       = Notification.message n1 ↔ Profile.first_name p2 ≠ []) ∧
    (NotificationProvider.message (NotificationProvider.on_match (Some p1) NEW)
       = Notification.message n2 ↔ Profile.first_name p1 ≠ []).
Proof.
  intros (n1 & n2 & name1 & name2 & Hn & Hn1 & Hn2 & -> & ->)
    %create_match_notification_inv Hp1 Hp2.
  rewrite Hn1 in Hp1. rewrite Hn2 in Hp2. injection Hp1 as ->. injection Hp2 as ->.
  destruct Hn as (_ & _ & _ & _ & Hn & _).
  eexists _, _. split; [exact Hn|]. split; [done|]. split; [done|].
  cbn [Notification.message NotificationProvider.on_match
       NotificationProvider.message fmap option_fmap option_map].
  split.
  - destruct (Profile.first_name p2) as [|c s]; cbn [NotificationProvider.or_else].
    + split; [|done]. vm_compute. intros [=].
    + done.
  - destruct (Profile.first_name p1) as [|c s]; cbn [NotificationProvider.or_else].
    + split; [|done]. vm_compute. intros [=].
    + done.
Qed.

Lemma match_banner_and_notification_witness :
  ∃ n1 n2,
    notifications
      (commit ann_and_bob
         (create_match_notification 33 34
            {| Match.id := 21; Match.user1_id := 1; Match.user2_id := 2 |}
            ann_and_bob))
      = notifications ann_and_bob ++ [n1; n2] ∧
    Notification.user_id n1
      = Match.user1_id {| Match.id := 21; Match.user1_id := 1; Match.user2_id := 2 |} ∧
    Notification.user_id n2
      = Match.user2_id {| Match.id := 21; Match.user1_id := 1; Match.user2_id := 2 |} ∧
    (NotificationProvider.message
       (NotificationProvider.on_match (Some bob)
          {| Match.id := 21; Match.user1_id := 1; Match.user2_id := 2 |})
       = Notification.message n1 ↔ Profile.first_name bob ≠ []) ∧
    (NotificationProvider.message
       (NotificationProvider.on_match
          (Some {| Profile.id := 1; Profile.first_name := lit "Ann" |})
          {| Match.id := 21; Match.user1_id := 1; Match.user2_id := 2 |})
       = Notification.message n2 ↔
     Profile.first_name {| Profile.id := 1; Profile.first_name := lit "Ann" |} ≠ []).
Proof.
  apply (match_banner_and_notification 33 34
           {| Match.id := 21; Match.user1_id := 1; Match.user2_id := 2 |}
           {| Profile.id := 1; Profile.first_name := lit "Ann" |} bob ann_and_bob).
  - vm_compute. reflexivity.
  - vm_compute. reflexivity.
  - vm_compute. reflexivity.
Defined.

(** ** The text of a message notification *)

(** X15.  The notification of a message quotes at most 50 characters of it: the
    stored text is the sender's first name, a colon and a blank, and
    either the whole content (up to 50 characters) or its first 50
    characters and three dots.  It is never longer than the name plus 55
    characters, and it goes to a participant of the match. *)
Theorem message_notification_text msgid nid m sender (c : text) ty db db' :
  insert_message msgid nid m sender c ty db = Ok db' →
  ∃ n name M,
    notifications db' = notifications db ++ [n] ∧
    select_first_name db sender = Some name ∧
    select_match db m = Some M ∧
    (Notification.user_id n = Match.user1_id M ∨
     Notification.user_id n = Match.user2_id M) ∧
    Notification.message n =
      name ++ lit ": " ++
      (if bool_decide (length c ≤ 50)%nat then c else take 50 c ++ lit "...") ∧
    (length (Notification.message n) ≤ length name + 55)%nat.
Proof.
  intros (_ & _ & _ & n & M & name & Hn & HM & Hname & ->)%insert_message_inv.
  destruct Hn as (_ & _ & _ & _ & Hn & _).
  eexists _, name, M. split; [exact Hn|]. split; [done|]. split; [done|].
  cbn [Notification.user_id Notification.message]. split; [|split].
  - case_bool_decide; [by right|by left].
  - repeat case_bool_decide; try done; lia.
  - destruct (decide (50 < length c)%nat) as [Hlen|Hlen];
      [rewrite bool_decide_eq_true_2 by done|rewrite bool_decide_eq_false_2 by done];
      rewrite ?length_app, ?length_take;
      change (length (lit ": ")) with 2%nat;
      change (length (lit "...")) with 3%nat; lia.
Qed.

Lemma message_notification_text_witness :
  ∃ n name M,
    notifications ann_wrote = notifications ann_and_bob_matched ++ [n] ∧
    select_first_name ann_and_bob_matched 1 = Some name ∧
    select_match ann_and_bob_matched 21 = Some M ∧
    (Notification.user_id n = Match.user1_id M ∨
     Notification.user_id n = Match.user2_id M) ∧
    Notification.message n =
      name ++ lit ": " ++
      (if bool_decide (length (lit "Hi Bob") ≤ 50)%nat then lit "Hi Bob"
       else take 50 (lit "Hi Bob") ++ lit "...") ∧
    (length (Notification.message n) ≤ length name + 55)%nat.
Proof.
  apply (message_notification_text 40 41 21 1 (lit "Hi Bob") (Some (lit "text"))
           ann_and_bob_matched ann_wrote).
  vm_compute. reflexivity.
Defined.

(** ** Small functions of the client *)

(** X16.  The age label counts whole units, rounded down, and never shows a
    count out of its unit's range: "just now" below one minute (also for
    a date in the future), 1 to 59 minutes, 1 to 23 hours, and days from
    24 hours on. *)
Theorem getTimeAgo_label (now date : Z) :
  ((now - date < 60000)%Z →
   NotificationsScreen.getTimeAgo now date = lit "just now") ∧
  ((60000 ≤ now - date < 3600000)%Z →
   NotificationsScreen.getTimeAgo now date
     = decimal ((now - date) / 60000) ++ lit "m ago" ∧
   (1 ≤ (now - date) / 60000 ≤ 59)%Z) ∧
  ((3600000 ≤ now - date < 86400000)%Z →
   NotificationsScreen.getTimeAgo now date
     = decimal ((now - date) / 3600000) ++ lit "h ago" ∧
   (1 ≤ (now - date) / 3600000 ≤ 23)%Z) ∧
  ((86400000 ≤ now - date)%Z →
   NotificationsScreen.getTimeAgo now date
     = decimal ((now - date) / 86400000) ++ lit "d ago" ∧
   (1 ≤ (now - date) / 86400000)%Z).
Proof.
  unfold NotificationsScreen.getTimeAgo. cbv zeta.
  change (1000 * 60)%Z with 60000%Z.
  generalize (now - date)%Z. intros d.
  assert (d / 60000 / 60 = d / 3600000)%Z as E1
    by (rewrite Z.div_div by lia; done).
  assert (d / 60000 / 1440 = d / 86400000)%Z as E2
    by (rewrite Z.div_div by lia; done).
  rewrite E1, E2. clear E1 E2.
  split_and!; intros H.
  - assert (d / 60000 < 1)%Z by (apply Z.div_lt_upper_bound; lia).
    by rewrite (proj2 (Z.ltb_lt _ _)).
  - assert (1 ≤ d / 60000)%Z by (apply Z.div_le_lower_bound; lia).
    assert (d / 60000 < 60)%Z by (apply Z.div_lt_upper_bound; lia).
    rewrite (proj2 (Z.ltb_ge _ 1)), (proj2 (Z.ltb_lt _ 60)) by lia.
    split; [done|lia].
  - assert (60 ≤ d / 60000)%Z by (apply Z.div_le_lower_bound; lia).
    assert (d / 60000 < 1440)%Z by (apply Z.div_lt_upper_bound; lia).
    assert (1 ≤ d / 3600000)%Z by (apply Z.div_le_lower_bound; lia).
    assert (d / 3600000 < 24)%Z by (apply Z.div_lt_upper_bound; lia).
    rewrite (proj2 (Z.ltb_ge _ 1)), (proj2 (Z.ltb_ge _ 60)),
      (proj2 (Z.ltb_lt _ 1440)) by lia.
    split; [done|lia].
  - assert (1440 ≤ d / 60000)%Z by (apply Z.div_le_lower_bound; lia).
    assert (1 ≤ d / 86400000)%Z by (apply Z.div_le_lower_bound; lia).
    rewrite (proj2 (Z.ltb_ge _ 1)), (proj2 (Z.ltb_ge _ 60)),
      (proj2 (Z.ltb_ge _ 1440)) by lia.
    done.
Qed.

Example two_hours_ago :
  NotificationsScreen.getTimeAgo 1700007260000 1700000000000 = lit "2h ago".
Proof. vm_compute. reflexivity. Qed.

Example clock_skew :
  NotificationsScreen.getTimeAgo 1700000000000 1700000300000 = lit "just now".
Proof. vm_compute. reflexivity. Qed.

(** The status line of the chat shows "typing..." before "online", and
    for a user who is neither, the same age label as the notifications
    screen, taken from [last_seen]. *)
Lemma getStatusText_label (now : Z) (s : ChatScreen.UserStatus) :
  ChatScreen.getStatusText now (Some s) =
    if ChatScreen.is_typing s then lit "typing..."
    else if ChatScreen.is_online s then lit "online"
    else NotificationsScreen.getTimeAgo now (ChatScreen.last_seen s).
Proof. done. Qed.

(** X17.  The photo index stays on a photo of the card, and [prevPhoto] undoes
    [nextPhoto] and the other way round, wrapping at both ends. *)
Theorem photo_index_round_trip (photos : list text) (i : nat) :
  (i < max 1 (length photos))%nat →
  (Photos.nextPhoto (Some photos) i < max 1 (length photos))%nat ∧
  (Photos.prevPhoto (Some photos) i < max 1 (length photos))%nat ∧
  Photos.prevPhoto (Some photos) (Photos.nextPhoto (Some photos) i) = i ∧
  Photos.nextPhoto (Some photos) (Photos.prevPhoto (Some photos) i) = i.
Proof.
  intros Hi. unfold Photos.nextPhoto, Photos.prevPhoto.
  repeat case_bool_decide; lia.
Qed.

Lemma photo_index_round_trip_witness :
  (Photos.nextPhoto (Some [lit "a.jpg"; lit "b.jpg"; lit "c.jpg"]) 2
     < max 1 (length [lit "a.jpg"; lit "b.jpg"; lit "c.jpg"]))%nat ∧
  (Photos.prevPhoto (Some [lit "a.jpg"; lit "b.jpg"; lit "c.jpg"]) 2
     < max 1 (length [lit "a.jpg"; lit "b.jpg"; lit "c.jpg"]))%nat ∧
  Photos.prevPhoto (Some [lit "a.jpg"; lit "b.jpg"; lit "c.jpg"])
    (Photos.nextPhoto (Some [lit "a.jpg"; lit "b.jpg"; lit "c.jpg"]) 2) = 2%nat ∧
  Photos.nextPhoto (Some [lit "a.jpg"; lit "b.jpg"; lit "c.jpg"])
    (Photos.prevPhoto (Some [lit "a.jpg"; lit "b.jpg"; lit "c.jpg"]) 2) = 2%nat.
Proof.
  apply (photo_index_round_trip [lit "a.jpg"; lit "b.jpg"; lit "c.jpg"] 2).
  simpl. lia.
Defined.

(** X18.  A banner is dismissed by the clock reading it was shown at, which is
    not a key: dismissing the banner just shown also removes every
    earlier banner of the same millisecond, and gives back the list as
    it was exactly when no earlier banner has that reading. *)
Theorem dismiss_by_clock_reading (t : N) b (prev : list NotificationContext.Notification) :
  NotificationContext.dismissNotification t
      (NotificationContext.showNotification t b prev)
    = NotificationContext.dismissNotification t prev ∧
  (NotificationContext.dismissNotification t
      (NotificationContext.showNotification t b prev) = prev ↔
   t ∉ NotificationContext.id <$> prev).
Proof.
  unfold NotificationContext.dismissNotification,
    NotificationContext.showNotification.
  assert (filter (λ n, NotificationContext.id n ≠ t)
            (prev ++ [{| NotificationContext.id := t; NotificationContext.body := b |}])
          = filter (λ n, NotificationContext.id n ≠ t) prev) as ->.
  { rewrite filter_app, filter_cons_False, filter_nil, app_nil_r; [done|].
    cbn. by intros ?. }
  split; [done|]. split.
  - intros E (n & Hid & Hn)%list_elem_of_fmap. rewrite <- E in Hn.
    by apply list_elem_of_filter in Hn as [? _].
  - intros Hn. apply filter_all, Forall_forall. intros n Hin E.
    apply Hn. rewrite <- E. by apply list_elem_of_fmap_2.
Qed.

(** ** Swiping and fetching again *)

(** X19.  A card that was liked does not come back: after [handleLike] has
    moved past the card (the like was accepted), no profile with that id
    is in the list the next [fetchProfiles] stores.  A card that was
    passed leaves no trace in the database, so nothing keeps it from
    coming back. *)
Theorem liked_card_stays_away u lid mid nm1 nm2 nl isSuperLike st db st' db' p st0 :
  DiscoverScreen.profiles st !! DiscoverScreen.currentIndex st = Some p →
  DiscoverScreen.handleLike (Some u) lid mid nm1 nm2 nl true isSuperLike st db
    = (st', db') →
  DiscoverScreen.currentIndex st' = S (DiscoverScreen.currentIndex st) →
  like_exists db' u (Profile.id p) = true ∧
  (∀ P, P ∈ DiscoverScreen.profiles
              (DiscoverScreen.fetchProfiles (Some u)
                 (answered (DiscoverScreen.select_liked_ids db' u))
                 (λ q, answered (DiscoverScreen.run q db')) st0) →
        Profile.id P ≠ Profile.id p) ∧
  (DiscoverScreen.handleLike (Some u) lid mid nm1 nm2 nl false isSuperLike st db).2
    = db.
Proof.
  intros Hp H Hnext. unfold DiscoverScreen.handleLike in *. rewrite Hp in *.
  assert (like_exists db' u (Profile.id p) = true) as Hliked.
  { destruct (as_authenticated u _ db) as [db1|e] eqn:Hs;
      injection H as <- <-; [|lia].
    unfold as_authenticated in Hs. ok_inv Hs. apply negb_true_iff in Hx0.
    cbn [exec] in Hs. unfold upsert_like in Hs. rewrite Hx0 in Hs.
    apply insert_like_tables in Hs as (_ & _ & Hl & _).
    apply like_exists_spec. rewrite Hl, fmap_app, elem_of_app. right. left. }
  split; [done|]. split; [|done].
  apply liked_ids_spec in Hliked.
  unfold DiscoverScreen.fetchProfiles.
  cbn [error answered data default from_option DiscoverScreen.profiles id].
  intros P HP%run_admits E.
  unfold DiscoverScreen.admits in HP. apply andb_true_iff in HP as [_ HP].
  cbn [DiscoverScreen.not_in] in HP. rewrite E in HP.
  case_bool_decide as Hlen.
  - cbn in HP. by apply bool_decide_eq_true in HP.
  - destruct (DiscoverScreen.select_liked_ids db' u);
      [by apply elem_of_nil in Hliked|]. simpl in Hlen. lia.
Qed.

Lemma liked_card_stays_away_witness :
  like_exists ann_likes_bob 1 (Profile.id bob) = true ∧
  (∀ P, P ∈ DiscoverScreen.profiles
              (DiscoverScreen.fetchProfiles (Some 1)
                 (answered (DiscoverScreen.select_liked_ids ann_likes_bob 1))
                 (λ q, answered (DiscoverScreen.run q ann_likes_bob)) ann_sees_bob) →
        Profile.id P ≠ Profile.id bob) ∧
  (DiscoverScreen.handleLike (Some 1) 10 20 30 31 32 false false ann_sees_bob
     ann_and_bob).2 = ann_and_bob.
Proof.
  apply (liked_card_stays_away 1 10 20 30 31 32 false ann_sees_bob ann_and_bob
           {| DiscoverScreen.profiles := [bob]; DiscoverScreen.currentIndex := 1;
              DiscoverScreen.loading := false |}
           ann_likes_bob bob ann_sees_bob).
  - reflexivity.
  - vm_compute. reflexivity.
  - reflexivity.
Defined.
